(** * Backup / restore orchestration of [backup.js] (Postgres + Backblaze B2)

    A shallow embedding of [src/backup.js]: environment resolution, artifact
    naming, selection of the latest local artifact, restore with its
    decompressed intermediate, upload with local cleanup and the remote
    retention pass, and the command dispatcher.

    Strings are [string]; [process.env] is a [gmap string string]; the local
    file system is the set of paths that exist; the bucket is a finite map
    from object key to last-modified time.  The outcomes of the external
    collaborators (child processes, streams, the calls on the staging
    directory, the S3 client, the clock, the URL parser) are read from an
    oracle record, so every theorem holds for all their behaviours.

    A piece of the script returns, ends with an error that its caller
    receives, or ends the process on an error that no caller receives (an
    [error] event without a listener, an exception at the top level); the
    three are kept apart, since a [try] only sees the second. *)

From Stdlib Require Import ZArith List String Ascii Lia Permutation Sorted.
From stdpp Require Import base option list gmap sets strings sorting.
Import ListNotations.

Local Open Scope string_scope.
Local Open Scope Z_scope.
Local Open Scope list_scope.

(* ================================================================== *)
(** ** Strings as the script uses them *)

Module Str.

(** The double-quote character (the command templates quote their paths). *)
Definition dquote : string := String (ascii_of_nat 34) EmptyString.

(** [s.endsWith(suf)]: some suffix of [s] is [suf]. *)
Fixpoint endsWith (s suf : string) : bool :=
  if String.eqb s suf then true
  else match s with
       | EmptyString => false
       | String _ s' => endsWith s' suf
       end.

(** [s.replace(/<suf>$/, empty)] for a literal, non-empty [suf]: the match
    can only be the suffix at the end of [s]. *)
Fixpoint stripSuffix (suf s : string) : string :=
  if String.eqb s suf then EmptyString
  else match s with
       | EmptyString => EmptyString
       | String c s' => String c (stripSuffix suf s')
       end.

(** [s.replace(/[:.]/g, dash)]: every character is replaced on its own. *)
Definition dashChar (c : ascii) : ascii :=
  if (Ascii.eqb c ":" || Ascii.eqb c ".")%bool then "-"%char else c.

Fixpoint mapChars (f : ascii -> ascii) (s : string) : string :=
  match s with
  | EmptyString => EmptyString
  | String c s' => String (f c) (mapChars f s')
  end.

Definition replaceColonDot (s : string) : string := mapChars dashChar s.

(** Does the character occur in the string. *)
Fixpoint mem (c : ascii) (s : string) : bool :=
  match s with
  | EmptyString => false
  | String d s' => (Ascii.eqb c d || mem c s')%bool
  end.

(** JS truthiness of a string value. *)
Definition truthy (s : string) : bool := negb (String.eqb s EmptyString).

(** [s.split] on the slash, never empty. *)
Fixpoint splitSlash (s : string) : list string :=
  match s with
  | EmptyString => [EmptyString]
  | String c s' =>
      if Ascii.eqb c "/" then EmptyString :: splitSlash s'
      else match splitSlash s' with
           | [] => [String c EmptyString]
           | seg :: rest => String c seg :: rest
           end
  end.

(** [segs.join] with the slash. *)
Fixpoint joinSlash (segs : list string) : string :=
  match segs with
  | [] => EmptyString
  | [seg] => seg
  | seg :: rest => seg +:+ "/" +:+ joinSlash rest
  end.

(** Decimal digits, zero padded to [w] places (lowest [w] digits). *)
Definition digit (n : nat) : ascii := ascii_of_nat (48 + n mod 10).

Fixpoint pad (w : nat) (n : nat) : string :=
  match w with
  | O => EmptyString
  | S w' => pad w' (n / 10) +:+ String (digit n) EmptyString
  end.

End Str.

(* ================================================================== *)
(** ** [path] (POSIX flavour, as in the container images) *)

Module Path.

(** [normalizeString]: the stack of kept segments, most recent first. *)
Definition pushSegment (allowAboveRoot : bool) (res : list string) (seg : string)
  : list string :=
  if (String.eqb seg EmptyString || String.eqb seg ".")%bool then res
  else if String.eqb seg ".." then
    match res with
    | [] => if allowAboveRoot then [".."] else []
    | top :: below =>
        if String.eqb top ".." then
          (if allowAboveRoot then ".." :: res else res)
        else below
    end
  else seg :: res.

Definition normalizeString (allowAboveRoot : bool) (p : string) : string :=
  Str.joinSlash
    (rev (fold_left (pushSegment allowAboveRoot) (Str.splitSlash p) [])).

Definition isAbsolute (p : string) : bool :=
  match p with
  | String c _ => Ascii.eqb c "/"
  | EmptyString => false
  end.

(** [path.normalize]. *)
Definition normalize (p : string) : string :=
  if String.eqb p EmptyString then "."
  else
    let trailingSeparator := Str.endsWith p "/" in
    let body := normalizeString (negb (isAbsolute p)) p in
    if String.eqb body EmptyString then
      (if isAbsolute p then "/" else if trailingSeparator then "./" else ".")
    else
      let body' := if trailingSeparator then body +:+ "/" else body in
      if isAbsolute p then "/" +:+ body' else body'.

(** [path.join(a, b)]: empty arguments are skipped. *)
Definition join (a b : string) : string :=
  if String.eqb a EmptyString then
    (if String.eqb b EmptyString then "." else normalize b)
  else if String.eqb b EmptyString then normalize a
  else normalize (a +:+ "/" +:+ b).

(** [path.basename(p)]: the last non-empty segment (trailing separators are
    ignored); empty when there is none. *)
Definition basename (p : string) : string :=
  match filter (fun seg => seg <> EmptyString) (rev (Str.splitSlash p)) with
  | [] => EmptyString
  | seg :: _ => seg
  end.

End Path.

(* ================================================================== *)
(** ** Environment resolution (lines 29-61) *)

(** What [new URL(s)] exposes to the script. *)
Record Url := {
  hostname : string;
  port : string;
  username : string;
  password : string;
  pathname : string;
}.

(** The constants destructured from [process.env], with [BACKUP_DIR]. *)
Record Config := {
  DB_HOST : string;
  DB_USERNAME : string;
  DB_PASSWORD : option string;
  DB_NAME : string;
  DB_PORT : string;
  B2_BUCKET : option string;
  BACKUP_DIR : string;
}.

(** What a run does that can be observed from outside, in order.  Console
    lines are kept without their pictograms. *)
Inductive Event :=
| Log (msg : string)               (* console.log *)
| LogError (msg : string)          (* console.error *)
| Exec (cmd : string)              (* child_process.exec *)
| Gunzip (src dst : string)        (* read | gunzip | write pipeline *)
| GzipDump (cmd dst : string)      (* exec stdout | gzip | write pipeline *)
| Unlink (path : string)           (* fs.unlinkSync *)
| Mkdir (path : string)            (* fs.mkdirSync, recursive *)
| S3Put (key : string)
| S3List
| S3Delete (key : string).

Section Environment.

(** [new URL(s)]: [None] when the constructor throws. *)
Variable URL : string -> option Url.

(** [dbUrl.pathname.slice(1)]. *)
Definition slice1 (s : string) : string :=
  match s with
  | EmptyString => EmptyString
  | String _ s' => s'
  end.

(** A variable that is set and not the empty string. *)
Definition truthyVar (env : gmap string string) (k : string) : bool :=
  match env !! k with
  | Some v => Str.truthy v
  | None => false
  end.

(** Lines 30-41: the URL, when set and well formed, is written over the five
    discrete variables; a URL that does not parse is reported and the
    environment is left as it was. *)
Definition parseDatabaseUrl (env : gmap string string)
  : gmap string string * list Event :=
  match env !! "DATABASE_URL" with
  | Some s =>
      if Str.truthy s then
        match URL s with
        | Some dbUrl =>
            (<["DB_NAME" := slice1 (pathname dbUrl)]>
              (<["DB_PASSWORD" := password dbUrl]>
                (<["DB_USERNAME" := username dbUrl]>
                  (<["DB_PORT" := if Str.truthy (port dbUrl)
                                  then port dbUrl else "5432"]>
                    (<["DB_HOST" := hostname dbUrl]> env)))),
             [])
        | None => (env, [LogError "Failed to parse DATABASE_URL:"])
        end
      else (env, [])
  | None => (env, [])
  end.

(** The URL the fields are read from: set, not empty and well formed. *)
Definition databaseUrl (env : gmap string string) : option Url :=
  match env !! "DATABASE_URL" with
  | Some s => if Str.truthy s then URL s else None
  | None => None
  end.

(** Lines 43-54 and 61: destructuring with the default of [DB_PORT]. *)
Definition hostOf (env : gmap string string) := env !! "DB_HOST".
Definition usernameOf (env : gmap string string) := env !! "DB_USERNAME".
Definition passwordOf (env : gmap string string) := env !! "DB_PASSWORD".
Definition nameOf (env : gmap string string) := env !! "DB_NAME".
Definition portOf (env : gmap string string) : string :=
  default "5432" (env !! "DB_PORT").
Definition bucketOf (env : gmap string string) : option string := env !! "B2_BUCKET".
Definition backupDirOf (env : gmap string string) : string :=
  match env !! "BACKUP_DIR" with
  | Some d => if Str.truthy d then d else "./backups"
  | None => "./backups"
  end.

(** Lines 56-59: [None] is [process.exit(1)]. *)
Definition validate (env : gmap string string) : option Config :=
  match hostOf env, nameOf env, usernameOf env with
  | Some h, Some n, Some u =>
      if (Str.truthy h && Str.truthy n && Str.truthy u)%bool then
        Some {| DB_HOST := h; DB_USERNAME := u; DB_PASSWORD := passwordOf env;
                DB_NAME := n; DB_PORT := portOf env;
                B2_BUCKET := bucketOf env; BACKUP_DIR := backupDirOf env |}
      else None
  | _, _, _ => None
  end.

(** The whole prologue: the resolved configuration, or the fatal exit, with
    what was written to the console. *)
Definition resolve (env : gmap string string) : option Config * list Event :=
  let '(env', logs) := parseDatabaseUrl env in
  match validate env' with
  | Some cfg => (Some cfg, logs)
  | None => (None, logs ++ [LogError "Missing database config! Check Railway Variables."])
  end.

End Environment.

(* ================================================================== *)
(** ** Arrays: the stable [sort] with a comparator, and [slice] *)

Section Sorting.
Context {A : Type}.

(** [cmp a b <= 0] keeps [a] before [b]; equal elements keep their order,
    as [Array.prototype.sort] guarantees. *)
Variable cmp : A -> A -> Z.

Fixpoint insertSorted (x : A) (l : list A) : list A :=
  match l with
  | [] => [x]
  | y :: l' => if cmp x y <=? 0 then x :: l else y :: insertSorted x l'
  end.

Fixpoint sortBy (l : list A) : list A :=
  match l with
  | [] => []
  | x :: l' => insertSorted x (sortBy l')
  end.

End Sorting.

(* ================================================================== *)
(** ** Artifact naming (lines 92-101) *)

(** The UTC fields of a [Date]. *)
Record Date := {
  year : Z;
  month : nat;
  day : nat;
  hours : nat;
  minutes : nat;
  seconds : nat;
  milliseconds : nat;
}.

(** Years outside 0..9999 take a sign and six digits. *)
Definition yearString (y : Z) : string :=
  if (0 <=? y) && (y <=? 9999) then Str.pad 4 (Z.to_nat y)
  else (if y <? 0 then "-" else "+") +:+ Str.pad 6 (Z.to_nat (Z.abs y)).

Definition toISOString (d : Date) : string :=
  yearString (year d) +:+ "-" +:+ Str.pad 2 (month d) +:+ "-" +:+ Str.pad 2 (day d)
  +:+ "T" +:+ Str.pad 2 (hours d) +:+ ":" +:+ Str.pad 2 (minutes d)
  +:+ ":" +:+ Str.pad 2 (seconds d) +:+ "." +:+ Str.pad 3 (milliseconds d) +:+ "Z".

Definition timestampOf (d : Date) : string := Str.replaceColonDot (toISOString d).

Definition suffixOf (dataOnly : bool) : string :=
  if dataOnly then "data-only" else "full".

Definition extOf (dataOnly : bool) : string :=
  if dataOnly then "sql.gz" else "dump".

(** The template literal handed to [path.join] on line 95. *)
Definition artifactName (cfg : Config) (dataOnly : bool) (d : Date) : string :=
  DB_NAME cfg +:+ "-" +:+ suffixOf dataOnly +:+ "-" +:+ timestampOf d
  +:+ "." +:+ extOf dataOnly.

Definition outFileOf (cfg : Config) (dataOnly : bool) (d : Date) : string :=
  Path.join (BACKUP_DIR cfg) (artifactName cfg dataOnly d).

(** The two template literals continue their line with a backslash, which
    leaves the indentation of the next line inside the string. *)
Definition dumpCmd (cfg : Config) (dataOnly : bool) : string :=
  if dataOnly then
    "pg_dump -h " +:+ DB_HOST cfg +:+ " -p " +:+ DB_PORT cfg +:+ " -U "
    +:+ DB_USERNAME cfg +:+ "        --data-only --no-owner --no-acl "
    +:+ DB_NAME cfg
  else
    "pg_dump -h " +:+ DB_HOST cfg +:+ " -p " +:+ DB_PORT cfg +:+ " -U "
    +:+ DB_USERNAME cfg +:+ "        --no-owner --no-acl --clean --if-exists -Fc "
    +:+ DB_NAME cfg.

(** The template literal of line 117. *)
Definition dumpToFileCmd (cfg : Config) (outFile : string) : string :=
  dumpCmd cfg false +:+ " -f " +:+ Str.dquote +:+ outFile +:+ Str.dquote.

Definition restoreCmd (cfg : Config) (sqlFilePath : string) : string :=
  if Str.endsWith sqlFilePath ".dump" then
    "pg_restore -h " +:+ DB_HOST cfg +:+ " -p " +:+ DB_PORT cfg +:+ " -U "
    +:+ DB_USERNAME cfg +:+ "       --no-owner --no-acl --clean --if-exists -d "
    +:+ DB_NAME cfg +:+ " " +:+ Str.dquote +:+ sqlFilePath +:+ Str.dquote
  else
    "psql -h " +:+ DB_HOST cfg +:+ " -p " +:+ DB_PORT cfg +:+ " -U "
    +:+ DB_USERNAME cfg +:+ "       -d " +:+ DB_NAME cfg +:+ " -f "
    +:+ Str.dquote +:+ sqlFilePath +:+ Str.dquote.

(* ================================================================== *)
(** ** The latest local artifact (lines 78-88) *)

Record BackupFile := { name : string; time : Z }.

(** [/\.(sql|dump)(\.gz)?$/.test(f)]. *)
Definition isBackupName (f : string) : bool :=
  Str.endsWith f ".sql" || Str.endsWith f ".dump"
  || Str.endsWith f ".sql.gz" || Str.endsWith f ".dump.gz".

(** [readdir] is [fs.readdirSync(BACKUP_DIR)]; [mtime p] is
    [fs.statSync(p).mtime.getTime()]. *)
Definition backupFiles (dir : string) (readdir : list string) (mtime : string -> Z)
  : list BackupFile :=
  sortBy (fun a b => time b - time a)
    (map (fun f => {| name := f; time := mtime (Path.join dir f) |})
       (filter (fun f => isBackupName f = true) readdir)).

Definition getLatestBackup (dir : string) (readdir : list string)
    (mtime : string -> Z) : option string :=
  match backupFiles dir readdir mtime with
  | [] => None
  | f :: _ => Some (Path.join dir (name f))
  end.

(* ================================================================== *)
(** ** The world the script acts on *)

(** An object of a [ListObjectsV2] response. *)
Record S3Object := { Key : string; LastModified : Z }.

(** How a stream pipeline [a.pipe(b).pipe(c)] ends: [finish] on its sink
    [c], an [error] event of the sink, or an [error] event of an earlier
    stage (the source could not be opened or read, the (de)compressor met
    bad data).  [partial] tells whether the sink had been created by then.
    The two kinds of fault are kept apart because a listener attached to
    the value of [a.pipe(b).pipe(c)] listens to [c] alone. *)
Inductive StreamResult :=
| Finished
| SinkError (partial : bool) (err : string)
| StageError (partial : bool) (err : string).

(** The behaviour of the collaborators during one run. *)
Record Ext := {
  now : Date;                              (* new Date() *)
  dirExists : bool;                        (* fs.existsSync(BACKUP_DIR) *)
  mkdirOk : bool;                          (* fs.mkdirSync does not throw *)
  readdirOk : bool;                        (* fs.readdirSync does not throw *)
  readdir : list string;                   (* what it returns then *)
  statOk : string -> bool;                 (* fs.statSync(p) does not throw *)
  mtime : string -> Z;                     (* statSync(p).mtime.getTime() *)
  fsErr : string;                          (* message of a failed fs call *)
  execOk : string -> bool;                 (* exec's callback got no error *)
  execErr : string -> string;              (* stderr || error.message *)
  gunzipResult : string -> StreamResult;   (* restore's pipeline, by archive:
                                              opening it, gunzip, writing *)
  sinkResult : string -> StreamResult;     (* data-only pipeline, by sink *)
  putOk : string -> bool;                  (* PutObject, by key *)
  putTime : Z;                             (* LastModified of a new object *)
  listOk : bool;                           (* ListObjectsV2 *)
  deleteOk : string -> bool;               (* DeleteObject, by key *)
  s3Err : string;                          (* err.message of the client *)
}.

Record World := {
  files : gset string;        (* the local paths that exist *)
  bucket : gmap string Z;     (* key -> last-modified *)
  trace : list Event;         (* what happened, oldest first *)
}.

(** The completion of a piece of the script: it returned; it ended with an
    error that its caller receives (an exception thrown in its body, or the
    rejection of the promise it awaited); or an [error] event with no
    listener, or an exception at the top level, ended the whole process
    there and then.  No [try] of the script sees the last one, and the
    promise that was being awaited never settles. *)
Inductive Result (A : Type) :=
| Ok (a : A)
| Throw (err : string)
| Die (err : string).
Arguments Ok {A} a.
Arguments Throw {A} err.
Arguments Die {A} err.

Definition M (A : Type) : Type := World -> Result A * World.

Definition ret {A} (a : A) : M A := fun w => (Ok a, w).

Definition throw {A} (err : string) : M A := fun w => (Throw err, w).

Definition die {A} (err : string) : M A := fun w => (Die err, w).

Definition bind {A B} (m : M A) (k : A -> M B) : M B :=
  fun w => match m w with
           | (Ok a, w') => k a w'
           | (Throw err, w') => (Throw err, w')
           | (Die err, w') => (Die err, w')
           end.

(** [try { body } catch (err) { handler }]. *)
Definition tryCatch {A} (body : M A) (handler : string -> M A) : M A :=
  fun w => match body w with
           | (Ok a, w') => (Ok a, w')
           | (Throw err, w') => handler err w'
           | (Die err, w') => (Die err, w')
           end.

Declare Scope js_scope.
Delimit Scope js_scope with js.
Notation "x <- m ;; k" := (bind m (fun x => k))
  (at level 100, m at next level, right associativity) : js_scope.
Notation "m ;; k" := (bind m (fun _ => k))
  (at level 100, right associativity) : js_scope.
Local Open Scope js_scope.

Definition emit (e : Event) : M unit :=
  fun w => (Ok tt, {| files := files w; bucket := bucket w; trace := trace w ++ [e] |}).

Definition createFile (p : string) : M unit :=
  fun w => (Ok tt, {| files := {[p]} ∪ files w; bucket := bucket w; trace := trace w |}).

(** [for (const x of xs) { await body(x) }]: the first throw ends the loop. *)
Fixpoint forEach {A} (xs : list A) (body : A -> M unit) : M unit :=
  match xs with
  | [] => ret tt
  | x :: xs' => body x ;; forEach xs' body
  end.

Definition KEEP_LAST : nat := 7.

Section Program.

Variable cfg : Config.
Variable ext : Ext.

(** Lines 65-76. *)
Definition runCommand (cmd : string) : M unit :=
  emit (Exec cmd) ;;
  if execOk ext cmd then ret tt else throw (execErr ext cmd).

(** [fs.unlinkSync]: throws when the path does not exist. *)
Definition unlinkSync (p : string) : M unit :=
  emit (Unlink p) ;;
  fun w =>
    if decide (p ∈ files w) then
      (Ok tt, {| files := files w ∖ {[p]}; bucket := bucket w; trace := trace w |})
    else (Throw ("ENOENT: no such file or directory, unlink " +:+ p), w).

(** Lines 130-137.  [.on(finish, resolve).on(error, reject)] is chained on
    the write stream, the value of the last [pipe]: the promise resolves on
    its [finish] and rejects on its [error].  The read stream and the
    gunzip stream have no listener, so a fault of theirs (the archive
    cannot be opened, its data is not gzip) is not a rejection. *)
Definition gunzipTo (src dst : string) : M unit :=
  emit (Gunzip src dst) ;;
  match gunzipResult ext src with
  | Finished => createFile dst
  | SinkError partial err =>
      (if partial then createFile dst else ret tt) ;; throw err
  | StageError partial err =>
      (if partial then createFile dst else ret tt) ;; die err
  end.

(** Line 180: [fs.createReadStream(p)] with no [error] listener.  The
    stream opens the path on its own; when that fails nothing was read
    from it, so nothing is sent either. *)
Definition createReadStream (p : string) : M unit :=
  fun w =>
    if decide (p ∈ files w) then (Ok tt, w)
    else (Die ("ENOENT: no such file or directory, open " +:+ p), w).

Definition s3Put (key : string) : M unit :=
  emit (S3Put key) ;;
  if putOk ext key then
    fun w => (Ok tt, {| files := files w; bucket := <[key := putTime ext]> (bucket w);
                        trace := trace w |})
  else throw (s3Err ext).

(** [listResp.Contents]: absent for an empty bucket. *)
Definition contentsOf (b : gmap string Z) : option (list S3Object) :=
  match map_to_list b with
  | [] => None
  | kts => Some (map (fun kt => {| Key := kt.1; LastModified := kt.2 |}) kts)
  end.

Definition s3List : M (option (list S3Object)) :=
  emit S3List ;;
  if listOk ext then fun w => (Ok (contentsOf (bucket w)), w)
  else throw (s3Err ext).

Definition s3Delete (key : string) : M unit :=
  emit (S3Delete key) ;;
  if deleteOk ext key then
    fun w => (Ok tt, {| files := files w; bucket := delete key (bucket w);
                        trace := trace w |})
  else throw (s3Err ext).

(** Lines 203-206: the objects beyond the [KEEP_LAST] newest. *)
Definition oldFiles (contents : list S3Object) : list S3Object :=
  drop KEEP_LAST (sortBy (fun a b => LastModified b - LastModified a) contents).

(** Lines 197-213: the retention pass. *)
Definition retention : M unit :=
  listResp <- s3List ;;
  match listResp with
  | Some contents =>
      if (KEEP_LAST <? length contents)%nat then
        forEach (oldFiles contents) (fun file =>
          s3Delete (Key file) ;;
          emit (Log ("Deleted old backup: " +:+ Key file)))
      else ret tt
  | None => ret tt
  end.

(** Line 167: the bucket name is set and not empty. *)
Definition bucketSet : bool :=
  match B2_BUCKET cfg with
  | Some b => Str.truthy b
  | None => false
  end.

(** Lines 166-217.  The body stream is created before the [try]. *)
Definition uploadToBackblaze (filePath : string) : M unit :=
  if negb bucketSet then ret tt
  else
    let key := Path.basename filePath in
    createReadStream filePath ;;
    tryCatch
      (s3Put key ;;
       emit (Log ("Uploaded " +:+ key +:+ " -> Backblaze B2")) ;;
       unlinkSync filePath ;;
       emit (Log ("Local file deleted: " +:+ filePath)) ;;
       retention)
      (fun err => emit (LogError ("Backblaze upload/cleanup failed: " +:+ err))).

(** Lines 91-121.  In full mode the dump tool writes [outFile] itself; in
    data-only mode the exit status of the dump process is not observed,
    and no stream of the pipeline has an [error] listener: a fault of any
    stage ends the process. *)
Definition backup (dataOnly : bool) : M unit :=
  let outFile := outFileOf cfg dataOnly (now ext) in
  emit (Log ("Creating " +:+ suffixOf dataOnly +:+ " backup...")) ;;
  if dataOnly then
    emit (Exec (dumpCmd cfg true)) ;;
    emit (GzipDump (dumpCmd cfg true) outFile) ;;
    match sinkResult ext outFile with
    | Finished =>
        createFile outFile ;;
        emit (Log ("Backup saved: " +:+ outFile)) ;;
        uploadToBackblaze outFile
    | SinkError partial err | StageError partial err =>
        (if partial then createFile outFile else ret tt) ;; die err
    end
  else
    runCommand (dumpToFileCmd cfg outFile) ;;
    createFile outFile ;;
    emit (Log ("Backup saved: " +:+ outFile)) ;;
    uploadToBackblaze outFile.

(** Lines 124-157. *)
Definition restore (filePath : string) : M unit :=
  emit (Log ("Restoring from " +:+ filePath +:+ "...")) ;;
  sqlFilePath <-
    (if Str.endsWith filePath ".gz" then
       let decompressed := Str.stripSuffix ".gz" filePath in
       gunzipTo filePath decompressed ;; ret decompressed
     else ret filePath) ;;
  tryCatch
    (runCommand (restoreCmd cfg sqlFilePath) ;;
     emit (Log "Restore complete!"))
    (fun err => emit (LogError ("Restore failed: " +:+ err))) ;;
  if negb (String.eqb sqlFilePath filePath) then unlinkSync sqlFilePath
  else ret tt.

(** Lines 159-163.  The dev command is not awaited: its rejection has no
    handler, which leaves the run with an error all the same. *)
Definition restoreAndDev (filePath : string) : M unit :=
  restore filePath ;;
  emit (Log "Starting dev server...") ;;
  runCommand "npm run dev".

Definition usage : M unit :=
  emit (Log "Commands:") ;;
  emit (Log "  node backup.js backup          # Full backup (schema+data)") ;;
  emit (Log "  node backup.js backup-data     # Data-only backup") ;;
  emit (Log "  node backup.js restore [file]  # Restore backup") ;;
  emit (Log "  node backup.js restore-and-dev [file] # Restore then start dev").

(** [statSync] succeeds on every entry that [getLatestBackup] stats: the
    entries that pass its filter, in the order of the listing. *)
Definition statsOk : bool :=
  forallb (fun f => statOk ext (Path.join (BACKUP_DIR cfg) f))
    (filter (fun f => isBackupName f = true) (readdir ext)).

(** A call of [getLatestBackup()] (lines 78-88): [readdirSync] and
    [statSync] throw when they fail. *)
Definition getLatestBackupCall : M (option string) :=
  if negb (readdirOk ext) then throw (fsErr ext)
  else if statsOk then
    ret (getLatestBackup (BACKUP_DIR cfg) (readdir ext) (mtime ext))
  else throw (fsErr ext).

(** Lines 223-244: the [switch] on the command, [f] being the file to
    restore. *)
Definition dispatch (cmd f : option string) : M unit :=
  match cmd with
  | Some c =>
      if String.eqb c "backup" then backup false
      else if String.eqb c "backup-data" then backup true
      else if String.eqb c "restore" then
        match f with
        | None => emit (LogError "No backup file found!")
        | Some p => restore p
        end
      else if String.eqb c "restore-and-dev" then
        match f with
        | None => emit (LogError "No backup file found!")
        | Some p => restoreAndDev p
        end
      else usage
  | None => usage
  end.

(** Lines 220-245: [cmd] and [file] are [process.argv[2]] and [[3]].
    Line 222, [file || getLatestBackup()], runs before the [switch],
    whatever the command. *)
Definition main (cmd file : option string) : M unit :=
  f <- match file with
       | Some p => if Str.truthy p then ret (Some p) else getLatestBackupCall
       | None => getLatestBackupCall
       end ;;
  dispatch cmd f.

End Program.

(** Line 62, at the top level of the script: an exception of [mkdirSync]
    has no handler. *)
Definition ensureBackupDir (cfg : Config) (ext : Ext) : M unit :=
  if dirExists ext then ret tt
  else
    emit (Mkdir (BACKUP_DIR cfg)) ;;
    if mkdirOk ext then ret tt else die (fsErr ext).

(** How the process ends.  [Crashed] is an error that no handler of the
    script received (the rejection of the dispatcher's promise, or an
    uncaught exception): the runtime reports it and ends the process with
    a failure status. *)
Inductive Termination :=
| ExitFailure               (* process.exit(1) of the validation *)
| Completed                 (* the dispatcher's promise resolved *)
| Crashed (err : string).   (* an error nobody handled *)

(** The script from its first line: resolution, the staging directory,
    then the dispatcher. *)
Definition program (URL : string -> option Url) (env : gmap string string)
    (ext : Ext) (cmd file : option string) (w : World) : Termination * World :=
  let '(r, logs) := resolve URL env in
  let w0 := {| files := files w; bucket := bucket w; trace := trace w ++ logs |} in
  match r with
  | None => (ExitFailure, w0)
  | Some cfg =>
      match (ensureBackupDir cfg ext ;; main cfg ext cmd file) w0 with
      | (Ok _, w') => (Completed, w')
      | (Throw err, w') => (Crashed err, w')
      | (Die err, w') => (Crashed err, w')
      end
  end.

(* ================================================================== *)
(** ** Observations on runs, used to state the properties *)

(** The objects of a bucket, in the order of its listing. *)
Definition objectsOf (b : gmap string Z) : list S3Object :=
  map (fun kt => {| Key := kt.1; LastModified := kt.2 |}) (map_to_list b).

(** What a retention pass selects for deletion in a bucket. *)
Definition pruneTargets (b : gmap string Z) : list S3Object :=
  if (KEEP_LAST <? length (objectsOf b))%nat then oldFiles (objectsOf b) else [].

(** The bucket once the given objects are deleted, in order. *)
Definition deleteAll (l : list S3Object) (b : gmap string Z) : gmap string Z :=
  fold_left (fun acc o => delete (Key o) acc) l b.

(** The events of a deletion that went through. *)
Definition deleted (o : S3Object) : list Event :=
  [S3Delete (Key o); Log ("Deleted old backup: " +:+ Key o)].

Definition isUnlink (e : Event) : bool :=
  match e with Unlink _ => true | _ => false end.

(** Console output and calls to the object store. *)
Definition isRemote (e : Event) : bool :=
  match e with
  | Log _ | LogError _ | S3Put _ | S3List | S3Delete _ => true
  | _ => false
  end.

Definition withTrace (w : World) (tr : list Event) : World :=
  {| files := files w; bucket := bucket w; trace := tr |}.



(* ================================================================== *)
(** ** Sample data for the closed examples *)

Module Sample.

(** A parser that knows one well-formed URL and rejects the rest. *)
Definition URL (s : string) : option Url :=
  if String.eqb s "postgres://u:p@remote:6543/other" then
    Some {| hostname := "remote"; port := "6543"; username := "u";
            password := "p"; pathname := "/other" |}
  else None.

Definition discrete : list (string * string) :=
  [("DB_HOST", "localhost"); ("DB_PORT", "5433"); ("DB_USERNAME", "app");
   ("DB_PASSWORD", "secret"); ("DB_NAME", "shop"); ("B2_BUCKET", "nightly")].

(** The discrete variables alone. *)
Definition envDiscrete : gmap string string := list_to_map discrete.

(** The discrete variables and a well-formed URL. *)
Definition envBoth : gmap string string :=
  list_to_map (("DATABASE_URL", "postgres://u:p@remote:6543/other") :: discrete).

(** The discrete variables and a URL that does not parse. *)
Definition envBadUrl : gmap string string :=
  list_to_map (("DATABASE_URL", "not a url") :: discrete).

Definition cfg : Config :=
  {| DB_HOST := "localhost"; DB_USERNAME := "app"; DB_PASSWORD := Some "secret";
     DB_NAME := "shop"; DB_PORT := "5433"; B2_BUCKET := Some "nightly";
     BACKUP_DIR := "./backups" |}.

(** What the URL of [envBoth] resolves to. *)
Definition cfgRemote : Config :=
  {| DB_HOST := "remote"; DB_USERNAME := "u"; DB_PASSWORD := Some "p";
     DB_NAME := "other"; DB_PORT := "6543"; B2_BUCKET := Some "nightly";
     BACKUP_DIR := "./backups" |}.

(** 2024-01-02T03:04:05.678Z *)
Definition date : Date :=
  {| year := 2024; month := 1; day := 2; hours := 3; minutes := 4;
     seconds := 5; milliseconds := 678 |}.

Definition artifact : string := "backups/shop-full-2024-01-02T03-04-05-678Z.dump".

(** Collaborators that all succeed. *)
Definition quiet : Ext :=
  {| now := date; dirExists := true; mkdirOk := true; readdirOk := true;
     readdir := []; statOk := fun _ => true; mtime := fun _ => 0;
     fsErr := "EACCES: permission denied";
     execOk := fun _ => true; execErr := fun _ => "exit 1";
     gunzipResult := fun _ => Finished; sinkResult := fun _ => Finished;
     putOk := fun _ => true; putTime := 10; listOk := true;
     deleteOk := fun _ => true; s3Err := "connect ECONNREFUSED" |}.

(** Every child process fails. *)
Definition execFails : Ext :=
  {| now := date; dirExists := true; mkdirOk := true; readdirOk := true;
     readdir := []; statOk := fun _ => true; mtime := fun _ => 0;
     fsErr := "EACCES: permission denied";
     execOk := fun _ => false; execErr := fun _ => "exit 1";
     gunzipResult := fun _ => Finished; sinkResult := fun _ => Finished;
     putOk := fun _ => true; putTime := 10; listOk := true;
     deleteOk := fun _ => true; s3Err := "connect ECONNREFUSED" |}.

(** Every deletion in the bucket fails. *)
Definition deleteFails : Ext :=
  {| now := date; dirExists := true; mkdirOk := true; readdirOk := true;
     readdir := []; statOk := fun _ => true; mtime := fun _ => 0;
     fsErr := "EACCES: permission denied";
     execOk := fun _ => true; execErr := fun _ => "exit 1";
     gunzipResult := fun _ => Finished; sinkResult := fun _ => Finished;
     putOk := fun _ => true; putTime := 10; listOk := true;
     deleteOk := fun _ => false; s3Err := "connect ECONNREFUSED" |}.


(** Nine objects, [k1] the oldest and [k9] the newest. *)
Definition nine : gmap string Z :=
  list_to_map [("k1", 1); ("k2", 2); ("k3", 3); ("k4", 4); ("k5", 5);
               ("k6", 6); ("k7", 7); ("k8", 8); ("k9", 9)].

Definition empty : World := {| files := ∅; bucket := ∅; trace := [] |}.

(** The artifact is on disk and the bucket holds nine objects. *)
Definition staged : World := {| files := {[artifact]}; bucket := nine; trace := [] |}.

(** A compressed data-only artifact is on disk. *)
Definition compressed : World :=
  {| files := {["backups/a.sql.gz"]}; bucket := ∅; trace := [] |}.

End Sample.

(* ================================================================== *)
(** ** Further observations and entry points *)

(** A child process was spawned. *)
Definition isExec (e : Event) : bool :=
  match e with Exec _ => true | _ => false end.

(** The last character of a string. *)
Fixpoint lastChar (s : string) : option ascii :=
  match s with
  | EmptyString => None
  | String c s' =>
      match s' with
      | EmptyString => Some c
      | String _ _ => lastChar s'
      end
  end.

(** [run-backup.sh], line 12: [node /app/backup.js backup]. *)
Definition scheduledRun (URL : string -> option Url) (env : gmap string string)
    (ext : Ext) (w : World) : Termination * World :=
  program URL env ext (Some "backup") None w.

(* ================================================================== *)
(** ** The earlier resolution of the environment ([src/unnamed/part_002],
    lines 36-76) *)

Module Earlier.

(** The variables, each a string or undefined. *)
Record Vars := {
  DB_HOST : option string;
  DB_PORT : option string;
  DB_USERNAME : option string;
  DB_PASSWORD : option string;
  DB_NAME : option string;
}.

(** [a || b] for a variable and a string. *)
Definition orElse (a : option string) (b : string) : string :=
  match a with
  | Some s => if Str.truthy s then s else b
  | None => b
  end.

(** [!a] is false. *)
Definition truthyOpt (a : option string) : bool :=
  match a with
  | Some s => Str.truthy s
  | None => false
  end.

(** [pathname.replace(/^\//, empty)]. *)
Definition stripLeadingSlash (s : string) : string :=
  match s with
  | String c s' => if Ascii.eqb c "/" then s' else s
  | EmptyString => EmptyString
  end.

(** Lines 37-49. *)
Definition destructure (env : gmap string string) : Vars :=
  {| DB_HOST := env !! "DB_HOST"; DB_PORT := env !! "DB_PORT";
     DB_USERNAME := env !! "DB_USERNAME"; DB_PASSWORD := env !! "DB_PASSWORD";
     DB_NAME := env !! "DB_NAME" |}.

(** Lines 55-59. *)
Definition fillFrom (dbUrl : Url) (v : Vars) : Vars :=
  {| DB_HOST := Some (orElse (DB_HOST v) (hostname dbUrl));
     DB_PORT := Some (orElse (DB_PORT v)
                        (if Str.truthy (port dbUrl) then port dbUrl else "5432"));
     DB_USERNAME := Some (orElse (DB_USERNAME v) (username dbUrl));
     DB_PASSWORD := Some (orElse (DB_PASSWORD v) (password dbUrl));
     DB_NAME := Some (orElse (DB_NAME v) (stripLeadingSlash (pathname dbUrl))) |}.

(** Lines 66-76. *)
Definition validate (v : Vars) : option Vars * list Event :=
  if (truthyOpt (DB_HOST v) && truthyOpt (DB_NAME v))%bool then
    (Some v, [Log "DB Config Loaded:"])
  else (None, [LogError "Missing database config! Check Railway Variables."]).

(** Lines 37-76: [None] is [process.exit(1)]. *)
Definition resolve (URL : string -> option Url) (env : gmap string string)
  : option Vars * list Event :=
  let v := destructure env in
  match env !! "DATABASE_URL" with
  | Some s =>
      if Str.truthy s then
        match URL s with
        | Some dbUrl => validate (fillFrom dbUrl v)
        | None => (None, [LogError ("Invalid DATABASE_URL: " +:+ s)])
        end
      else validate v
  | None => validate v
  end.

End Earlier.

(* ================================================================== *)
(** ** More sample data *)

Module More.

(** No bucket is configured. *)
Definition local : Config :=
  {| DB_HOST := "localhost"; DB_USERNAME := "app"; DB_PASSWORD := Some "secret";
     DB_NAME := "shop"; DB_PORT := "5433"; B2_BUCKET := None;
     BACKUP_DIR := "./backups" |}.

(** The dump process fails and everything else succeeds. *)
Definition dumpFails : Ext := Sample.execFails.

(** The object store refuses every upload. *)
Definition putFails : Ext :=
  {| now := Sample.date; dirExists := true; mkdirOk := true; readdirOk := true;
     readdir := []; statOk := fun _ => true; mtime := fun _ => 0;
     fsErr := "EACCES: permission denied";
     execOk := fun _ => true; execErr := fun _ => "exit 1";
     gunzipResult := fun _ => Finished; sinkResult := fun _ => Finished;
     putOk := fun _ => false; putTime := 10; listOk := true;
     deleteOk := fun _ => true; s3Err := "connect ECONNREFUSED" |}.

(** A staging directory with two artifacts of the same age and a stray file. *)
Definition listing : Ext :=
  {| now := Sample.date; dirExists := true; mkdirOk := true; readdirOk := true;
     readdir := ["notes.txt"; "a.sql"; "b.dump"];
     statOk := fun _ => true; mtime := fun _ => 5;
     fsErr := "EACCES: permission denied";
     execOk := fun _ => true; execErr := fun _ => "exit 1";
     gunzipResult := fun _ => Finished; sinkResult := fun _ => Finished;
     putOk := fun _ => true; putTime := 10; listOk := true;
     deleteOk := fun _ => true; s3Err := "connect ECONNREFUSED" |}.

(** The deletion of [k2] fails and every other call succeeds. *)
Definition deleteK2Fails : Ext :=
  {| now := Sample.date; dirExists := true; mkdirOk := true; readdirOk := true;
     readdir := []; statOk := fun _ => true; mtime := fun _ => 0;
     fsErr := "EACCES: permission denied";
     execOk := fun _ => true; execErr := fun _ => "exit 1";
     gunzipResult := fun _ => Finished; sinkResult := fun _ => Finished;
     putOk := fun _ => true; putTime := 10; listOk := true;
     deleteOk := fun k => negb (String.eqb k "k2");
     s3Err := "connect ECONNREFUSED" |}.


(** The staging directory lists one artifact that cannot be examined. *)
Definition statFails : Ext :=
  {| now := Sample.date; dirExists := true; mkdirOk := true; readdirOk := true;
     readdir := ["notes.txt"; "a.sql"];
     statOk := fun _ => false; mtime := fun _ => 5;
     fsErr := "EACCES: permission denied";
     execOk := fun _ => true; execErr := fun _ => "exit 1";
     gunzipResult := fun _ => Finished; sinkResult := fun _ => Finished;
     putOk := fun _ => true; putTime := 10; listOk := true;
     deleteOk := fun _ => true; s3Err := "connect ECONNREFUSED" |}.

(** The staging directory cannot be listed. *)
Definition unreadable : Ext :=
  {| now := Sample.date; dirExists := true; mkdirOk := true; readdirOk := false;
     readdir := []; statOk := fun _ => true; mtime := fun _ => 0;
     fsErr := "EACCES: permission denied";
     execOk := fun _ => true; execErr := fun _ => "exit 1";
     gunzipResult := fun _ => Finished; sinkResult := fun _ => Finished;
     putOk := fun _ => true; putTime := 10; listOk := true;
     deleteOk := fun _ => true; s3Err := "connect ECONNREFUSED" |}.

(** The staging directory is missing and cannot be created. *)
Definition noDir : Ext :=
  {| now := Sample.date; dirExists := false; mkdirOk := false; readdirOk := false;
     readdir := []; statOk := fun _ => true; mtime := fun _ => 0;
     fsErr := "EACCES: permission denied";
     execOk := fun _ => true; execErr := fun _ => "exit 1";
     gunzipResult := fun _ => Finished; sinkResult := fun _ => Finished;
     putOk := fun _ => true; putTime := 10; listOk := true;
     deleteOk := fun _ => true; s3Err := "connect ECONNREFUSED" |}.

(** The staging directory is missing and is created. *)
Definition freshDir : Ext :=
  {| now := Sample.date; dirExists := false; mkdirOk := true; readdirOk := true;
     readdir := []; statOk := fun _ => true; mtime := fun _ => 0;
     fsErr := "EACCES: permission denied";
     execOk := fun _ => true; execErr := fun _ => "exit 1";
     gunzipResult := fun _ => Finished; sinkResult := fun _ => Finished;
     putOk := fun _ => true; putTime := 10; listOk := true;
     deleteOk := fun _ => true; s3Err := "connect ECONNREFUSED" |}.


End More.

(* ================================================================== *)
(** * Properties *)

(** ** Strings *)

Lemma str_app_nil_l (s : string) : EmptyString +:+ s = s.
Proof. reflexivity. Qed.

Lemma str_app_cons (c : ascii) (s t : string) : String c s +:+ t = String c (s +:+ t).
Proof. reflexivity. Qed.

Lemma str_app_nil_r (s : string) : s +:+ EmptyString = s.
Proof. induction s as [|c s IH]; [reflexivity|]. now rewrite str_app_cons, IH. Qed.

Lemma app_assoc_str (s t u : string) : (s +:+ t) +:+ u = s +:+ t +:+ u.
Proof. induction s as [|c s IH]; [reflexivity|]. now rewrite !str_app_cons, IH. Qed.

Lemma length_app_str (s t : string) :
  String.length (s +:+ t) = (String.length s + String.length t)%nat.
Proof. induction s as [|c s IH]; [reflexivity|]. rewrite str_app_cons. simpl. now rewrite IH. Qed.

(** [endsWith] is the suffix relation. *)
Lemma endsWith_spec (s suf : string) :
  Str.endsWith s suf = true <-> exists p, s = p +:+ suf.
Proof.
  split.
  - induction s as [|c s IH]; cbn [Str.endsWith Str.stripSuffix].
    + destruct (String.eqb_spec EmptyString suf) as [<-|]; [|intros [=]].
      intros _. now exists EmptyString.
    + destruct (String.eqb_spec (String c s) suf) as [<-|].
      * intros _. now exists EmptyString.
      * intros H. destruct (IH H) as [p ->]. now exists (String c p).
  - intros [p ->]. induction p as [|c p IH].
    + rewrite str_app_nil_l. destruct suf; cbn [Str.endsWith]; now rewrite String.eqb_refl.
    + rewrite str_app_cons. cbn [Str.endsWith]. rewrite IH. now destruct (String.eqb _ _).
Qed.

(** Stripping a suffix that is there gives back the rest. *)
Lemma stripSuffix_app (s suf : string) :
  Str.endsWith s suf = true -> Str.stripSuffix suf s +:+ suf = s.
Proof.
  induction s as [|c s IH]; cbn [Str.endsWith Str.stripSuffix].
  - destruct (String.eqb_spec EmptyString suf) as [<-|]; [reflexivity | intros [=]].
  - destruct (String.eqb_spec (String c s) suf) as [<-|]; [reflexivity|].
    intros H. now rewrite str_app_cons, IH.
Qed.

Lemma stripSuffix_absent (s suf : string) :
  Str.endsWith s suf = false -> Str.stripSuffix suf s = s.
Proof.
  induction s as [|c s IH]; cbn [Str.endsWith Str.stripSuffix].
  - now destruct (String.eqb EmptyString suf).
  - destruct (String.eqb (String c s) suf); [intros [=]|].
    intros H. now rewrite IH.
Qed.

(** The decompressed sibling of a [.gz] path is another path. *)
Lemma stripSuffix_gz_neq (p : string) :
  Str.endsWith p ".gz" = true -> String.eqb (Str.stripSuffix ".gz" p) p = false.
Proof.
  intros H. apply String.eqb_neq. intros Heq.
  pose proof (stripSuffix_app _ _ H) as Happ. rewrite Heq in Happ.
  apply (f_equal String.length) in Happ. rewrite length_app_str in Happ.
  simpl in Happ. lia.
Qed.

Lemma mapChars_app (f : ascii -> ascii) (s t : string) :
  Str.mapChars f (s +:+ t) = Str.mapChars f s +:+ Str.mapChars f t.
Proof. induction s as [|c s IH]; [reflexivity|]. rewrite !str_app_cons. simpl. now rewrite IH, str_app_cons. Qed.

Lemma mem_app (c : ascii) (s t : string) :
  Str.mem c (s +:+ t) = (Str.mem c s || Str.mem c t)%bool.
Proof.
  induction s as [|d s IH]; [reflexivity|].
  rewrite str_app_cons. simpl. rewrite IH. now rewrite orb_assoc.
Qed.




Lemma digit_cases (n : nat) :
  In (Str.digit n) ["0"; "1"; "2"; "3"; "4"; "5"; "6"; "7"; "8"; "9"]%char.
Proof.
  unfold Str.digit. pose proof (Nat.mod_upper_bound n 10 ltac:(lia)) as Hlt.
  remember (n mod 10)%nat as m eqn:Hm. clear Hm.
  do 10 (destruct m as [|m]; [simpl; tauto|]). lia.
Qed.

(** A zero-padded number holds digits only. *)
Lemma pad_digits (w n : nat) (c : ascii) :
  Str.mem c (Str.pad w n) = true ->
  In c ["0"; "1"; "2"; "3"; "4"; "5"; "6"; "7"; "8"; "9"]%char.
Proof.
  revert n. induction w as [|w IH]; intros n; cbn [Str.pad Str.mem]; [intros [=]|].
  rewrite mem_app. intros [H|H]%orb_true_iff; [eauto|].
  cbn [Str.mem] in H. rewrite orb_false_r in H. apply Ascii.eqb_eq in H. subst c.
  apply digit_cases.
Qed.

Lemma mapChars_id_on (f : ascii -> ascii) (s : string) :
  (forall c, Str.mem c s = true -> f c = c) -> Str.mapChars f s = s.
Proof.
  induction s as [|d s IH]; intros H; [reflexivity|]. cbn [Str.mapChars]. f_equal.
  - apply H. cbn [Str.mem]. now rewrite Ascii.eqb_refl.
  - apply IH. intros c Hc. apply H. cbn [Str.mem]. rewrite Hc. apply orb_true_r.
Qed.

Lemma replaceColonDot_pad (w n : nat) :
  Str.replaceColonDot (Str.pad w n) = Str.pad w n.
Proof.
  apply mapChars_id_on. intros c Hc. apply pad_digits in Hc.
  simpl in Hc. decompose [or] Hc; subst; try reflexivity; contradiction.
Qed.

Lemma pad_no_slash (w n : nat) : Str.mem "/" (Str.pad w n) = false.
Proof.
  destruct (Str.mem "/" (Str.pad w n)) eqn:H; [|reflexivity].
  apply pad_digits in H. simpl in H. decompose [or] H; try discriminate; contradiction.
Qed.

(** ** Paths *)

Lemma splitSlash_nonempty (s : string) : Str.splitSlash s <> [].
Proof.
  destruct s as [|c s]; cbn [Str.splitSlash]; [discriminate|].
  destruct (Ascii.eqb c "/"); [discriminate|].
  destruct (Str.splitSlash s); discriminate.
Qed.

Lemma splitSlash_plain (s : string) :
  Str.mem "/" s = false -> Str.splitSlash s = [s].
Proof.
  induction s as [|c s IH]; cbn [Str.splitSlash Str.mem]; [reflexivity|].
  intros [H1 H2]%orb_false_iff. rewrite Ascii.eqb_sym in H1.
  now rewrite H1, (IH H2).
Qed.

Lemma splitSlash_app (a b : string) :
  Str.splitSlash (a +:+ "/" +:+ b) = Str.splitSlash a ++ Str.splitSlash b.
Proof.
  induction a as [|c a IH].
  - reflexivity.
  - rewrite str_app_cons. cbn [Str.splitSlash]. rewrite IH.
    destruct (Ascii.eqb c "/"); [reflexivity|].
    pose proof (splitSlash_nonempty a) as Hne.
    destruct (Str.splitSlash a); [contradiction | reflexivity].
Qed.

Lemma joinSlash_snoc (l : list string) (b : string) :
  Str.joinSlash (l ++ [b]) =
  match l with
  | [] => b
  | _ => Str.joinSlash l +:+ "/" +:+ b
  end.
Proof.
  induction l as [|x l IH]; [reflexivity|].
  destruct l as [|y l]; [reflexivity|].
  change (Str.joinSlash ((x :: y :: l) ++ [b]))
    with (x +:+ "/" +:+ Str.joinSlash ((y :: l) ++ [b])).
  rewrite IH. change (Str.joinSlash (x :: y :: l))
    with (x +:+ "/" +:+ Str.joinSlash (y :: l)).
  now rewrite !app_assoc_str.
Qed.

Lemma endsWith_slash_plain (x b : string) :
  b <> EmptyString -> Str.mem "/" b = false -> Str.endsWith (x +:+ b) "/" = false.
Proof.
  intros Hne Hplain.
  assert (Hb : Str.endsWith b "/" = false).
  { clear Hne. induction b as [|c b IH]; [reflexivity|].
    cbn [Str.mem] in Hplain. apply orb_false_iff in Hplain as [H1 H2].
    cbn [Str.endsWith]. rewrite (IH H2).
    destruct (String.eqb_spec (String c b) "/") as [Heq|]; [|reflexivity].
    injection Heq as -> _. now rewrite Ascii.eqb_refl in H1. }
  induction x as [|d x IH]; [exact Hb|].
  rewrite str_app_cons. cbn [Str.endsWith]. rewrite IH.
  destruct (String.eqb_spec (String d (x +:+ b)) "/") as [Heq|]; [|reflexivity].
  injection Heq as _ Heq. destruct x, b; try discriminate. contradiction.
Qed.

Lemma basename_snoc (q b : string) :
  b <> EmptyString -> Str.mem "/" b = false ->
  Path.basename (q +:+ "/" +:+ b) = b.
Proof.
  intros Hne Hplain. unfold Path.basename.
  rewrite splitSlash_app, (splitSlash_plain b Hplain), rev_app_distr.
  cbn [rev app]. rewrite filter_cons. now destruct (decide (b <> EmptyString)).
Qed.

Lemma basename_plain (b : string) :
  b <> EmptyString -> Str.mem "/" b = false -> Path.basename b = b.
Proof.
  intros Hne Hplain. unfold Path.basename.
  rewrite (splitSlash_plain b Hplain). cbn [rev app]. rewrite filter_cons.
  now destruct (decide (b <> EmptyString)).
Qed.

Lemma pushSegment_plain (allow : bool) (res : list string) (b : string) :
  b <> EmptyString -> b <> "." -> b <> ".." ->
  Path.pushSegment allow res b = b :: res.
Proof.
  intros H0 H1 H2. unfold Path.pushSegment.
  apply String.eqb_neq in H0, H1, H2. now rewrite H0, H1, H2.
Qed.

(** Normalising a path whose last segment is an ordinary name keeps that
    name last. *)
Lemma normalize_last_segment (p b : string) (pre : list string) :
  b <> EmptyString -> b <> "." -> b <> ".." -> Str.mem "/" b = false ->
  Str.splitSlash p = pre ++ [b] ->
  Str.endsWith p "/" = false ->
  Path.normalize p = b \/ exists q, Path.normalize p = q +:+ "/" +:+ b.
Proof.
  intros H0 H1 H2 Hplain Hsplit Htrail. unfold Path.normalize.
  destruct (String.eqb_spec p EmptyString) as [->|Hp].
  { cbn [Str.splitSlash] in Hsplit.
    destruct pre as [|x [|y pre]]; inversion Hsplit; congruence. }
  rewrite Htrail. unfold Path.normalizeString. rewrite Hsplit, fold_left_app.
  cbn [fold_left]. rewrite pushSegment_plain by assumption.
  cbn [rev]. rewrite joinSlash_snoc.
  set (st := rev (fold_left _ pre [])).
  destruct st as [|x st'] eqn:Hst.
  - apply String.eqb_neq in H0. rewrite H0.
    destruct (Path.isAbsolute p); [right; now exists EmptyString | now left].
  - set (J := Str.joinSlash (x :: st')).
    assert (Hbody : String.eqb (J +:+ "/" +:+ b) EmptyString = false).
    { apply String.eqb_neq. intros Heq. apply (f_equal String.length) in Heq.
      rewrite !length_app_str in Heq. simpl in Heq. lia. }
    rewrite Hbody. destruct (Path.isAbsolute p).
    + right. exists ("/" +:+ J). now rewrite !app_assoc_str.
    + right. now exists J.
Qed.

(** [path.basename(path.join(dir, name))] is [name] for an ordinary name. *)
Lemma basename_join (dir b : string) :
  b <> EmptyString -> b <> "." -> b <> ".." -> Str.mem "/" b = false ->
  Path.basename (Path.join dir b) = b.
Proof.
  intros H0 H1 H2 Hplain.
  assert (Hend : forall x, Str.endsWith (x +:+ b) "/" = false)
    by (intros x; now apply endsWith_slash_plain).
  assert (Hcases : Path.join dir b = b \/ exists q, Path.join dir b = q +:+ "/" +:+ b).
  { unfold Path.join. destruct (String.eqb_spec dir EmptyString) as [->|Hd].
    - apply String.eqb_neq in H0 as H0'. rewrite H0'.
      apply (normalize_last_segment b b []); auto using splitSlash_plain.
      apply (Hend EmptyString).
    - apply String.eqb_neq in H0 as H0'. rewrite H0'.
      apply (normalize_last_segment _ b (Str.splitSlash dir)); auto.
      + now rewrite splitSlash_app, (splitSlash_plain b Hplain).
      + rewrite <- app_assoc_str. apply Hend. }
  destruct Hcases as [-> | [q ->]]; [now apply basename_plain | now apply basename_snoc].
Qed.

(** ** Artifact naming *)

Lemma replaceColonDot_app (s t : string) :
  Str.replaceColonDot (s +:+ t) = Str.replaceColonDot s +:+ Str.replaceColonDot t.
Proof. apply mapChars_app. Qed.

Lemma replaceColonDot_yearString (y : Z) :
  Str.replaceColonDot (yearString y) = yearString y.
Proof.
  unfold yearString. destruct ((0 <=? y) && (y <=? 9999)).
  - apply replaceColonDot_pad.
  - rewrite replaceColonDot_app, replaceColonDot_pad. now destruct (y <? 0).
Qed.

Lemma yearString_no_slash (y : Z) : Str.mem "/" (yearString y) = false.
Proof.
  unfold yearString. destruct ((0 <=? y) && (y <=? 9999)).
  - apply pad_no_slash.
  - rewrite mem_app, pad_no_slash. now destruct (y <? 0).
Qed.

(** The timestamp of an artifact, written out. *)
Lemma timestampOf_shape (d : Date) :
  timestampOf d =
  yearString (year d) +:+ "-" +:+ Str.pad 2 (month d) +:+ "-" +:+ Str.pad 2 (day d)
  +:+ "T" +:+ Str.pad 2 (hours d) +:+ "-" +:+ Str.pad 2 (minutes d)
  +:+ "-" +:+ Str.pad 2 (seconds d) +:+ "-" +:+ Str.pad 3 (milliseconds d) +:+ "Z".
Proof.
  unfold timestampOf, toISOString.
  rewrite !replaceColonDot_app, replaceColonDot_yearString, !replaceColonDot_pad.
  reflexivity.
Qed.

Lemma timestampOf_no_slash (d : Date) : Str.mem "/" (timestampOf d) = false.
Proof.
  rewrite timestampOf_shape, !mem_app, yearString_no_slash, !pad_no_slash.
  reflexivity.
Qed.

(** A database name without a slash gives an ordinary file name. *)
Lemma artifactName_plain (cfg : Config) (dataOnly : bool) (d : Date) :
  Str.mem "/" (DB_NAME cfg) = false ->
  Str.mem "/" (artifactName cfg dataOnly d) = false
  /\ artifactName cfg dataOnly d <> EmptyString
  /\ artifactName cfg dataOnly d <> "."
  /\ artifactName cfg dataOnly d <> "..".
Proof.
  intros HD.
  assert (Hdash : Str.mem "-" (artifactName cfg dataOnly d) = true).
  { unfold artifactName. rewrite !mem_app.
    replace (Str.mem "-" "-") with true by reflexivity.
    now rewrite orb_true_r. }
  split.
  - unfold artifactName. rewrite !mem_app, HD, timestampOf_no_slash.
    now destruct dataOnly.
  - repeat split; intros Heq; rewrite Heq in Hdash; discriminate.
Qed.


(** ** Environment resolution *)

Lemma validate_some (env : gmap string string) (cfg : Config) :
  validate env = Some cfg ->
  env !! "DB_HOST" = Some (DB_HOST cfg)
  /\ env !! "DB_NAME" = Some (DB_NAME cfg)
  /\ env !! "DB_USERNAME" = Some (DB_USERNAME cfg)
  /\ DB_PASSWORD cfg = env !! "DB_PASSWORD"
  /\ DB_PORT cfg = default "5432" (env !! "DB_PORT")
  /\ B2_BUCKET cfg = bucketOf env
  /\ BACKUP_DIR cfg = backupDirOf env
  /\ DB_HOST cfg <> EmptyString /\ DB_NAME cfg <> EmptyString
  /\ DB_USERNAME cfg <> EmptyString.
Proof.
  unfold validate, hostOf, nameOf, usernameOf, passwordOf, portOf.
  destruct (env !! "DB_HOST") as [h|]; [|discriminate].
  destruct (env !! "DB_NAME") as [n|]; [|discriminate].
  destruct (env !! "DB_USERNAME") as [u|]; [|discriminate].
  unfold Str.truthy.
  destruct (String.eqb_spec h EmptyString); [discriminate|].
  destruct (String.eqb_spec n EmptyString); [discriminate|].
  destruct (String.eqb_spec u EmptyString); [discriminate|].
  cbn. intros [= <-]. cbn. auto 10.
Qed.

Lemma validate_none_iff (env : gmap string string) :
  validate env = None <->
  truthyVar env "DB_HOST" = false \/ truthyVar env "DB_NAME" = false
  \/ truthyVar env "DB_USERNAME" = false.
Proof.
  unfold validate, truthyVar, hostOf, nameOf, usernameOf.
  destruct (env !! "DB_HOST") as [h|]; [|tauto].
  destruct (env !! "DB_NAME") as [n|]; [|tauto].
  destruct (env !! "DB_USERNAME") as [u|]; [|tauto].
  destruct (Str.truthy h), (Str.truthy n), (Str.truthy u); cbn;
    intuition discriminate.
Qed.

Section ResolveFacts.

Variable URL : string -> option Url.

(** With a usable URL the five variables are those of the URL. *)
Lemma parseDatabaseUrl_some (env : gmap string string) (u : Url) :
  databaseUrl URL env = Some u ->
  let env' := (parseDatabaseUrl URL env).1 in
  env' !! "DB_HOST" = Some (hostname u)
  /\ env' !! "DB_PORT" = Some (if Str.truthy (port u) then port u else "5432")
  /\ env' !! "DB_USERNAME" = Some (username u)
  /\ env' !! "DB_PASSWORD" = Some (password u)
  /\ env' !! "DB_NAME" = Some (slice1 (pathname u))
  /\ env' !! "B2_BUCKET" = env !! "B2_BUCKET"
  /\ env' !! "BACKUP_DIR" = env !! "BACKUP_DIR".
Proof.
  unfold databaseUrl, parseDatabaseUrl.
  destruct (env !! "DATABASE_URL") as [s|]; [|discriminate].
  destruct (Str.truthy s); [|discriminate].
  intros ->. cbn [fst]. by simplify_map_eq.
Qed.

(** Without one the environment is left alone. *)
Lemma parseDatabaseUrl_none (env : gmap string string) :
  databaseUrl URL env = None -> (parseDatabaseUrl URL env).1 = env.
Proof.
  unfold databaseUrl, parseDatabaseUrl.
  destruct (env !! "DATABASE_URL") as [s|]; [|reflexivity].
  destruct (Str.truthy s); [|reflexivity].
  now intros ->.
Qed.

Lemma resolve_validate (env : gmap string string) :
  (resolve URL env).1 = validate (parseDatabaseUrl URL env).1.
Proof.
  unfold resolve. destruct (parseDatabaseUrl URL env) as [env' logs].
  cbn [fst]. now destruct (validate env').
Qed.

(** C4, as the script resolves it.  When a connection URL is set, not empty
    and well formed, every field of the descriptor (host, port, user,
    password, database name) is the URL's, whatever the discrete variables
    hold, the port being 5432 when the URL has none; the discrete variables
    give the fields only when there is no usable URL, the port being 5432
    when [DB_PORT] is unset. *)
Theorem resolve_fields (env : gmap string string) (cfg : Config) :
  (resolve URL env).1 = Some cfg ->
  match databaseUrl URL env with
  | Some u =>
      DB_HOST cfg = hostname u
      /\ DB_PORT cfg = (if Str.truthy (port u) then port u else "5432")
      /\ DB_USERNAME cfg = username u
      /\ DB_PASSWORD cfg = Some (password u)
      /\ DB_NAME cfg = slice1 (pathname u)
  | None =>
      env !! "DB_HOST" = Some (DB_HOST cfg)
      /\ DB_PORT cfg = default "5432" (env !! "DB_PORT")
      /\ env !! "DB_USERNAME" = Some (DB_USERNAME cfg)
      /\ DB_PASSWORD cfg = env !! "DB_PASSWORD"
      /\ env !! "DB_NAME" = Some (DB_NAME cfg)
  end.
Proof.
  rewrite resolve_validate. intros Hv.
  apply validate_some in Hv as (Hh & Hn & Hu & Hp & Hport & _).
  destruct (databaseUrl URL env) as [u|] eqn:Hurl.
  - destruct (parseDatabaseUrl_some env u Hurl) as (Eh & Eport & Eu & Ep & En & _).
    cbn zeta in *. rewrite Eh in Hh. rewrite En in Hn. rewrite Eu in Hu.
    rewrite Ep in Hp. rewrite Eport in Hport. cbn in Hport.
    repeat split; congruence.
  - rewrite (parseDatabaseUrl_none env Hurl) in *. auto.
Qed.

End ResolveFacts.

(** C5, as the script resolves it.  Resolution is fatal exactly when, after
    resolution, the host, the database name or the user name is missing or
    empty; the process then exits having written only to the console.  A URL
    that is not well formed is reported and is not fatal by itself: the
    discrete variables are validated as if no URL had been given. *)
Theorem resolve_fatal_iff (URL : string -> option Url) (env : gmap string string) :
  ((resolve URL env).1 = None <->
     match databaseUrl URL env with
     | Some u =>
         hostname u = EmptyString \/ slice1 (pathname u) = EmptyString
         \/ username u = EmptyString
     | None =>
         truthyVar env "DB_HOST" = false \/ truthyVar env "DB_NAME" = false
         \/ truthyVar env "DB_USERNAME" = false
     end)
  /\ (forall ext cmd file w,
        (resolve URL env).1 = None ->
        exists logs,
          program URL env ext cmd file w =
            (ExitFailure,
             {| files := files w; bucket := bucket w; trace := trace w ++ logs |})
          /\ Forall (fun e => exists msg, e = LogError msg) logs)
  /\ (forall s, env !! "DATABASE_URL" = Some s -> URL s = None ->
        (resolve URL env).1 = validate env).
Proof.
  split; [|split].
  - rewrite resolve_validate, validate_none_iff.
    destruct (databaseUrl URL env) as [u|] eqn:Hurl.
    + destruct (parseDatabaseUrl_some URL env u Hurl) as (Eh & _ & Eu & _ & En & _).
      cbn zeta in *. unfold truthyVar. rewrite Eh, En, Eu. unfold Str.truthy.
      rewrite !negb_false_iff, !String.eqb_eq. tauto.
    + now rewrite (parseDatabaseUrl_none URL env Hurl).
  - intros ext cmd file w Hnone. unfold program.
    unfold resolve in *. destruct (parseDatabaseUrl URL env) as [env' logs] eqn:Hp.
    destruct (validate env') as [cfg|]; [discriminate|].
    eexists. split; [reflexivity|].
    apply Forall_app. split; [|repeat constructor; eauto].
    unfold parseDatabaseUrl in Hp.
    destruct (env !! "DATABASE_URL") as [s|]; [|injection Hp as <- <-; constructor].
    destruct (Str.truthy s); [|injection Hp as <- <-; constructor].
    destruct (URL s); injection Hp as <- <-; repeat constructor; eauto.
  - intros s Hs Hu. rewrite resolve_validate. f_equal.
    apply parseDatabaseUrl_none. unfold databaseUrl. rewrite Hs, Hu.
    now destruct (Str.truthy s).
Qed.

(** ** Sorting newest first *)

Section SortFacts.
Context {A : Type}.
Variable t : A -> Z.

Lemma insertSorted_perm (x : A) (l : list A) :
  Permutation (insertSorted (fun a b => t b - t a) x l) (x :: l).
Proof.
  induction l as [|y l IH]; cbn [insertSorted]; [reflexivity|].
  destruct ((fun a b => t b - t a) x y <=? 0); [reflexivity|].
  rewrite IH. apply perm_swap.
Qed.

Lemma sortBy_perm (l : list A) : Permutation (sortBy (fun a b => t b - t a) l) l.
Proof.
  induction l as [|x l IH]; cbn [sortBy]; [reflexivity|].
  now rewrite insertSorted_perm, IH.
Qed.

Lemma sortBy_length (l : list A) : length (sortBy (fun a b => t b - t a) l) = length l.
Proof. apply Permutation_length, sortBy_perm. Qed.

Lemma insertSorted_sorted (x : A) (l : list A) :
  StronglySorted (fun a b => t b <= t a) l ->
  StronglySorted (fun a b => t b <= t a) (insertSorted (fun a b => t b - t a) x l).
Proof.
  induction l as [|y l IH]; cbn [insertSorted]; intros Hs.
  - repeat constructor.
  - inversion Hs as [|? ? Hl Hy]; subst. cbn beta.
    destruct (Z.leb_spec (t y - t x) 0) as [Hle|Hgt].
    + constructor; [assumption|]. constructor; [lia|].
      eapply Forall_impl; [exact Hy|]. cbn. intros z Hz. lia.
    + constructor; [now apply IH|].
      rewrite (insertSorted_perm x l). constructor; [lia | assumption].
Qed.

Lemma sortBy_sorted (l : list A) :
  StronglySorted (fun a b => t b <= t a) (sortBy (fun a b => t b - t a) l).
Proof.
  induction l as [|x l IH]; cbn [sortBy]; [constructor|].
  now apply insertSorted_sorted.
Qed.


End SortFacts.

(** ** The latest local artifact *)

Lemma isBackupName_spec (f : string) :
  isBackupName f = true <->
  exists stem, f = stem +:+ ".sql" \/ f = stem +:+ ".dump"
               \/ f = stem +:+ ".sql.gz" \/ f = stem +:+ ".dump.gz".
Proof.
  unfold isBackupName. rewrite !orb_true_iff, !endsWith_spec. split.
  - intros [[[[p H]|[p H]]|[p H]]|[p H]]; exists p; tauto.
  - intros [p [H|[H|[H|H]]]]; eauto 6.
Qed.



(** ** Running the script: the retention pass *)

Lemma objectsOf_In (b : gmap string Z) (o : S3Object) :
  In o (objectsOf b) <-> b !! Key o = Some (LastModified o).
Proof.
  unfold objectsOf. rewrite in_map_iff. split.
  - intros ([k t] & <- & Hin). now apply list_elem_of_In, elem_of_map_to_list in Hin.
  - intros Hl. exists (Key o, LastModified o). split; [now destruct o|].
    now apply list_elem_of_In, elem_of_map_to_list.
Qed.

Lemma objectsOf_keys (b : gmap string Z) : map Key (objectsOf b) = (map_to_list b).*1.
Proof.
  unfold objectsOf. induction (map_to_list b) as [|[k t] l IH]; [reflexivity|].
  cbn. now rewrite IH.
Qed.

Lemma objectsOf_NoDup (b : gmap string Z) : NoDup (map Key (objectsOf b)).
Proof. rewrite objectsOf_keys. apply NoDup_fst_map_to_list. Qed.

Lemma length_objectsOf (b : gmap string Z) : length (objectsOf b) = size b.
Proof. unfold objectsOf. rewrite length_map. apply length_map_to_list. Qed.

Lemma contentsOf_objectsOf (b : gmap string Z) :
  contentsOf b = match objectsOf b with [] => None | cs => Some cs end.
Proof. unfold contentsOf, objectsOf. now destruct (map_to_list b). Qed.

Lemma deleteAll_lookup (l : list S3Object) (b : gmap string Z) (k : string) :
  deleteAll l b !! k = if decide (k ∈ map Key l) then None else b !! k.
Proof.
  revert b. induction l as [|o l IH]; intros b; cbn [deleteAll fold_left map].
  - rewrite decide_False; [reflexivity | apply not_elem_of_nil].
  - fold (deleteAll l (delete (Key o) b)). rewrite IH.
    destruct (decide (k ∈ map Key l)) as [Hin|Hnin].
    + rewrite decide_True; [reflexivity | now apply elem_of_cons; right].
    + destruct (decide (Key o = k)) as [<-|Hne].
      * rewrite decide_True; [apply lookup_delete_eq | now apply elem_of_cons; left].
      * rewrite decide_False; [now apply lookup_delete_ne|].
        intros [?|?]%elem_of_cons; [congruence | contradiction].
Qed.

Lemma deleteAll_size (l : list S3Object) (b : gmap string Z) :
  NoDup (map Key l) -> (forall o, In o l -> is_Some (b !! Key o)) ->
  (size (deleteAll l b) + length l = size b)%nat.
Proof.
  revert b. induction l as [|o l IH]; intros b Hnd Hin; cbn [deleteAll fold_left length].
  - lia.
  - fold (deleteAll l (delete (Key o) b)). cbn [map] in Hnd.
    apply NoDup_cons in Hnd as [Hfresh Hnd].
    assert (Ho : is_Some (b !! Key o)) by (apply Hin; now left).
    assert (IH' : (size (deleteAll l (delete (Key o) b)) + length l
                   = size (delete (Key o) b))%nat).
    { apply IH; [assumption|]. intros o' Ho'.
      rewrite lookup_delete_ne; [apply Hin; now right|].
      intros Heq. apply Hfresh. rewrite list_elem_of_In, Heq. now apply in_map. }
    rewrite map_size_delete_Some in IH' by assumption.
    destruct Ho as [x Hx]. assert (size b <> 0%nat); [|lia].
    intros Hz. apply map_size_empty_inv in Hz. subst b. now rewrite lookup_empty in Hx.
Qed.

(** A loop of deletions that all go through. *)
Lemma forEach_delete_ok (ext : Ext) (l : list S3Object) (w : World) :
  (forall o, In o l -> deleteOk ext (Key o) = true) ->
  forEach l (fun file => s3Delete ext (Key file) ;;
                         emit (Log ("Deleted old backup: " +:+ Key file))) w
  = (Ok tt, {| files := files w; bucket := deleteAll l (bucket w);
               trace := trace w ++ flat_map deleted l |}).
Proof.
  revert w. induction l as [|o l IH]; intros w Hok; cbn [forEach flat_map deleteAll fold_left].
  - unfold ret. rewrite List.app_nil_r. now destruct w.
  - unfold bind at 1. unfold bind at 1. unfold s3Delete, bind, emit at 1.
    rewrite (Hok o) by now left. unfold emit at 1. cbn [files bucket trace].
    rewrite IH by (intros; apply Hok; now right). cbn [files bucket trace].
    unfold deleted at 2. rewrite <- !app_assoc. reflexivity.
Qed.

(** A loop of deletions stops at the first one that fails. *)
Lemma forEach_delete_fail (ext : Ext) (pre post : list S3Object) (x : S3Object) (w : World) :
  (forall o, In o pre -> deleteOk ext (Key o) = true) ->
  deleteOk ext (Key x) = false ->
  forEach (pre ++ x :: post)
    (fun file => s3Delete ext (Key file) ;;
                 emit (Log ("Deleted old backup: " +:+ Key file))) w
  = (Throw (s3Err ext),
     {| files := files w; bucket := deleteAll pre (bucket w);
        trace := trace w ++ flat_map deleted pre ++ [S3Delete (Key x)] |}).
Proof.
  revert w. induction pre as [|o pre IH]; intros w Hok Hx;
    cbn [app forEach flat_map deleteAll fold_left].
  - unfold bind at 1. unfold bind at 1. unfold s3Delete, bind, emit at 1.
    rewrite Hx. reflexivity.
  - unfold bind at 1. unfold bind at 1. unfold s3Delete, bind, emit at 1.
    rewrite (Hok o) by now left. unfold emit at 1. cbn [files bucket trace].
    rewrite IH by (try assumption; intros; apply Hok; now right).
    cbn [files bucket trace]. unfold deleted at 2. rewrite <- !app_assoc. reflexivity.
Qed.

(** The pass is the listing followed by the loop over its targets. *)
Lemma retention_run (ext : Ext) (w : World) :
  listOk ext = true ->
  retention ext w =
  forEach (pruneTargets (bucket w))
    (fun file => s3Delete ext (Key file) ;;
                 emit (Log ("Deleted old backup: " +:+ Key file)))
    (withTrace w (trace w ++ [S3List])).
Proof.
  intros Hl. unfold retention, s3List. unfold bind at 1. unfold bind at 1.
  unfold emit at 1. rewrite Hl. cbn [files bucket trace].
  rewrite contentsOf_objectsOf. unfold pruneTargets, withTrace. cbn [bucket].
  destruct (objectsOf (bucket w)) as [|o cs] eqn:Hobj; [reflexivity|].
  destruct (KEEP_LAST <? length (o :: cs))%nat; reflexivity.
Qed.

Lemma retention_list_fails (ext : Ext) (w : World) :
  listOk ext = false ->
  retention ext w = (Throw (s3Err ext), withTrace w (trace w ++ [S3List])).
Proof.
  intros Hl. unfold retention, s3List. unfold bind at 1. unfold bind at 1.
  unfold emit at 1. now rewrite Hl.
Qed.

(** ** What the retention pass selects *)

Lemma pruneTargets_small (b : gmap string Z) :
  (size b <= 7)%nat -> pruneTargets b = [].
Proof.
  intros Hle. unfold pruneTargets. rewrite length_objectsOf.
  destruct (Nat.ltb_spec KEEP_LAST (size b)) as [Hlt|]; [|reflexivity].
  unfold KEEP_LAST in Hlt. lia.
Qed.

Lemma pruneTargets_large (b : gmap string Z) :
  (7 < size b)%nat ->
  pruneTargets b = drop 7 (sortBy (fun x y => LastModified y - LastModified x) (objectsOf b)).
Proof.
  intros Hlt. unfold pruneTargets. rewrite length_objectsOf.
  destruct (Nat.ltb_spec KEEP_LAST (size b)) as [|Hle]; [reflexivity|].
  unfold KEEP_LAST in Hle. lia.
Qed.

Lemma pruneTargets_In (b : gmap string Z) (o : S3Object) :
  In o (pruneTargets b) -> b !! Key o = Some (LastModified o).
Proof.
  intros Hin. apply objectsOf_In. unfold pruneTargets, oldFiles in Hin.
  destruct (KEEP_LAST <? length (objectsOf b))%nat; [|destruct Hin].
  eapply Permutation_in; [apply (sortBy_perm LastModified)|].
  apply list_elem_of_In. apply list_elem_of_In in Hin.
  eapply elem_of_sublist; [exact Hin | apply sublist_drop].
Qed.

Lemma pruneTargets_NoDup (b : gmap string Z) : NoDup (map Key (pruneTargets b)).
Proof.
  unfold pruneTargets, oldFiles.
  destruct (KEEP_LAST <? length (objectsOf b))%nat; [|constructor].
  change (map Key) with (fmap (M := list) Key). rewrite fmap_drop.
  eapply sublist_NoDup; [|apply sublist_drop].
  eapply NoDup_Permutation_proper; [|apply objectsOf_NoDup].
  apply (Permutation_map Key), (sortBy_perm LastModified).
Qed.

Lemma pruneTargets_length (b : gmap string Z) :
  length (pruneTargets b) = (size b - 7)%nat.
Proof.
  destruct (Nat.le_gt_cases (size b) 7) as [Hle|Hlt].
  - rewrite pruneTargets_small by assumption. cbn. lia.
  - rewrite pruneTargets_large by assumption.
    now rewrite length_drop, (sortBy_length LastModified), length_objectsOf.
Qed.

(** Every object kept is at least as recent as every object selected. *)
Lemma pruneTargets_oldest (b : gmap string Z) (o o' : S3Object) :
  In o (objectsOf b) -> ~ In (Key o) (map Key (pruneTargets b)) ->
  In o' (pruneTargets b) ->
  LastModified o' <= LastModified o.
Proof.
  intros Ho Hkept Ho'. unfold pruneTargets, oldFiles in *.
  destruct (KEEP_LAST <? length (objectsOf b))%nat; [|destruct Ho'].
  set (sorted := sortBy (fun x y => LastModified y - LastModified x) (objectsOf b)) in *.
  pose proof (sortBy_sorted LastModified (objectsOf b)) as Hs. fold sorted in Hs.
  rewrite <- (take_drop KEEP_LAST sorted) in Hs.
  apply (StronglySorted_app_1_elem_of _ _ _ o o') in Hs; [exact Hs | | now apply list_elem_of_In].
  assert (Hin : In o sorted).
  { eapply Permutation_in; [apply Permutation_sym, (sortBy_perm LastModified) | exact Ho]. }
  rewrite <- (take_drop KEEP_LAST sorted) in Hin.
  apply in_app_iff in Hin as [Hin|Hin]; [now apply list_elem_of_In|].
  exfalso. apply Hkept. now apply in_map.
Qed.

(** C2.  With a listing of [n] objects and deletions that go through, the
    retention pass deletes nothing when [n] is at most 7; when [n] exceeds 7
    it deletes exactly [n - 7] objects, each at most as recent as every
    object that stays, and 7 objects stay.  A second pass right after the
    first lists the bucket and deletes nothing. *)
Theorem retention_keeps_seven_newest (ext : Ext) (w : World) :
  listOk ext = true -> (forall k, deleteOk ext k = true) ->
  exists w',
    retention ext w = (Ok tt, w')
    /\ files w' = files w
    /\ trace w' = trace w ++ S3List :: flat_map deleted (pruneTargets (bucket w))
    /\ length (pruneTargets (bucket w)) = (size (bucket w) - 7)%nat
    /\ NoDup (map Key (pruneTargets (bucket w)))
    /\ (forall k, bucket w' !! k =
                  if decide (k ∈ map Key (pruneTargets (bucket w))) then None
                  else bucket w !! k)
    /\ (forall o, In o (pruneTargets (bucket w)) ->
                  bucket w !! Key o = Some (LastModified o))
    /\ ((size (bucket w) <= 7)%nat -> bucket w' = bucket w)
    /\ ((7 < size (bucket w))%nat -> size (bucket w') = 7%nat)
    /\ (forall k t k' t',
          bucket w' !! k = Some t -> bucket w !! k' = Some t' ->
          bucket w' !! k' = None -> t' <= t)
    /\ (exists w'', retention ext w' = (Ok tt, w'')
                    /\ bucket w'' = bucket w'
                    /\ trace w'' = trace w' ++ [S3List]).
Proof.
  intros Hl Hd. set (ts := pruneTargets (bucket w)).
  assert (Hrun : forall v, retention ext v =
            (Ok tt, {| files := files v; bucket := deleteAll (pruneTargets (bucket v)) (bucket v);
                       trace := trace v ++ S3List :: flat_map deleted (pruneTargets (bucket v)) |})).
  { intros v. rewrite retention_run by assumption.
    rewrite forEach_delete_ok by (intros; apply Hd).
    cbn [withTrace files bucket trace]. now rewrite <- app_assoc. }
  assert (Hsize : (size (deleteAll ts (bucket w)) + length ts = size (bucket w))%nat).
  { apply deleteAll_size; [apply pruneTargets_NoDup|].
    intros o Ho. rewrite (pruneTargets_In _ _ Ho). eauto. }
  pose proof (pruneTargets_length (bucket w)) as Hlen. fold ts in Hlen.
  eexists. split; [apply Hrun|]. cbn [files bucket trace]. fold ts.
  split; [reflexivity|]. split; [reflexivity|]. split; [exact Hlen|].
  split; [apply pruneTargets_NoDup|]. split; [apply deleteAll_lookup|].
  split; [apply pruneTargets_In|].
  split. { intros Hle. unfold ts. now rewrite pruneTargets_small. }
  split. { intros Hlt. lia. }
  split.
  { intros k t k' t'. rewrite !deleteAll_lookup.
    destruct (decide (k ∈ map Key ts)) as [|Hk]; [discriminate|].
    destruct (decide (k' ∈ map Key ts)) as [Hk'|]; [|congruence].
    intros Hkt Hk't' _.
    apply list_elem_of_In, in_map_iff in Hk' as (o' & <- & Ho').
    pose proof (pruneTargets_In _ _ Ho') as Hlook. rewrite Hk't' in Hlook.
    injection Hlook as ->.
    apply (pruneTargets_oldest (bucket w) {| Key := k; LastModified := t |} o');
      [now apply objectsOf_In | now rewrite <- list_elem_of_In | exact Ho']. }
  eexists. split; [apply Hrun|]. cbn [files bucket trace].
  assert (Hnil : pruneTargets (deleteAll ts (bucket w)) = []).
  { apply pruneTargets_small. lia. }
  rewrite Hnil. split; reflexivity.
Qed.

(** The pass on its own: the first deletion that fails ends it with the
    error of the client. *)
Lemma retention_first_failure (ext : Ext) (w : World)
    (pre post : list S3Object) (x : S3Object) :
  listOk ext = true ->
  pruneTargets (bucket w) = pre ++ x :: post ->
  (forall o, In o pre -> deleteOk ext (Key o) = true) ->
  deleteOk ext (Key x) = false ->
  exists w',
    retention ext w = (Throw (s3Err ext), w')
    /\ trace w' = trace w ++ S3List :: flat_map deleted pre ++ [S3Delete (Key x)]
    /\ bucket w' = deleteAll pre (bucket w)
    /\ (forall o, In o post ->
          ~ In (S3Delete (Key o)) (S3List :: flat_map deleted pre ++ [S3Delete (Key x)])
          /\ bucket w' !! Key o = Some (LastModified o)).
Proof.
  intros Hl Hts Hpre Hx.
  eexists. split.
  { rewrite retention_run, Hts by assumption. now apply forEach_delete_fail. }
  cbn [withTrace files bucket trace]. split; [now rewrite <- app_assoc|].
  split; [reflexivity|].
  intros o Ho.
  pose proof (pruneTargets_NoDup (bucket w)) as Hnd. rewrite Hts in Hnd.
  rewrite map_app in Hnd. cbn [map] in Hnd.
  apply NoDup_app in Hnd as (_ & Hdisj & Hnd'). apply NoDup_cons in Hnd' as [Hxo _].
  assert (Hkey : Key o ∈ map Key post) by (apply list_elem_of_In; now apply in_map).
  assert (Hnpre : Key o ∉ map Key pre) by (intros Hin; exact (Hdisj _ Hin ltac:(now right))).
  split.
  - intros [Habs|Hin]; [discriminate|]. apply in_app_iff in Hin as [Hin|[Hin|[]]].
    + apply in_flat_map in Hin as (o' & Ho' & [Hin|[Hin|[]]]); [|discriminate].
      injection Hin as Heq. apply Hnpre. rewrite <- Heq.
      apply list_elem_of_In. now apply in_map.
    + injection Hin as Heq. apply Hxo. now rewrite Heq.
  - rewrite deleteAll_lookup, decide_False by assumption.
    apply pruneTargets_In. rewrite Hts. apply in_app_iff. right. now right.
Qed.

(** ** Upload, then local cleanup *)

Lemma s3Delete_log_run (ext : Ext) (o : S3Object) (w : World) :
  (s3Delete ext (Key o) ;; emit (Log ("Deleted old backup: " +:+ Key o))) w =
  if deleteOk ext (Key o) then
    (Ok tt, {| files := files w; bucket := delete (Key o) (bucket w);
               trace := trace w ++ deleted o |})
  else (Throw (s3Err ext), withTrace w (trace w ++ [S3Delete (Key o)])).
Proof.
  unfold s3Delete, bind, emit, deleted. destruct (deleteOk ext (Key o)); [|reflexivity].
  cbn [files bucket trace]. now rewrite <- app_assoc.
Qed.

(** Whatever the object store does, the pass leaves the local files alone. *)
Lemma forEach_delete_frame (ext : Ext) (l : list S3Object) (w : World) :
  exists r w' evs,
    forEach l (fun file => s3Delete ext (Key file) ;;
                           emit (Log ("Deleted old backup: " +:+ Key file))) w = (r, w')
    /\ files w' = files w /\ trace w' = trace w ++ evs
    /\ Forall (fun e => isRemote e = true) evs.
Proof.
  revert w. induction l as [|o l IH]; intros w; cbn [forEach].
  - exists (Ok tt), w, []. rewrite List.app_nil_r. repeat split. constructor.
  - unfold bind at 1. rewrite s3Delete_log_run.
    destruct (deleteOk ext (Key o)).
    + match goal with |- context [forEach l ?body ?v] =>
        destruct (IH v) as (r & w' & evs & Hrun & Hf & Ht & Hall) end.
      rewrite Hrun. exists r, w', (deleted o ++ evs). cbn [files trace] in *.
      repeat split; [assumption | |].
      * rewrite Ht. now rewrite <- !app_assoc.
      * apply Forall_app. split; [repeat constructor | assumption].
    + exists (Throw (s3Err ext)), (withTrace w (trace w ++ [S3Delete (Key o)])),
        [S3Delete (Key o)].
      repeat split. repeat constructor.
Qed.

Lemma retention_frame (ext : Ext) (w : World) :
  exists r w' evs,
    retention ext w = (r, w') /\ files w' = files w /\ trace w' = trace w ++ evs
    /\ Forall (fun e => isRemote e = true) evs.
Proof.
  destruct (listOk ext) eqn:Hl.
  - rewrite retention_run by assumption.
    destruct (forEach_delete_frame ext (pruneTargets (bucket w))
                (withTrace w (trace w ++ [S3List]))) as (r & w' & evs & Hrun & Hf & Ht & Hall).
    exists r, w', (S3List :: evs). cbn [withTrace files trace] in *.
    repeat split; try assumption.
    + rewrite Ht. now rewrite <- app_assoc.
    + constructor; [reflexivity | assumption].
  - rewrite retention_list_fails by assumption.
    exists (Throw (s3Err ext)), (withTrace w (trace w ++ [S3List])), [S3List].
    repeat split. repeat constructor.
Qed.

(** The retention pass talks to the object store alone: its errors are
    rejections of the client. *)
Lemma forEach_delete_no_die (ext : Ext) (l : list S3Object) (w w' : World) (e : string) :
  forEach l (fun file => s3Delete ext (Key file) ;;
                         emit (Log ("Deleted old backup: " +:+ Key file))) w <> (Die e, w').
Proof.
  revert w. induction l as [|o l IH]; intros w; cbn [forEach]; [intros [=]|].
  unfold bind at 1. rewrite s3Delete_log_run.
  destruct (deleteOk ext (Key o)); [apply IH | intros [=]].
Qed.

Lemma retention_no_die (ext : Ext) (w w' : World) (e : string) :
  retention ext w <> (Die e, w').
Proof.
  destruct (listOk ext) eqn:Hl.
  - rewrite retention_run by assumption. apply forEach_delete_no_die.
  - rewrite retention_list_fails by assumption. intros [=].
Qed.

(** The body stream of an upload, when the file is there. *)
Lemma createReadStream_present (p : string) (w : World) :
  p ∈ files w -> createReadStream p w = (Ok tt, w).
Proof. intros Hin. unfold createReadStream. now rewrite decide_True. Qed.

Lemma createReadStream_missing (p : string) (w : World) :
  p ∉ files w ->
  createReadStream p w = (Die ("ENOENT: no such file or directory, open " +:+ p), w).
Proof. intros Hin. unfold createReadStream. now rewrite decide_False. Qed.

(** The upload when the file is missing: the process ends before any call
    to the object store. *)
Lemma upload_missing (cfg : Config) (ext : Ext) (p : string) (w : World) :
  bucketSet cfg = true -> p ∉ files w ->
  uploadToBackblaze cfg ext p w =
  (Die ("ENOENT: no such file or directory, open " +:+ p), w).
Proof.
  intros Hb Hnin. unfold uploadToBackblaze. rewrite Hb. cbn [negb].
  unfold bind at 1. now rewrite createReadStream_missing.
Qed.

(** The upload when the object store refuses the object. *)
Lemma upload_put_fails (cfg : Config) (ext : Ext) (p : string) (w : World) :
  bucketSet cfg = true -> putOk ext (Path.basename p) = false -> p ∈ files w ->
  uploadToBackblaze cfg ext p w =
  (Ok tt, withTrace w (trace w ++ [S3Put (Path.basename p);
            LogError ("Backblaze upload/cleanup failed: " +:+ s3Err ext)])).
Proof.
  intros Hb Hput Hin. unfold uploadToBackblaze. rewrite Hb. cbn [negb].
  unfold bind at 1. rewrite createReadStream_present by assumption.
  unfold tryCatch, bind at 1. unfold s3Put, bind at 1, emit at 1.
  rewrite Hput. unfold throw, emit, withTrace. cbn [files bucket trace].
  now rewrite <- app_assoc.
Qed.

(** The upload when the object store takes the object and the file is there:
    the file is unlinked, then the retention pass runs, and an error of the
    pass is reported. *)
Lemma upload_put_ok (cfg : Config) (ext : Ext) (p : string) (w : World) :
  bucketSet cfg = true -> putOk ext (Path.basename p) = true -> p ∈ files w ->
  let key := Path.basename p in
  let w1 := {| files := files w ∖ {[p]};
               bucket := <[key := putTime ext]> (bucket w);
               trace := trace w ++ [S3Put key;
                          Log ("Uploaded " +:+ key +:+ " -> Backblaze B2");
                          Unlink p; Log ("Local file deleted: " +:+ p)] |} in
  uploadToBackblaze cfg ext p w =
  match retention ext w1 with
  | (Ok _, w2) => (Ok tt, w2)
  | (Throw err, w2) =>
      (Ok tt, withTrace w2 (trace w2 ++
                 [LogError ("Backblaze upload/cleanup failed: " +:+ err)]))
  | (Die err, w2) => (Die err, w2)
  end.
Proof.
  intros Hb Hput Hin key w1. subst key. unfold uploadToBackblaze. rewrite Hb. cbn [negb].
  unfold bind at 1. rewrite createReadStream_present by assumption.
  unfold tryCatch. unfold bind at 1. unfold s3Put, bind at 1, emit at 1.
  rewrite Hput. cbn [files bucket trace].
  unfold bind at 1. unfold emit at 1. cbn [files bucket trace].
  unfold bind at 1. unfold unlinkSync, bind at 1, emit at 1. cbn [files bucket trace].
  rewrite decide_True by assumption.
  unfold bind at 1. unfold emit at 1. cbn [files bucket trace].
  rewrite <- !app_assoc. cbn [app]. fold w1.
  destruct (retention ext w1) as [[[]|err|err] w2]; reflexivity.
Qed.

(** C6, as the script runs the pass.  With the object stored and the local
    file removed, the deletions are attempted one after the other, in the
    order of the sorted listing, and the first one that fails ends the pass:
    the objects before it are deleted, the failing one has been attempted,
    and none of the remaining ones is attempted or deleted.  The error of
    the pass is then caught by the handler of the upload, which reports it
    on the error console and returns. *)
Theorem retention_stops_at_first_failure (cfg : Config) (ext : Ext) (filePath : string)
    (w : World) (pre post : list S3Object) (x : S3Object) :
  bucketSet cfg = true -> filePath ∈ files w ->
  putOk ext (Path.basename filePath) = true -> listOk ext = true ->
  let key := Path.basename filePath in
  let stored := <[key := putTime ext]> (bucket w) in
  pruneTargets stored = pre ++ x :: post ->
  (forall o, In o pre -> deleteOk ext (Key o) = true) ->
  deleteOk ext (Key x) = false ->
  let w1 := {| files := files w ∖ {[filePath]}; bucket := stored;
               trace := trace w ++ [S3Put key;
                          Log ("Uploaded " +:+ key +:+ " -> Backblaze B2");
                          Unlink filePath;
                          Log ("Local file deleted: " +:+ filePath)] |} in
  let pass := S3List :: flat_map deleted pre ++ [S3Delete (Key x)] in
  exists w2,
    retention ext w1 = (Throw (s3Err ext), w2)
    /\ trace w2 = trace w1 ++ pass
    /\ bucket w2 = deleteAll pre stored
    /\ files w2 = files w1
    /\ (forall o, In o pre -> bucket w2 !! Key o = None)
    /\ bucket w2 !! Key x = Some (LastModified x)
    /\ (forall o, In o post ->
          ~ In (S3Delete (Key o)) pass
          /\ bucket w2 !! Key o = Some (LastModified o))
    /\ uploadToBackblaze cfg ext filePath w =
       (Ok tt, withTrace w2 (trace w2 ++
          [LogError ("Backblaze upload/cleanup failed: " +:+ s3Err ext)])).
Proof.
  intros Hb Hin Hput Hl key stored Hts Hpre Hx w1 pass.
  destruct (retention_first_failure ext w1 pre post x Hl Hts Hpre Hx)
    as (w2 & Hrun & Ht & Hbk & Hpost).
  assert (Hf : files w2 = files w1).
  { destruct (retention_frame ext w1) as (r & v & evs & Hrun' & Hf & _).
    rewrite Hrun in Hrun'. now injection Hrun' as _ <-. }
  pose proof (pruneTargets_NoDup stored) as Hnd. rewrite Hts in Hnd.
  rewrite map_app in Hnd. cbn [map] in Hnd.
  apply NoDup_app in Hnd as (Hndpre & Hdisj & Hnd'). apply NoDup_cons in Hnd' as [Hxo _].
  exists w2. split; [exact Hrun|]. split; [exact Ht|]. split; [exact Hbk|].
  split; [exact Hf|]. split.
  { intros o Ho. rewrite Hbk, deleteAll_lookup.
    apply decide_True. apply list_elem_of_In. now apply in_map. }
  split.
  { rewrite Hbk, deleteAll_lookup, decide_False.
    - apply (pruneTargets_In stored). rewrite Hts. apply in_app_iff. right. now left.
    - intros Hin'. exact (Hdisj _ Hin' ltac:(now left)). }
  split; [exact Hpost|].
  rewrite (upload_put_ok cfg ext filePath w Hb Hput Hin). cbn zeta.
  fold key. fold stored. fold w1. now rewrite Hrun.
Qed.

(** C1.  With a bucket configured and the artifact present, the upload is
    attempted first; the local file is unlinked if and only if the upload
    call returned successfully, the unlink coming after the upload in the
    order of events and being the only one; after a failed upload the local
    file is still there, and nothing else is ever removed. *)
Theorem upload_then_delete (cfg : Config) (ext : Ext) (filePath : string) (w : World) :
  bucketSet cfg = true -> filePath ∈ files w ->
  let key := Path.basename filePath in
  exists w' rest,
    uploadToBackblaze cfg ext filePath w = (Ok tt, w')
    /\ trace w' = trace w ++ S3Put key :: rest
    /\ (if putOk ext key then
          exists rest',
            rest = Log ("Uploaded " +:+ key +:+ " -> Backblaze B2")
                   :: Unlink filePath :: rest'
            /\ Forall (fun e => isUnlink e = false) rest'
            /\ files w' = files w ∖ {[filePath]}
        else
          Forall (fun e => isUnlink e = false) rest /\ files w' = files w)
    /\ (filePath ∉ files w' <-> putOk ext key = true)
    /\ (In (Unlink filePath) rest <-> putOk ext key = true).
Proof.
  intros Hb Hin key. destruct (putOk ext key) eqn:Hput.
  - rewrite (upload_put_ok cfg ext filePath w Hb Hput Hin). cbn zeta. fold key.
    match goal with |- context [retention ext ?v] =>
      destruct (retention_frame ext v) as (r & w2 & evs & Hrun & Hf & Ht & Hall) end.
    rewrite Hrun. cbn [files trace] in Hf, Ht.
    assert (Hnu : Forall (fun e => isUnlink e = false) evs).
    { eapply Forall_impl; [exact Hall|]. intros []; cbn; congruence. }
    destruct r as [[]|err|err]; [| |exfalso; exact (retention_no_die _ _ _ _ Hrun)].
    + exists w2, (Log ("Uploaded " +:+ key +:+ " -> Backblaze B2") :: Unlink filePath
                  :: Log ("Local file deleted: " +:+ filePath) :: evs).
      split; [reflexivity|]. split; [rewrite Ht; now rewrite <- app_assoc|].
      split; [eexists; split; [reflexivity|]; split; [now constructor | exact Hf]|].
      split; [|split; [reflexivity | intros _; right; now left]].
      rewrite Hf. split; [reflexivity|].
      intros _ [_ Hn]%elem_of_difference. apply Hn. now apply elem_of_singleton.
    + exists (withTrace w2 (trace w2 ++
                [LogError ("Backblaze upload/cleanup failed: " +:+ err)])),
        (Log ("Uploaded " +:+ key +:+ " -> Backblaze B2") :: Unlink filePath
         :: Log ("Local file deleted: " +:+ filePath)
         :: evs ++ [LogError ("Backblaze upload/cleanup failed: " +:+ err)]).
      cbn [withTrace files trace].
      split; [reflexivity|]. split; [rewrite Ht; now rewrite <- !app_assoc|].
      split.
      { eexists; split; [reflexivity|]. split; [|exact Hf].
        constructor; [reflexivity|]. apply Forall_app. split; [exact Hnu|].
        now repeat constructor. }
      split; [|split; [reflexivity | intros _; right; now left]].
      rewrite Hf. split; [reflexivity|].
      intros _ [_ Hn]%elem_of_difference. apply Hn. now apply elem_of_singleton.
  - rewrite (upload_put_fails cfg ext filePath w Hb Hput Hin). fold key.
    exists (withTrace w (trace w ++ [S3Put key;
              LogError ("Backblaze upload/cleanup failed: " +:+ s3Err ext)])),
      [LogError ("Backblaze upload/cleanup failed: " +:+ s3Err ext)].
    cbn [withTrace files trace].
    split; [reflexivity|]. split; [reflexivity|].
    split; [split; [now repeat constructor | reflexivity]|].
    split; [split; [contradiction | discriminate]|].
    split; [intros [Habs|[]]; discriminate | discriminate].
Qed.

(** ** Restore *)

(** What the console shows once the restore tool has run. *)
Lemma restore_tool_run (cfg : Config) (ext : Ext) (sql : string) (w : World) :
  tryCatch
    (runCommand ext (restoreCmd cfg sql) ;; emit (Log "Restore complete!"))
    (fun err => emit (LogError ("Restore failed: " +:+ err))) w
  = (Ok tt, withTrace w (trace w ++
       [Exec (restoreCmd cfg sql);
        if execOk ext (restoreCmd cfg sql) then Log "Restore complete!"
        else LogError ("Restore failed: " +:+ execErr ext (restoreCmd cfg sql))])).
Proof.
  unfold tryCatch, runCommand, bind, emit, throw, ret, withTrace.
  destruct (execOk ext (restoreCmd cfg sql)); cbn [files bucket trace];
    now rewrite <- app_assoc.
Qed.

Lemma restore_plain (cfg : Config) (ext : Ext) (p : string) (w : World) :
  Str.endsWith p ".gz" = false ->
  restore cfg ext p w =
  (Ok tt, withTrace w (trace w ++
     [Log ("Restoring from " +:+ p +:+ "...");
      Exec (restoreCmd cfg p);
      if execOk ext (restoreCmd cfg p) then Log "Restore complete!"
      else LogError ("Restore failed: " +:+ execErr ext (restoreCmd cfg p))])).
Proof.
  intros Hgz. unfold restore. rewrite Hgz.
  unfold bind at 1. unfold emit at 1. unfold bind at 1. unfold ret at 1.
  unfold bind at 1. rewrite restore_tool_run. rewrite String.eqb_refl.
  unfold ret, withTrace. cbn [negb files bucket trace]. now rewrite <- app_assoc.
Qed.

Lemma restore_gz_finished (cfg : Config) (ext : Ext) (p : string) (w : World) :
  Str.endsWith p ".gz" = true -> gunzipResult ext p = Finished ->
  let d := Str.stripSuffix ".gz" p in
  restore cfg ext p w =
  (Ok tt, {| files := files w ∖ {[d]}; bucket := bucket w;
             trace := trace w ++
               [Log ("Restoring from " +:+ p +:+ "...");
                Gunzip p d;
                Exec (restoreCmd cfg d);
                if execOk ext (restoreCmd cfg d) then Log "Restore complete!"
                else LogError ("Restore failed: " +:+ execErr ext (restoreCmd cfg d));
                Unlink d] |}).
Proof.
  intros Hgz Hfin d. unfold restore. rewrite Hgz. fold d.
  unfold bind at 1. unfold emit at 1. unfold bind at 1. unfold bind at 1.
  unfold gunzipTo, bind at 1, emit at 1. rewrite Hfin.
  unfold createFile at 1. cbn [files bucket trace]. unfold ret at 1.
  unfold bind at 1. rewrite restore_tool_run.
  unfold d at 1. rewrite (stripSuffix_gz_neq p Hgz). fold d. cbn [negb].
  unfold unlinkSync, bind, emit, withTrace. cbn [files bucket trace].
  rewrite decide_True by (apply elem_of_union_l; now apply elem_of_singleton).
  f_equal. f_equal.
  - apply set_eq. intros q. rewrite !elem_of_difference, elem_of_union. tauto.
  - rewrite <- !app_assoc. reflexivity.
Qed.

Lemma restore_gz_sink_error (cfg : Config) (ext : Ext) (p : string) (w : World)
    (partial : bool) (err : string) :
  Str.endsWith p ".gz" = true -> gunzipResult ext p = SinkError partial err ->
  let d := Str.stripSuffix ".gz" p in
  restore cfg ext p w =
  (Throw err, {| files := if partial then {[d]} ∪ files w else files w;
                 bucket := bucket w;
                 trace := trace w ++
                   [Log ("Restoring from " +:+ p +:+ "..."); Gunzip p d] |}).
Proof.
  intros Hgz Hf d. unfold restore. rewrite Hgz. fold d.
  unfold bind at 1. unfold emit at 1. unfold bind at 1. unfold bind at 1.
  unfold gunzipTo, bind at 1, emit at 1. rewrite Hf.
  destruct partial; unfold bind, createFile, ret, throw; cbn [files bucket trace];
    now rewrite <- app_assoc.
Qed.

Lemma restore_gz_stage_error (cfg : Config) (ext : Ext) (p : string) (w : World)
    (partial : bool) (err : string) :
  Str.endsWith p ".gz" = true -> gunzipResult ext p = StageError partial err ->
  let d := Str.stripSuffix ".gz" p in
  restore cfg ext p w =
  (Die err, {| files := if partial then {[d]} ∪ files w else files w;
               bucket := bucket w;
               trace := trace w ++
                 [Log ("Restoring from " +:+ p +:+ "..."); Gunzip p d] |}).
Proof.
  intros Hgz Hf d. unfold restore. rewrite Hgz. fold d.
  unfold bind at 1. unfold emit at 1. unfold bind at 1. unfold bind at 1.
  unfold gunzipTo, bind at 1, emit at 1. rewrite Hf.
  destruct partial; unfold bind, createFile, ret, die; cbn [files bucket trace];
    now rewrite <- app_assoc.
Qed.


(** Line 222. *)
Lemma main_file (cfg : Config) (ext : Ext) (cmd : option string) (p : string) (w : World) :
  Str.truthy p = true -> main cfg ext cmd (Some p) w = dispatch cfg ext cmd (Some p) w.
Proof. intros Ht. unfold main. rewrite Ht. reflexivity. Qed.

Lemma main_latest (cfg : Config) (ext : Ext) (cmd file : option string) (w : World) :
  (forall p, file = Some p -> Str.truthy p = false) ->
  main cfg ext cmd file w = (f <- getLatestBackupCall cfg ext ;; dispatch cfg ext cmd f) w.
Proof.
  intros Hf. unfold main. destruct file as [p|]; [|reflexivity].
  now rewrite (Hf p eq_refl).
Qed.

Lemma getLatestBackupCall_ok (cfg : Config) (ext : Ext) (w : World) :
  readdirOk ext = true -> statsOk cfg ext = true ->
  getLatestBackupCall cfg ext w =
  (Ok (getLatestBackup (BACKUP_DIR cfg) (readdir ext) (mtime ext)), w).
Proof. intros Hr Hs. unfold getLatestBackupCall. now rewrite Hr, Hs. Qed.

Lemma getLatestBackupCall_fails (cfg : Config) (ext : Ext) (w : World) :
  readdirOk ext = false \/ statsOk cfg ext = false ->
  getLatestBackupCall cfg ext w = (Throw (fsErr ext), w).
Proof.
  intros H. unfold getLatestBackupCall.
  destruct (readdirOk ext); [|reflexivity].
  destruct H as [H|H]; [discriminate | now rewrite H].
Qed.

Lemma statsOk_no_match (cfg : Config) (ext : Ext) :
  (forall f, In f (readdir ext) -> isBackupName f = false) -> statsOk cfg ext = true.
Proof.
  intros Hno. unfold statsOk.
  replace (filter (fun f => isBackupName f = true) (readdir ext)) with (@nil string);
    [reflexivity|].
  symmetry. induction (readdir ext) as [|f l IH]; [reflexivity|].
  rewrite filter_cons. rewrite decide_False.
  - apply IH. intros g Hg. apply Hno. now right.
  - rewrite (Hno f (or_introl eq_refl)). discriminate.
Qed.

(** C9.  When the decompression, if there is one, completes: for a path in
    [.gz], the only change to the local files is that the decompressed
    sibling (the path without its [.gz]) is gone at the end, and it is
    unlinked after the restore tool has run, whether the tool succeeded or
    failed; for any other path no local file is created or removed. *)
Theorem restore_frame (cfg : Config) (ext : Ext) (filePath : string) (w : World) :
  (Str.endsWith filePath ".gz" = true -> gunzipResult ext filePath = Finished) ->
  exists w',
    restore cfg ext filePath w = (Ok tt, w')
    /\ bucket w' = bucket w
    /\ if Str.endsWith filePath ".gz" then
         let d := Str.stripSuffix ".gz" filePath in
         d +:+ ".gz" = filePath
         /\ files w' = files w ∖ {[d]}
         /\ (forall q, q <> d -> (q ∈ files w' <-> q ∈ files w))
         /\ trace w' = trace w ++
              [Log ("Restoring from " +:+ filePath +:+ "...");
               Gunzip filePath d;
               Exec (restoreCmd cfg d);
               if execOk ext (restoreCmd cfg d) then Log "Restore complete!"
               else LogError ("Restore failed: " +:+ execErr ext (restoreCmd cfg d));
               Unlink d]
       else
         files w' = files w
         /\ trace w' = trace w ++
              [Log ("Restoring from " +:+ filePath +:+ "...");
               Exec (restoreCmd cfg filePath);
               if execOk ext (restoreCmd cfg filePath) then Log "Restore complete!"
               else LogError ("Restore failed: " +:+ execErr ext (restoreCmd cfg filePath))].
Proof.
  intros Hfin. destruct (Str.endsWith filePath ".gz") eqn:Hgz.
  - rewrite (restore_gz_finished cfg ext filePath w Hgz (Hfin eq_refl)).
    eexists. split; [reflexivity|]. cbn [files bucket trace].
    split; [reflexivity|]. split; [now apply stripSuffix_app|].
    split; [reflexivity|]. split; [|reflexivity].
    intros q Hq. rewrite elem_of_difference, elem_of_singleton. tauto.
  - rewrite (restore_plain cfg ext filePath w Hgz).
    eexists. split; [reflexivity|]. cbn [withTrace files bucket trace]. auto.
Qed.


(** ** Which errors leave the dispatcher *)










(** Line 222 gets through: a file argument is given, or the staging
    directory can be listed and each of its artifacts examined. *)
Lemma main_run (cfg : Config) (ext : Ext) (cmd file : option string) (w : World) :
  main cfg ext cmd file w =
  if (match file with Some p => Str.truthy p | None => false end
      || readdirOk ext && statsOk cfg ext)%bool
  then
    dispatch cfg ext cmd
      (match file with
       | Some p =>
           if Str.truthy p then Some p
           else getLatestBackup (BACKUP_DIR cfg) (readdir ext) (mtime ext)
       | None => getLatestBackup (BACKUP_DIR cfg) (readdir ext) (mtime ext)
       end) w
  else (Throw (fsErr ext), w).
Proof.
  unfold main, bind, getLatestBackupCall.
  destruct file as [p|]; [destruct (Str.truthy p); [reflexivity|]|];
    cbn [orb]; destruct (readdirOk ext); [|reflexivity| |reflexivity];
    cbn [negb andb]; now destruct (statsOk cfg ext).
Qed.



(* ================================================================== *)
(** * Closed examples *)

Example toISOString_sample : toISOString Sample.date = "2024-01-02T03:04:05.678Z".
Proof. reflexivity. Qed.

Example outFile_sample :
  outFileOf Sample.cfg false Sample.date = Sample.artifact
  /\ outFileOf Sample.cfg true Sample.date
     = "backups/shop-data-only-2024-01-02T03-04-05-678Z.sql.gz".
Proof. split; reflexivity. Qed.

Example path_join_samples :
  Path.join "./backups" "a.sql" = "backups/a.sql"
  /\ Path.join "/var/backups/" "a.sql" = "/var/backups/a.sql"
  /\ Path.join "/var/../x//y/" "a/../b" = "/x/y/b"
  /\ Path.basename "/var/backups/a.sql.gz" = "a.sql.gz".
Proof. repeat split; reflexivity. Qed.

Example stripSuffix_samples :
  Str.stripSuffix ".gz" "backups/a.sql.gz" = "backups/a.sql"
  /\ Str.stripSuffix ".gz" "a.gz.sql" = "a.gz.sql"
  /\ Str.endsWith "a.gz.sql" ".gz" = false.
Proof. repeat split; reflexivity. Qed.

Example resolve_discrete_sample :
  resolve Sample.URL Sample.envDiscrete = (Some Sample.cfg, []).
Proof. vm_compute. reflexivity. Qed.

(** Ties keep the order of the listing, as the stable sort does. *)
Example getLatestBackup_tie :
  getLatestBackup "./backups" ["a.sql"; "b.dump"; "notes.txt"; "d.sql.gz"]
    (fun p => if String.eqb p "backups/a.sql" then 1 else 5)
  = Some "backups/b.dump".
Proof. reflexivity. Qed.

Example pruneTargets_nine :
  pruneTargets Sample.nine
  = [{| Key := "k2"; LastModified := 2 |}; {| Key := "k1"; LastModified := 1 |}].
Proof. vm_compute. reflexivity. Qed.

(** ** Upload and retention on the samples *)

(** C1 at the staged artifact with an object store that accepts it. *)
Lemma upload_then_delete_witness :
  bucketSet Sample.cfg = true
  /\ Sample.artifact ∈ files Sample.staged
  /\ Sample.artifact ∉
       files (uploadToBackblaze Sample.cfg Sample.quiet Sample.artifact Sample.staged).2.
Proof.
  assert (Hin : Sample.artifact ∈ files Sample.staged)
    by (change (Sample.artifact ∈ ({[Sample.artifact]} : gset string));
        now apply elem_of_singleton).
  split; [reflexivity|]. split; [exact Hin|].
  destruct (upload_then_delete Sample.cfg Sample.quiet Sample.artifact
              Sample.staged eq_refl Hin) as (w' & rest & Hrun & _ & _ & Hiff & _).
  rewrite Hrun. apply Hiff. reflexivity.
Defined.

(** C2 at the bucket of nine objects: two are deleted, seven stay. *)
Lemma retention_keeps_seven_newest_witness :
  listOk Sample.quiet = true
  /\ (forall k, deleteOk Sample.quiet k = true)
  /\ size (bucket (retention Sample.quiet Sample.staged).2) = 7%nat.
Proof.
  split; [reflexivity|]. split; [intros k; reflexivity|].
  destruct (retention_keeps_seven_newest Sample.quiet Sample.staged eq_refl
              (fun k => eq_refl)) as (w' & Hrun & _ & _ & _ & _ & _ & _ & _ & Hsize & _).
  rewrite Hrun. apply Hsize. vm_compute. lia.
Defined.

Example retention_nine_trace :
  trace (retention Sample.quiet Sample.staged).2
  = [S3List; S3Delete "k2"; Log "Deleted old backup: k2";
     S3Delete "k1"; Log "Deleted old backup: k1"].
Proof. vm_compute. reflexivity. Qed.

(** C6 fails on the script: with nine objects the pass selects [k2] then
    [k1]; the deletion of [k2] fails and the deletion of [k1] is never
    attempted. *)
Lemma failed_deletion_skips_the_rest :
  pruneTargets (bucket Sample.staged)
    = [{| Key := "k2"; LastModified := 2 |}; {| Key := "k1"; LastModified := 1 |}]
  /\ deleteOk Sample.deleteFails "k2" = false
  /\ retention Sample.deleteFails Sample.staged
     = (Throw "connect ECONNREFUSED",
        {| files := files Sample.staged; bucket := bucket Sample.staged;
           trace := [S3List; S3Delete "k2"] |})
  /\ ~ In (S3Delete "k1") (trace (retention Sample.deleteFails Sample.staged).2).
Proof.
  split; [vm_compute; reflexivity|]. split; [reflexivity|].
  split; [vm_compute; reflexivity|].
  vm_compute. intros [H|[H|[]]]; discriminate.
Qed.

(** C6 as amended, at the upload of the staged artifact: the bucket then
    holds ten objects and the pass selects [k3], [k2] and [k1]; [k3] is
    deleted, the deletion of [k2] fails, [k1] is left alone and the error
    is reported. *)
Lemma retention_stops_at_first_failure_witness :
  bucketSet Sample.cfg = true
  /\ Sample.artifact ∈ files Sample.staged
  /\ putOk More.deleteK2Fails (Path.basename Sample.artifact) = true
  /\ listOk More.deleteK2Fails = true
  /\ pruneTargets (<[Path.basename Sample.artifact := putTime More.deleteK2Fails]>
                     (bucket Sample.staged))
       = [{| Key := "k3"; LastModified := 3 |}]
         ++ {| Key := "k2"; LastModified := 2 |}
            :: [{| Key := "k1"; LastModified := 1 |}]
  /\ deleteOk More.deleteK2Fails "k3" = true
  /\ deleteOk More.deleteK2Fails "k2" = false
  /\ (uploadToBackblaze Sample.cfg More.deleteK2Fails Sample.artifact Sample.staged).1
     = Ok tt
  /\ trace (uploadToBackblaze Sample.cfg More.deleteK2Fails Sample.artifact
              Sample.staged).2
     = [S3Put "shop-full-2024-01-02T03-04-05-678Z.dump";
        Log "Uploaded shop-full-2024-01-02T03-04-05-678Z.dump -> Backblaze B2";
        Unlink Sample.artifact;
        Log ("Local file deleted: " +:+ Sample.artifact);
        S3List;
        S3Delete "k3"; Log "Deleted old backup: k3";
        S3Delete "k2";
        LogError "Backblaze upload/cleanup failed: connect ECONNREFUSED"]
  /\ bucket (uploadToBackblaze Sample.cfg More.deleteK2Fails Sample.artifact
               Sample.staged).2 !! "k1" = Some 1.
Proof.
  assert (Hin : Sample.artifact ∈ files Sample.staged)
    by (change (Sample.artifact ∈ ({[Sample.artifact]} : gset string));
        now apply elem_of_singleton).
  assert (Hts : pruneTargets
                  (<[Path.basename Sample.artifact := putTime More.deleteK2Fails]>
                     (bucket Sample.staged))
                = [{| Key := "k3"; LastModified := 3 |}]
                  ++ {| Key := "k2"; LastModified := 2 |}
                     :: [{| Key := "k1"; LastModified := 1 |}])
    by (vm_compute; reflexivity).
  assert (Hpre : forall o, In o [{| Key := "k3"; LastModified := 3 |}] ->
                           deleteOk More.deleteK2Fails (Key o) = true)
    by (intros o [<-|[]]; reflexivity).
  split; [reflexivity|]. split; [exact Hin|]. split; [reflexivity|].
  split; [reflexivity|]. split; [exact Hts|]. split; [reflexivity|].
  split; [reflexivity|].
  destruct (retention_stops_at_first_failure Sample.cfg More.deleteK2Fails
              Sample.artifact Sample.staged
              [{| Key := "k3"; LastModified := 3 |}]
              [{| Key := "k1"; LastModified := 1 |}]
              {| Key := "k2"; LastModified := 2 |}
              eq_refl Hin eq_refl eq_refl Hts Hpre eq_refl)
    as (w2 & _ & Ht & _ & _ & _ & _ & Hpost & Hup).
  rewrite Hup. cbn [fst snd withTrace trace bucket].
  split; [reflexivity|]. split.
  - rewrite Ht. reflexivity.
  - exact (proj2 (Hpost {| Key := "k1"; LastModified := 1 |} (or_introl eq_refl))).
Defined.

(** ** Environment resolution on the samples *)

(** C4 fails on the script: the host is set both as a discrete variable and
    in the URL, and the descriptor takes the URL's. *)
Lemma url_overrides_discrete_host :
  Sample.envBoth !! "DB_HOST" = Some "localhost"
  /\ Sample.envBoth !! "DATABASE_URL" = Some "postgres://u:p@remote:6543/other"
  /\ resolve Sample.URL Sample.envBoth = (Some Sample.cfgRemote, [])
  /\ DB_HOST Sample.cfgRemote <> "localhost".
Proof.
  split; [vm_compute; reflexivity|]. split; [vm_compute; reflexivity|].
  split; [vm_compute; reflexivity|]. discriminate.
Qed.

(** C4 as amended, at the same environment. *)
Lemma resolve_fields_witness :
  (resolve Sample.URL Sample.envBoth).1 = Some Sample.cfgRemote
  /\ match databaseUrl Sample.URL Sample.envBoth with
     | Some u =>
         DB_HOST Sample.cfgRemote = hostname u
         /\ DB_PORT Sample.cfgRemote = (if Str.truthy (port u) then port u else "5432")
         /\ DB_USERNAME Sample.cfgRemote = username u
         /\ DB_PASSWORD Sample.cfgRemote = Some (password u)
         /\ DB_NAME Sample.cfgRemote = slice1 (pathname u)
     | None =>
         Sample.envBoth !! "DB_HOST" = Some (DB_HOST Sample.cfgRemote)
         /\ DB_PORT Sample.cfgRemote = default "5432" (Sample.envBoth !! "DB_PORT")
         /\ Sample.envBoth !! "DB_USERNAME" = Some (DB_USERNAME Sample.cfgRemote)
         /\ DB_PASSWORD Sample.cfgRemote = Sample.envBoth !! "DB_PASSWORD"
         /\ Sample.envBoth !! "DB_NAME" = Some (DB_NAME Sample.cfgRemote)
     end.
Proof.
  assert (H : (resolve Sample.URL Sample.envBoth).1 = Some Sample.cfgRemote)
    by (vm_compute; reflexivity).
  split; [exact H|]. exact (resolve_fields Sample.URL Sample.envBoth Sample.cfgRemote H).
Defined.

(** C5 fails on the script: the URL is not well formed, and resolution goes
    on with the discrete variables. *)
Lemma invalid_url_is_not_fatal :
  Sample.envBadUrl !! "DATABASE_URL" = Some "not a url"
  /\ Sample.URL "not a url" = None
  /\ resolve Sample.URL Sample.envBadUrl
     = (Some Sample.cfg, [LogError "Failed to parse DATABASE_URL:"]).
Proof. repeat split; vm_compute; reflexivity. Qed.

(** C5 as amended, at an environment without any variable. *)
Lemma resolve_fatal_iff_witness :
  (resolve Sample.URL ∅).1 = None
  /\ (program Sample.URL ∅ Sample.quiet (Some "backup") None Sample.empty).1 = ExitFailure.
Proof.
  destruct (resolve_fatal_iff Sample.URL ∅) as (Hiff & Hexit & _).
  assert (H : (resolve Sample.URL ∅).1 = None).
  { apply Hiff. vm_compute. left. reflexivity. }
  split; [exact H|].
  destruct (Hexit Sample.quiet (Some "backup") None Sample.empty H) as (logs & -> & _).
  reflexivity.
Defined.

(** ** The dispatcher on the samples *)



Example backup_full_sample :
  program Sample.URL Sample.envDiscrete Sample.quiet (Some "backup") None Sample.empty
  = (Completed,
     {| files := ∅;
        bucket := {["shop-full-2024-01-02T03-04-05-678Z.dump" := 10]};
        trace := [Log "Creating full backup...";
                  Exec (dumpToFileCmd Sample.cfg Sample.artifact);
                  Log ("Backup saved: " +:+ Sample.artifact);
                  S3Put "shop-full-2024-01-02T03-04-05-678Z.dump";
                  Log "Uploaded shop-full-2024-01-02T03-04-05-678Z.dump -> Backblaze B2";
                  Unlink Sample.artifact;
                  Log ("Local file deleted: " +:+ Sample.artifact);
                  S3List] |}).
Proof. vm_compute. reflexivity. Qed.

(** ** Naming and selection on the samples *)


(** ** Restore on the samples *)

(** C9 at a compressed artifact whose restore tool fails: the intermediate
    is unlinked all the same. *)
Lemma restore_frame_witness :
  (Str.endsWith "backups/a.sql.gz" ".gz" = true ->
   gunzipResult Sample.execFails "backups/a.sql.gz" = Finished)
  /\ restore Sample.cfg Sample.execFails "backups/a.sql.gz" Sample.compressed
     = (Ok tt,
        {| files := {["backups/a.sql.gz"]} ∖ {["backups/a.sql"]};
           bucket := ∅;
           trace := [Log "Restoring from backups/a.sql.gz...";
                     Gunzip "backups/a.sql.gz" "backups/a.sql";
                     Exec (restoreCmd Sample.cfg "backups/a.sql");
                     LogError "Restore failed: exit 1";
                     Unlink "backups/a.sql"] |}).
Proof.
  split; [intros _; reflexivity|].
  destruct (restore_frame Sample.cfg Sample.execFails "backups/a.sql.gz"
              Sample.compressed (fun _ => eq_refl))
    as (w' & -> & Hb & Hshape).
  cbn in Hshape. destruct Hshape as (_ & Hf & _ & Ht).
  destruct w' as [fs bk tr]. cbn in Hb, Hf, Ht. subst. reflexivity.
Defined.

Example restore_keeps_the_archive :
  "backups/a.sql.gz" ∈
    files (restore Sample.cfg Sample.execFails "backups/a.sql.gz" Sample.compressed).2.
Proof. vm_compute. reflexivity. Qed.



(* ================================================================== *)
(** * Further properties *)

(** ** Suffixes *)

Lemma lastChar_app (s t : string) :
  t <> EmptyString -> lastChar (s +:+ t) = lastChar t.
Proof.
  intros Ht. induction s as [|c s IH]; [reflexivity|].
  rewrite str_app_cons. cbn [lastChar]. rewrite IH.
  destruct (s +:+ t) eqn:Hst; [|reflexivity].
  destruct s; [rewrite str_app_nil_l in Hst; contradiction | discriminate].
Qed.

Lemma endsWith_lastChar (s suf : string) :
  suf <> EmptyString -> Str.endsWith s suf = true -> lastChar s = lastChar suf.
Proof.
  intros Hne [p ->]%endsWith_spec. now apply lastChar_app.
Qed.

Lemma app_inv_tail_str (s t u : string) : s +:+ u = t +:+ u -> s = t.
Proof.
  revert t. induction s as [|c s IH]; intros [|d t] H.
  - reflexivity.
  - apply (f_equal String.length) in H. rewrite str_app_nil_l in H.
    rewrite length_app_str in H. simpl in H. lia.
  - apply (f_equal String.length) in H. rewrite str_app_nil_l in H.
    rewrite length_app_str in H. simpl in H. lia.
  - rewrite !str_app_cons in H. injection H as -> H. f_equal. now apply IH.
Qed.

(** Stripping [.gz] from [stem.x.gz] leaves [stem.x]. *)
Lemma stripSuffix_gz_app (stem : string) :
  Str.stripSuffix ".gz" (stem +:+ ".gz") = stem.
Proof.
  apply (app_inv_tail_str _ _ ".gz"). apply stripSuffix_app.
  apply endsWith_spec. now exists stem.
Qed.

Lemma endsWith_app (s suf : string) : Str.endsWith (s +:+ suf) suf = true.
Proof. apply endsWith_spec. now exists s. Qed.

Lemma endsWith_app_l (q s suf : string) :
  Str.endsWith s suf = true -> Str.endsWith (q +:+ s) suf = true.
Proof.
  intros [p ->]%endsWith_spec. rewrite <- app_assoc_str. apply endsWith_app.
Qed.

(** Two suffixes with different last characters exclude each other. *)
Lemma endsWith_exclusive (s suf1 suf2 : string) :
  suf1 <> EmptyString -> suf2 <> EmptyString ->
  lastChar suf1 <> lastChar suf2 ->
  Str.endsWith s suf1 = true -> Str.endsWith s suf2 = false.
Proof.
  intros H1 H2 Hne E1. destruct (Str.endsWith s suf2) eqn:E2; [|reflexivity].
  apply endsWith_lastChar in E1, E2; try assumption. congruence.
Qed.

(** A compressed name that matches the convention is [stem.sql.gz] or
    [stem.dump.gz]. *)
Lemma isBackupName_gz_cases (p : string) :
  isBackupName p = true -> Str.endsWith p ".gz" = true ->
  exists stem, p = stem +:+ ".sql.gz" \/ p = stem +:+ ".dump.gz".
Proof.
  intros [stem [H|[H|[H|H]]]]%isBackupName_spec Hgz; eauto.
  - rewrite (endsWith_exclusive p ".sql" ".gz") in Hgz; try discriminate.
    subst p. apply endsWith_app.
  - rewrite (endsWith_exclusive p ".dump" ".gz") in Hgz; try discriminate.
    subst p. apply endsWith_app.
Qed.

(** X1.  The decompressed sibling of a compressed artifact matches the
    naming convention itself and is not compressed: if it is left in the
    staging directory, [getLatestBackup] counts it among the backups. *)
Theorem intermediate_is_a_backup_name (p : string) :
  isBackupName p = true -> Str.endsWith p ".gz" = true ->
  isBackupName (Str.stripSuffix ".gz" p) = true
  /\ Str.endsWith (Str.stripSuffix ".gz" p) ".gz" = false
  /\ Str.stripSuffix ".gz" p +:+ ".gz" = p
  /\ forall dir mt,
       getLatestBackup dir [Str.stripSuffix ".gz" p] mt
       = Some (Path.join dir (Str.stripSuffix ".gz" p)).
Proof.
  intros Hname Hgz.
  assert (Hn : isBackupName (Str.stripSuffix ".gz" p) = true
               /\ Str.endsWith (Str.stripSuffix ".gz" p) ".gz" = false).
  { destruct (isBackupName_gz_cases p Hname Hgz) as [stem [-> | ->]].
    - change (stem +:+ ".sql.gz") with (stem +:+ ".sql" +:+ ".gz").
      rewrite <- app_assoc_str, stripSuffix_gz_app. split.
      + apply isBackupName_spec. exists stem. auto.
      + apply (endsWith_exclusive _ ".sql" ".gz"); try discriminate. apply endsWith_app.
    - change (stem +:+ ".dump.gz") with (stem +:+ ".dump" +:+ ".gz").
      rewrite <- app_assoc_str, stripSuffix_gz_app. split.
      + apply isBackupName_spec. exists stem. auto.
      + apply (endsWith_exclusive _ ".dump" ".gz"); try discriminate. apply endsWith_app. }
  destruct Hn as [Hn1 Hn2]. split; [exact Hn1|]. split; [exact Hn2|].
  split; [now apply stripSuffix_app|].
  intros dir mt. unfold getLatestBackup, backupFiles.
  rewrite filter_cons, decide_True by exact Hn1. reflexivity.
Qed.

Lemma intermediate_is_a_backup_name_witness :
  isBackupName "shop-data-only.sql.gz" = true
  /\ Str.endsWith "shop-data-only.sql.gz" ".gz" = true
  /\ isBackupName (Str.stripSuffix ".gz" "shop-data-only.sql.gz") = true.
Proof.
  split; [reflexivity|]. split; [reflexivity|].
  exact (proj1 (intermediate_is_a_backup_name "shop-data-only.sql.gz" eq_refl eq_refl)).
Defined.

(** ** Which restore tool runs *)

(** The path handed to the restore tool is a custom dump exactly when the
    artifact is [stem.dump] or [stem.dump.gz]. *)
Lemma sql_path_is_dump (p : string) :
  Str.endsWith (if Str.endsWith p ".gz" then Str.stripSuffix ".gz" p else p) ".dump"
  = (Str.endsWith p ".dump" || Str.endsWith p ".dump.gz").
Proof.
  destruct (Str.endsWith p ".gz") eqn:Hgz.
  - rewrite (endsWith_exclusive p ".gz" ".dump") by (try discriminate; assumption).
    cbn [orb]. destruct (Str.endsWith p ".dump.gz") eqn:Hd.
    + apply endsWith_spec in Hd as [q ->].
      change (q +:+ ".dump.gz") with (q +:+ ".dump" +:+ ".gz").
      rewrite <- app_assoc_str, stripSuffix_gz_app. apply endsWith_app.
    + destruct (Str.endsWith (Str.stripSuffix ".gz" p) ".dump") eqn:Hs; [|reflexivity].
      apply endsWith_spec in Hs as [q Hq].
      pose proof (stripSuffix_app p ".gz" Hgz) as Hp. rewrite Hq, app_assoc_str in Hp.
      rewrite <- Hd. symmetry. apply endsWith_spec. exists q. now rewrite <- Hp.
  - destruct (Str.endsWith p ".dump.gz") eqn:Hd; [|now rewrite orb_false_r].
    apply endsWith_spec in Hd as [q ->].
    change (q +:+ ".dump.gz") with (q +:+ ".dump" +:+ ".gz") in Hgz.
    rewrite <- app_assoc_str, endsWith_app in Hgz. discriminate.
Qed.

(** X2.  The restore tool is chosen from the name of the artifact: the
    custom-format tool for [stem.dump] and [stem.dump.gz], the SQL interpreter
    for every other path; either is given the decompressed path, quoted, as
    its last argument. *)
Theorem restore_tool_by_extension (cfg : Config) (p : string) :
  let sql := if Str.endsWith p ".gz" then Str.stripSuffix ".gz" p else p in
  restoreCmd cfg sql =
    (if (Str.endsWith p ".dump" || Str.endsWith p ".dump.gz")%bool then
       "pg_restore -h " +:+ DB_HOST cfg +:+ " -p " +:+ DB_PORT cfg +:+ " -U "
       +:+ DB_USERNAME cfg +:+ "       --no-owner --no-acl --clean --if-exists -d "
       +:+ DB_NAME cfg +:+ " " +:+ Str.dquote +:+ sql +:+ Str.dquote
     else
       "psql -h " +:+ DB_HOST cfg +:+ " -p " +:+ DB_PORT cfg +:+ " -U "
       +:+ DB_USERNAME cfg +:+ "       -d " +:+ DB_NAME cfg +:+ " -f "
       +:+ Str.dquote +:+ sql +:+ Str.dquote)
  /\ (forall ext w r w',
        restore cfg ext p w = (r, w') ->
        forall c, In (Exec c) (skipn (length (trace w)) (trace w')) ->
                  c = restoreCmd cfg sql).
Proof.
  cbn zeta. split.
  - unfold restoreCmd. now rewrite sql_path_is_dump.
  - intros ext w r w' Hrun c Hin. destruct (Str.endsWith p ".gz") eqn:Hgz.
    + destruct (gunzipResult ext p) as [|partial err|partial err] eqn:Hg.
      * rewrite (restore_gz_finished cfg ext p w Hgz Hg) in Hrun.
        injection Hrun as <- <-. cbn [trace] in Hin.
        rewrite drop_app_length in Hin. cbn in Hin.
        destruct (execOk ext _); decompose [or] Hin; try discriminate; try contradiction;
          congruence.
      * rewrite (restore_gz_sink_error cfg ext p w partial err Hgz Hg) in Hrun.
        injection Hrun as <- <-. cbn [trace] in Hin.
        rewrite drop_app_length in Hin. cbn in Hin.
        decompose [or] Hin; try discriminate; contradiction.
      * rewrite (restore_gz_stage_error cfg ext p w partial err Hgz Hg) in Hrun.
        injection Hrun as <- <-. cbn [trace] in Hin.
        rewrite drop_app_length in Hin. cbn in Hin.
        decompose [or] Hin; try discriminate; contradiction.
    + rewrite (restore_plain cfg ext p w Hgz) in Hrun.
      injection Hrun as <- <-. cbn [withTrace trace] in Hin.
      rewrite drop_app_length in Hin. cbn in Hin.
      destruct (execOk ext _); decompose [or] Hin; try discriminate; try contradiction;
        congruence.
Qed.

(** ** The latest artifact, with ties *)

Section FirstNewest.
Context {A : Type}.
Variable t : A -> Z.

(** The head of the stable sort is the first of the newest elements. *)
Lemma sortBy_head_first (l : list A) (x : A) (rest : list A) :
  sortBy (fun a b => t b - t a) l = x :: rest ->
  exists pre post,
    l = pre ++ x :: post
    /\ (forall y, In y pre -> t y < t x)
    /\ (forall y, In y post -> t y <= t x).
Proof.
  revert x rest. induction l as [|a l IH]; intros x rest; cbn [sortBy]; [discriminate|].
  destruct (sortBy (fun a b => t b - t a) l) as [|y s] eqn:Hs; cbn [insertSorted].
  - intros [= <- <-].
    assert (l = []) as ->.
    { apply (f_equal (@length A)) in Hs. rewrite (sortBy_length t) in Hs.
      now destruct l. }
    exists [], []. repeat split; intros ? [].
  - destruct (IH y s eq_refl) as (pre & post & -> & Hpre & Hpost).
    destruct (Z.leb_spec (t y - t a) 0) as [Hle|Hgt]; intros [= <- <-].
    + exists [], (pre ++ y :: post). repeat split; [intros ? []|].
      intros z [Hz|[<-|Hz]]%in_app_iff; [specialize (Hpre z Hz) | | specialize (Hpost z Hz)]; lia.
    + exists (a :: pre), post. repeat split; [|assumption].
      intros z [<-|Hz]; [lia | now apply Hpre].
Qed.

End FirstNewest.

(** The answer of [getLatestBackup], located in the filtered listing. *)
Lemma latest_decompose (dir : string) (rd : list string) (mt : string -> Z) (p : string) :
  getLatestBackup dir rd mt = Some p ->
  exists pre f post,
    filter (fun f => isBackupName f = true) rd = pre ++ f :: post
    /\ p = Path.join dir f
    /\ (forall g, In g pre -> mt (Path.join dir g) < mt (Path.join dir f))
    /\ (forall g, In g post -> mt (Path.join dir g) <= mt (Path.join dir f)).
Proof.
  unfold getLatestBackup, backupFiles.
  set (mk := fun f => {| name := f; time := mt (Path.join dir f) |}).
  set (L := filter (fun f => isBackupName f = true) rd).
  destruct (sortBy _ (map mk L)) as [|x rest] eqn:Hs; [discriminate|].
  intros [= <-]. apply sortBy_head_first in Hs as (pre' & post' & Hmap & Hpre & Hpost).
  apply map_eq_app in Hmap as (pre & tl & HL & <- & Htl).
  apply map_eq_cons in Htl as (f & post & -> & <- & <-).
  exists pre, f, post. split; [exact HL|]. split; [reflexivity|]. split.
  - intros g Hg. apply (Hpre (mk g)). now apply in_map.
  - intros g Hg. apply (Hpost (mk g)). now apply in_map.
Qed.

Lemma latest_none (dir : string) (rd : list string) (mt : string -> Z) :
  getLatestBackup dir rd mt = None <-> filter (fun f => isBackupName f = true) rd = [].
Proof.
  unfold getLatestBackup, backupFiles.
  set (mk := fun f => {| name := f; time := mt (Path.join dir f) |}).
  set (L := filter (fun f => isBackupName f = true) rd).
  split.
  - destruct (sortBy _ (map mk L)) as [|x rest] eqn:Hs; [|discriminate].
    intros _. apply (f_equal (@length BackupFile)) in Hs.
    rewrite (sortBy_length time), length_map in Hs. now destruct L.
  - now intros ->.
Qed.

(** X3.  Among the entries that match the naming convention,
    [getLatestBackup] answers with the first one, in the order of the
    directory listing, that no other entry is newer than: every matching
    entry before it is strictly older, every one after it at most as
    recent.  It answers with an absent value exactly when no entry
    matches. *)
Theorem getLatestBackup_first_newest (dir : string) (rd : list string) (mt : string -> Z) :
  match getLatestBackup dir rd mt with
  | Some p =>
      exists pre f post,
        filter (fun f => isBackupName f = true) rd = pre ++ f :: post
        /\ p = Path.join dir f
        /\ (forall g, In g pre -> mt (Path.join dir g) < mt (Path.join dir f))
        /\ (forall g, In g post -> mt (Path.join dir g) <= mt (Path.join dir f))
  | None => filter (fun f => isBackupName f = true) rd = []
  end.
Proof.
  destruct (getLatestBackup dir rd mt) as [p|] eqn:Hget.
  - now apply latest_decompose.
  - now apply latest_none in Hget.
Qed.

(** ** Artifacts of this script, listed and restored *)

Lemma artifactName_stem (cfg : Config) (dataOnly : bool) (d : Date) :
  artifactName cfg dataOnly d =
  (DB_NAME cfg +:+ "-" +:+ suffixOf dataOnly +:+ "-" +:+ timestampOf d)
  +:+ (if dataOnly then ".sql.gz" else ".dump").
Proof. unfold artifactName. rewrite !app_assoc_str. now destruct dataOnly. Qed.

Lemma artifactName_isBackupName (cfg : Config) (dataOnly : bool) (d : Date) :
  isBackupName (artifactName cfg dataOnly d) = true.
Proof.
  apply isBackupName_spec. eexists. rewrite artifactName_stem.
  destruct dataOnly; eauto.
Qed.

(** X4.  The artifacts this script writes are the ones it finds again: the
    name of an artifact, in either mode, matches the pattern of
    [getLatestBackup], and in a staging directory where every other matching
    entry is older, [getLatestBackup] answers with the path the backup wrote
    to. *)
Theorem own_artifact_is_latest (cfg : Config) (dataOnly : bool) (d : Date)
    (rd : list string) (mt : string -> Z) :
  In (artifactName cfg dataOnly d) rd ->
  (forall g, In g rd -> isBackupName g = true -> g <> artifactName cfg dataOnly d ->
             mt (Path.join (BACKUP_DIR cfg) g) < mt (outFileOf cfg dataOnly d)) ->
  isBackupName (artifactName cfg dataOnly d) = true
  /\ getLatestBackup (BACKUP_DIR cfg) rd mt = Some (outFileOf cfg dataOnly d).
Proof.
  intros Hin Hold. pose proof (artifactName_isBackupName cfg dataOnly d) as Hname.
  split; [exact Hname|].
  assert (Hfilt : forall g, In g (filter (fun f => isBackupName f = true) rd) <->
                            In g rd /\ isBackupName g = true).
  { intros g. rewrite <- !list_elem_of_In, list_elem_of_filter. tauto. }
  destruct (getLatestBackup (BACKUP_DIR cfg) rd mt) as [p|] eqn:Hget.
  - apply latest_decompose in Hget as (pre & f & post & HL & -> & Hpre & Hpost).
    destruct (String.eqb_spec f (artifactName cfg dataOnly d)) as [->|Hne]; [reflexivity|].
    exfalso.
    assert (Hf : In f rd /\ isBackupName f = true).
    { apply Hfilt. rewrite HL. apply in_app_iff. right. now left. }
    pose proof (Hold f (proj1 Hf) (proj2 Hf) Hne) as Hlt. unfold outFileOf in Hlt.
    assert (Hn : In (artifactName cfg dataOnly d) (pre ++ f :: post))
      by (rewrite <- HL; apply Hfilt; auto).
    apply in_app_iff in Hn as [Hn|[Hn|Hn]].
    + specialize (Hpre _ Hn). lia.
    + congruence.
    + specialize (Hpost _ Hn). lia.
  - exfalso. apply latest_none in Hget.
    assert (Hn : In (artifactName cfg dataOnly d) (filter (fun f => isBackupName f = true) rd))
      by (apply Hfilt; auto).
    rewrite Hget in Hn. destruct Hn.
Qed.

Lemma own_artifact_is_latest_witness :
  In (artifactName Sample.cfg false Sample.date)
     ["notes.txt"; "shop-full-2024-01-02T03-04-05-678Z.dump"]
  /\ getLatestBackup "./backups"
       ["notes.txt"; "shop-full-2024-01-02T03-04-05-678Z.dump"] (fun _ => 5)
     = Some Sample.artifact.
Proof.
  assert (Hin : In (artifactName Sample.cfg false Sample.date)
                  ["notes.txt"; "shop-full-2024-01-02T03-04-05-678Z.dump"])
    by (right; left; reflexivity).
  split; [exact Hin|].
  refine (proj2 (own_artifact_is_latest Sample.cfg false Sample.date _ (fun _ => 5) Hin _)).
  intros g [<-|[<-|[]]] Hm Hne; [discriminate Hm | now contradiction Hne].
Defined.

(** The path of an artifact ends as its name does. *)
Lemma outFileOf_endsWith (cfg : Config) (dataOnly : bool) (d : Date) (suf : string) :
  Str.mem "/" (DB_NAME cfg) = false ->
  Str.endsWith (artifactName cfg dataOnly d) suf = true ->
  Str.endsWith (outFileOf cfg dataOnly d) suf = true.
Proof.
  intros HD Hsuf. destruct (artifactName_plain cfg dataOnly d HD) as (Hp & H0 & H1 & H2).
  unfold outFileOf, Path.join.
  apply String.eqb_neq in H0 as H0'. rewrite H0'.
  assert (Hend : forall x, Str.endsWith (x +:+ artifactName cfg dataOnly d) "/" = false)
    by (intros x; now apply endsWith_slash_plain).
  destruct (String.eqb_spec (BACKUP_DIR cfg) EmptyString) as [Hd|Hd].
  - destruct (normalize_last_segment (artifactName cfg dataOnly d)
                (artifactName cfg dataOnly d) [] H0 H1 H2 Hp
                (splitSlash_plain _ Hp) (Hend EmptyString)) as [-> | [q ->]];
      [assumption | now apply endsWith_app_l, endsWith_app_l].
  - destruct (normalize_last_segment (BACKUP_DIR cfg +:+ "/" +:+ artifactName cfg dataOnly d)
                (artifactName cfg dataOnly d) (Str.splitSlash (BACKUP_DIR cfg))
                H0 H1 H2 Hp) as [-> | [q ->]];
      [ now rewrite splitSlash_app, (splitSlash_plain _ Hp)
      | rewrite <- app_assoc_str; apply Hend
      | assumption
      | now apply endsWith_app_l, endsWith_app_l ].
Qed.

(** X5.  Restoring what a backup wrote, for a database name without a slash.
    A full artifact is not decompressed: the custom-format tool reads it in
    place and no local file is created or removed.  A data-only artifact is
    decompressed beside itself, the SQL interpreter reads the decompressed
    file, and that file is removed at the end while the artifact stays. *)
Theorem restore_of_own_artifacts (cfg : Config) (ext : Ext) (d : Date) (w : World) :
  Str.mem "/" (DB_NAME cfg) = false ->
  gunzipResult ext (outFileOf cfg true d) = Finished ->
  let full := outFileOf cfg false d in
  let data := outFileOf cfg true d in
  let sql := Str.stripSuffix ".gz" data in
  restore cfg ext full w =
    (Ok tt, withTrace w (trace w ++
       [Log ("Restoring from " +:+ full +:+ "...");
        Exec (restoreCmd cfg full);
        if execOk ext (restoreCmd cfg full) then Log "Restore complete!"
        else LogError ("Restore failed: " +:+ execErr ext (restoreCmd cfg full))]))
  /\ String.prefix "pg_restore " (restoreCmd cfg full) = true
  /\ restore cfg ext data w =
       (Ok tt, {| files := files w ∖ {[sql]}; bucket := bucket w;
                  trace := trace w ++
                    [Log ("Restoring from " +:+ data +:+ "...");
                     Gunzip data sql;
                     Exec (restoreCmd cfg sql);
                     if execOk ext (restoreCmd cfg sql) then Log "Restore complete!"
                     else LogError ("Restore failed: " +:+ execErr ext (restoreCmd cfg sql));
                     Unlink sql] |})
  /\ String.prefix "psql " (restoreCmd cfg sql) = true
  /\ sql +:+ ".gz" = data
  /\ (data ∈ files w -> data ∈ files w ∖ {[sql]}).
Proof.
  intros HD Hfin full data sql.
  assert (Hfull : Str.endsWith full ".dump" = true).
  { apply outFileOf_endsWith; [assumption|]. rewrite artifactName_stem. apply endsWith_app. }
  assert (Hdata : Str.endsWith data ".sql.gz" = true).
  { apply outFileOf_endsWith; [assumption|]. rewrite artifactName_stem. apply endsWith_app. }
  assert (Hgz : Str.endsWith data ".gz" = true).
  { apply endsWith_spec in Hdata as [q Hq]. rewrite Hq.
    change (q +:+ ".sql.gz") with (q +:+ ".sql" +:+ ".gz").
    rewrite <- app_assoc_str. apply endsWith_app. }
  assert (Hsql : Str.endsWith sql ".sql" = true).
  { apply endsWith_spec in Hdata as [q Hq]. unfold sql. rewrite Hq.
    change (q +:+ ".sql.gz") with (q +:+ ".sql" +:+ ".gz").
    rewrite <- app_assoc_str, stripSuffix_gz_app. apply endsWith_app. }
  split.
  { apply restore_plain. apply (endsWith_exclusive full ".dump" ".gz"); try discriminate.
    exact Hfull. }
  split. { unfold restoreCmd. rewrite Hfull. reflexivity. }
  split. { exact (restore_gz_finished cfg ext data w Hgz Hfin). }
  split.
  { unfold restoreCmd.
    rewrite (endsWith_exclusive sql ".sql" ".dump") by (try discriminate; exact Hsql).
    reflexivity. }
  split; [now apply stripSuffix_app|].
  intros Hin. apply elem_of_difference. split; [exact Hin|].
  intros Heq%elem_of_singleton.
  pose proof (stripSuffix_gz_neq data Hgz) as Hne. apply String.eqb_neq in Hne.
  apply Hne. symmetry. exact Heq.
Qed.

Lemma restore_of_own_artifacts_witness :
  Str.mem "/" (DB_NAME Sample.cfg) = false
  /\ gunzipResult Sample.quiet (outFileOf Sample.cfg true Sample.date) = Finished
  /\ String.prefix "psql "
       (restoreCmd Sample.cfg (Str.stripSuffix ".gz" (outFileOf Sample.cfg true Sample.date)))
     = true.
Proof.
  split; [reflexivity|]. split; [reflexivity|].
  destruct (restore_of_own_artifacts Sample.cfg Sample.quiet Sample.date Sample.empty
              eq_refl eq_refl) as (_ & _ & _ & H & _).
  exact H.
Defined.

(** ** Backups, step by step *)

Lemma backup_full_run (cfg : Config) (ext : Ext) (w : World) :
  let outFile := outFileOf cfg false (now ext) in
  backup cfg ext false w =
  if execOk ext (dumpToFileCmd cfg outFile) then
    uploadToBackblaze cfg ext outFile
      {| files := {[outFile]} ∪ files w; bucket := bucket w;
         trace := trace w ++ [Log "Creating full backup...";
                              Exec (dumpToFileCmd cfg outFile);
                              Log ("Backup saved: " +:+ outFile)] |}
  else
    (Throw (execErr ext (dumpToFileCmd cfg outFile)),
     withTrace w (trace w ++ [Log "Creating full backup...";
                              Exec (dumpToFileCmd cfg outFile)])).
Proof.
  cbn zeta. unfold backup. unfold bind at 1. unfold emit at 1.
  unfold bind at 1. unfold runCommand, bind at 1, emit at 1.
  destruct (execOk ext _).
  - unfold ret at 1. unfold bind at 1. unfold createFile at 1.
    unfold bind at 1. unfold emit at 1. cbn [files bucket trace suffixOf].
    now rewrite <- !app_assoc.
  - unfold throw, withTrace. cbn [files bucket trace suffixOf].
    now rewrite <- !app_assoc.
Qed.

Lemma backup_data_run (cfg : Config) (ext : Ext) (w : World) :
  let outFile := outFileOf cfg true (now ext) in
  backup cfg ext true w =
  match sinkResult ext outFile with
  | Finished =>
      uploadToBackblaze cfg ext outFile
        {| files := {[outFile]} ∪ files w; bucket := bucket w;
           trace := trace w ++ [Log "Creating data-only backup...";
                                Exec (dumpCmd cfg true);
                                GzipDump (dumpCmd cfg true) outFile;
                                Log ("Backup saved: " +:+ outFile)] |}
  | SinkError partial err | StageError partial err =>
      (Die err,
       {| files := if partial then {[outFile]} ∪ files w else files w;
          bucket := bucket w;
          trace := trace w ++ [Log "Creating data-only backup...";
                               Exec (dumpCmd cfg true);
                               GzipDump (dumpCmd cfg true) outFile] |})
  end.
Proof.
  cbn zeta. unfold backup. unfold bind at 1. unfold emit at 1.
  unfold bind at 1. unfold emit at 1. unfold bind at 1. unfold emit at 1.
  cbn [files bucket trace suffixOf].
  destruct (sinkResult ext _) as [|partial err|partial err].
  - unfold bind at 1. unfold createFile at 1. unfold bind at 1. unfold emit at 1.
    cbn [files bucket trace]. now rewrite <- !app_assoc.
  - destruct partial; unfold bind, createFile, ret, die; cbn [files bucket trace];
      now rewrite <- !app_assoc.
  - destruct partial; unfold bind, createFile, ret, die; cbn [files bucket trace];
      now rewrite <- !app_assoc.
Qed.

Lemma upload_disabled (cfg : Config) (ext : Ext) (p : string) (w : World) :
  bucketSet cfg = false -> uploadToBackblaze cfg ext p w = (Ok tt, w).
Proof. intros Hb. unfold uploadToBackblaze. now rewrite Hb. Qed.

Lemma filter_exec_none (l : list Event) :
  Forall (fun e => isExec e = false) l -> filter (fun e => isExec e = true) l = [].
Proof.
  induction 1 as [|e l He _ IH]; [reflexivity|].
  rewrite filter_cons, decide_False by congruence. exact IH.
Qed.

Lemma remote_not_exec (l : list Event) :
  Forall (fun e => isRemote e = true) l -> Forall (fun e => isExec e = false) l.
Proof. intros H. eapply Forall_impl; [exact H|]. now intros []. Qed.

(** An upload spawns no child process, and of the local files it can only
    remove its own. *)
Lemma upload_present (cfg : Config) (ext : Ext) (p : string) (v : World) :
  p ∈ files v ->
  exists w' evs,
    uploadToBackblaze cfg ext p v = (Ok tt, w')
    /\ trace w' = trace v ++ evs
    /\ Forall (fun e => isExec e = false) evs
    /\ (files w' = files v \/ (files w' = files v ∖ {[p]} /\ In (Unlink p) evs)).
Proof.
  intros Hin. destruct (bucketSet cfg) eqn:Hb.
  - destruct (putOk ext (Path.basename p)) eqn:Hput.
    + rewrite (upload_put_ok cfg ext p v Hb Hput Hin). cbn zeta.
      match goal with |- context [retention ext ?x] =>
        destruct (retention_frame ext x) as (r & w2 & evs & Hrun & Hf & Ht & Hall) end.
      rewrite Hrun. cbn [trace files] in Ht, Hf. apply remote_not_exec in Hall.
      destruct r as [[]|err|err]; [| |exfalso; exact (retention_no_die _ _ _ _ Hrun)].
      * eexists w2, _. split; [reflexivity|]. split.
        { rewrite Ht, <- app_assoc. reflexivity. }
        split; [apply Forall_app; split; [now repeat constructor | assumption]|].
        right. split; [exact Hf|]. cbn. auto.
      * eexists _, _. split; [reflexivity|]. cbn [withTrace trace files]. split.
        { rewrite Ht, <- !app_assoc. reflexivity. }
        split.
        { apply Forall_app. split; [now repeat constructor|].
          apply Forall_app. split; [assumption | now repeat constructor]. }
        right. split; [exact Hf|]. cbn. auto.
    + rewrite (upload_put_fails cfg ext p v Hb Hput Hin).
      eexists _, _. split; [reflexivity|]. split; [reflexivity|].
      split; [now repeat constructor | now left].
  - rewrite (upload_disabled cfg ext p v Hb).
    exists v, []. split; [reflexivity|]. split; [now rewrite List.app_nil_r|].
    split; [constructor | now left].
Qed.

(** X6.  Without a bucket (the name unset or empty) a backup never calls the
    object store and keeps its artifact: after a full backup whose dump
    succeeds, or a data-only backup whose pipeline finishes, the artifact is
    on disk, the bucket is as before and the run has only created, dumped
    and reported. *)
Theorem backup_without_bucket (cfg : Config) (ext : Ext) (w : World) :
  bucketSet cfg = false ->
  (execOk ext (dumpToFileCmd cfg (outFileOf cfg false (now ext))) = true ->
   backup cfg ext false w =
     (Ok tt,
      {| files := {[outFileOf cfg false (now ext)]} ∪ files w; bucket := bucket w;
         trace := trace w ++
           [Log "Creating full backup...";
            Exec (dumpToFileCmd cfg (outFileOf cfg false (now ext)));
            Log ("Backup saved: " +:+ outFileOf cfg false (now ext))] |}))
  /\ (sinkResult ext (outFileOf cfg true (now ext)) = Finished ->
      backup cfg ext true w =
        (Ok tt,
         {| files := {[outFileOf cfg true (now ext)]} ∪ files w; bucket := bucket w;
            trace := trace w ++
              [Log "Creating data-only backup...";
               Exec (dumpCmd cfg true);
               GzipDump (dumpCmd cfg true) (outFileOf cfg true (now ext));
               Log ("Backup saved: " +:+ outFileOf cfg true (now ext))] |})).
Proof.
  intros Hb. split.
  - intros Hok. rewrite backup_full_run. cbn zeta. rewrite Hok.
    now apply upload_disabled.
  - intros Hfin. rewrite backup_data_run. cbn zeta. rewrite Hfin.
    now apply upload_disabled.
Qed.

Lemma backup_without_bucket_witness :
  bucketSet More.local = false
  /\ execOk Sample.quiet (dumpToFileCmd More.local (outFileOf More.local false (now Sample.quiet)))
     = true
  /\ Sample.artifact ∈ files (backup More.local Sample.quiet false Sample.empty).2.
Proof.
  split; [reflexivity|]. split; [reflexivity|].
  rewrite (proj1 (backup_without_bucket More.local Sample.quiet Sample.empty eq_refl) eq_refl).
  cbn [snd files]. apply elem_of_union_l. now apply elem_of_singleton.
Defined.

(** X7.  A full backup whose dump command fails does nothing more: no
    artifact is recorded, nothing is uploaded, listed or deleted, no file is
    removed, and the error of the command is what [backup] ends with. *)
Theorem failed_full_dump_stops (cfg : Config) (ext : Ext) (w : World) :
  execOk ext (dumpToFileCmd cfg (outFileOf cfg false (now ext))) = false ->
  backup cfg ext false w =
    (Throw (execErr ext (dumpToFileCmd cfg (outFileOf cfg false (now ext)))),
     {| files := files w; bucket := bucket w;
        trace := trace w ++
          [Log "Creating full backup...";
           Exec (dumpToFileCmd cfg (outFileOf cfg false (now ext)))] |}).
Proof. intros Hfail. rewrite backup_full_run. cbn zeta. now rewrite Hfail. Qed.

Lemma failed_full_dump_stops_witness :
  execOk More.dumpFails
    (dumpToFileCmd Sample.cfg (outFileOf Sample.cfg false (now More.dumpFails))) = false
  /\ bucket (backup Sample.cfg More.dumpFails false Sample.staged).2 = Sample.nine.
Proof.
  split; [reflexivity|].
  now rewrite (failed_full_dump_stops Sample.cfg More.dumpFails Sample.staged eq_refl).
Defined.

(** X8.  A full backup with a bucket, for a database name without a slash:
    when the dump and the upload succeed, the object is stored under the
    name of the artifact, without a directory, and the local artifact is
    gone at the end; the upload comes after the dump and before the local
    removal. *)
Theorem backup_uploads_under_artifact_name (cfg : Config) (ext : Ext) (w : World) :
  bucketSet cfg = true ->
  Str.mem "/" (DB_NAME cfg) = false ->
  execOk ext (dumpToFileCmd cfg (outFileOf cfg false (now ext))) = true ->
  putOk ext (artifactName cfg false (now ext)) = true ->
  exists w' rest,
    backup cfg ext false w = (Ok tt, w')
    /\ trace w' = trace w ++
         [Log "Creating full backup...";
          Exec (dumpToFileCmd cfg (outFileOf cfg false (now ext)));
          Log ("Backup saved: " +:+ outFileOf cfg false (now ext));
          S3Put (artifactName cfg false (now ext));
          Log ("Uploaded " +:+ artifactName cfg false (now ext) +:+ " -> Backblaze B2");
          Unlink (outFileOf cfg false (now ext));
          Log ("Local file deleted: " +:+ outFileOf cfg false (now ext))] ++ rest
    /\ Forall (fun e => isRemote e = true) rest
    /\ files w' = files w ∖ {[outFileOf cfg false (now ext)]}.
Proof.
  intros Hb HD Hok Hput.
  destruct (artifactName_plain cfg false (now ext) HD) as (Hp & H0 & H1 & H2).
  assert (Hkey : Path.basename (outFileOf cfg false (now ext)) = artifactName cfg false (now ext))
    by (now apply basename_join).
  rewrite backup_full_run. cbn zeta. rewrite Hok.
  rewrite upload_put_ok; [| assumption | now rewrite Hkey
                          | apply elem_of_union_l; now apply elem_of_singleton].
  cbn zeta. rewrite Hkey. cbn [files bucket trace].
  match goal with |- context [retention ext ?v] =>
    destruct (retention_frame ext v) as (r & w2 & evs & Hrun & Hf & Ht & Hall) end.
  rewrite Hrun. cbn [files trace] in Hf, Ht.
  assert (Hfiles : ({[outFileOf cfg false (now ext)]} ∪ files w)
                     ∖ {[outFileOf cfg false (now ext)]}
                   = files w ∖ {[outFileOf cfg false (now ext)]}).
  { apply set_eq. intros q. rewrite !elem_of_difference, elem_of_union. tauto. }
  destruct r as [[]|err|err]; [| |exfalso; exact (retention_no_die _ _ _ _ Hrun)].
  - exists w2, evs. split; [reflexivity|].
    split; [rewrite Ht; now rewrite <- !app_assoc|].
    split; [assumption | now rewrite Hf].
  - eexists _, (evs ++ [LogError ("Backblaze upload/cleanup failed: " +:+ err)]).
    split; [reflexivity|]. cbn [withTrace files trace].
    split; [rewrite Ht; now rewrite <- !app_assoc|].
    split; [apply Forall_app; split; [assumption | now repeat constructor] | now rewrite Hf].
Qed.

Lemma backup_uploads_under_artifact_name_witness :
  bucketSet Sample.cfg = true
  /\ Str.mem "/" (DB_NAME Sample.cfg) = false
  /\ execOk Sample.quiet (dumpToFileCmd Sample.cfg (outFileOf Sample.cfg false (now Sample.quiet)))
     = true
  /\ putOk Sample.quiet (artifactName Sample.cfg false (now Sample.quiet)) = true
  /\ files (backup Sample.cfg Sample.quiet false Sample.staged).2
     = files Sample.staged ∖ {[outFileOf Sample.cfg false (now Sample.quiet)]}.
Proof.
  repeat (split; [reflexivity|]).
  destruct (backup_uploads_under_artifact_name Sample.cfg Sample.quiet Sample.staged
              eq_refl eq_refl eq_refl eq_refl) as (w' & rest & -> & _ & _ & Hf).
  exact Hf.
Defined.

(** X9.  A data-only backup does not look at the exit status of the dump
    process: when the dump command fails but the pipeline to the artifact
    finishes, the backup is reported as saved and, with a bucket, whatever
    was written is uploaded and the local copy removed, as after a dump that
    succeeded. *)
Theorem data_only_backup_ignores_dump_failure (cfg : Config) (ext : Ext) (w : World) :
  execOk ext (dumpCmd cfg true) = false ->
  sinkResult ext (outFileOf cfg true (now ext)) = Finished ->
  let outFile := outFileOf cfg true (now ext) in
  exists w' rest,
    backup cfg ext true w = (Ok tt, w')
    /\ trace w' = trace w ++
         [Log "Creating data-only backup...";
          Exec (dumpCmd cfg true);
          GzipDump (dumpCmd cfg true) outFile;
          Log ("Backup saved: " +:+ outFile)] ++ rest
    /\ (bucketSet cfg = true -> putOk ext (Path.basename outFile) = true ->
        exists rest',
          rest = S3Put (Path.basename outFile)
                 :: Log ("Uploaded " +:+ Path.basename outFile +:+ " -> Backblaze B2")
                 :: Unlink outFile :: rest'
          /\ outFile ∉ files w').
Proof.
  intros _ Hfin outFile. rewrite backup_data_run. cbn zeta. rewrite Hfin. fold outFile.
  set (w1 := {| files := {[outFile]} ∪ files w; bucket := bucket w; trace := _ |}).
  destruct (bucketSet cfg) eqn:Hb.
  - destruct (putOk ext (Path.basename outFile)) eqn:Hput.
    + assert (Hin : outFile ∈ files w1)
        by (apply elem_of_union_l; now apply elem_of_singleton).
      rewrite (upload_put_ok cfg ext outFile w1 Hb Hput Hin). cbn zeta.
      match goal with |- context [retention ext ?v] =>
        destruct (retention_frame ext v) as (r & w2 & evs & Hrun & Hf & Ht & Hall) end.
      rewrite Hrun. cbn [files trace w1] in Hf, Ht.
      assert (Hgone : outFile ∉ files w2).
      { rewrite Hf. intros [_ Hn]%elem_of_difference. apply Hn. now apply elem_of_singleton. }
      destruct r as [[]|err|err]; [| |exfalso; exact (retention_no_die _ _ _ _ Hrun)].
      * eexists w2, _. split; [reflexivity|]. split.
        { rewrite Ht. rewrite <- !app_assoc. cbn [app]. reflexivity. }
        intros _ _. eexists. split; [reflexivity | exact Hgone].
      * eexists _, _. split; [reflexivity|]. cbn [withTrace files trace]. split.
        { rewrite Ht. rewrite <- !app_assoc. cbn [app]. reflexivity. }
        intros _ _. eexists. split; [reflexivity | exact Hgone].
    + assert (Hin : outFile ∈ files w1)
        by (apply elem_of_union_l; now apply elem_of_singleton).
      rewrite (upload_put_fails cfg ext outFile w1 Hb Hput Hin).
      eexists _, _. split; [reflexivity|]. cbn [withTrace files trace w1]. split.
      { rewrite <- !app_assoc. cbn [app]. reflexivity. }
      intros _ [=].
  - rewrite (upload_disabled cfg ext outFile w1 Hb).
    exists w1, []. split; [reflexivity|]. split; [now rewrite app_nil_r|].
    intros [=].
Qed.

Lemma data_only_backup_ignores_dump_failure_witness :
  execOk More.dumpFails (dumpCmd Sample.cfg true) = false
  /\ sinkResult More.dumpFails (outFileOf Sample.cfg true (now More.dumpFails)) = Finished
  /\ (backup Sample.cfg More.dumpFails true Sample.empty).1 = Ok tt.
Proof.
  split; [reflexivity|]. split; [reflexivity|].
  destruct (data_only_backup_ignores_dump_failure Sample.cfg More.dumpFails Sample.empty
              eq_refl eq_refl) as (w' & rest & -> & _).
  reflexivity.
Defined.

(** ** The artifact a backup writes *)




(** ** What an upload does to the bucket *)

Lemma retention_ok_run (ext : Ext) (v : World) :
  listOk ext = true -> (forall k, deleteOk ext k = true) ->
  retention ext v =
  (Ok tt, {| files := files v;
             bucket := deleteAll (pruneTargets (bucket v)) (bucket v);
             trace := trace v ++ S3List :: flat_map deleted (pruneTargets (bucket v)) |}).
Proof.
  intros Hl Hd. rewrite retention_run by assumption.
  rewrite forEach_delete_ok by (intros; apply Hd).
  cbn [withTrace files bucket trace]. now rewrite <- app_assoc.
Qed.

(** X10.  With a bucket configured, the bucket is listed or pruned only
    after the object was stored and the local file removed, in this order.
    A refused upload is reported and leaves the bucket and the files as
    they were.  When the local file is missing the body stream cannot be
    opened: the process ends on that error before any call to the object
    store, with nothing stored, removed or reported. *)
Theorem pruning_needs_upload_and_unlink (cfg : Config) (ext : Ext) (p : string) (w : World) :
  bucketSet cfg = true ->
  let key := Path.basename p in
  exists r w' evs,
    uploadToBackblaze cfg ext p w = (r, w')
    /\ trace w' = trace w ++ evs
    /\ (forall e, In e evs -> e = S3List \/ (exists k, e = S3Delete k) ->
          putOk ext key = true /\ p ∈ files w
          /\ exists rest,
               evs = S3Put key :: Log ("Uploaded " +:+ key +:+ " -> Backblaze B2")
                     :: Unlink p :: Log ("Local file deleted: " +:+ p) :: rest
               /\ In e rest)
    /\ (p ∈ files w -> r = Ok tt)
    /\ (p ∈ files w -> putOk ext key = false ->
        bucket w' = bucket w /\ files w' = files w
        /\ evs = [S3Put key;
                  LogError ("Backblaze upload/cleanup failed: " +:+ s3Err ext)])
    /\ (p ∉ files w ->
        r = Die ("ENOENT: no such file or directory, open " +:+ p)
        /\ w' = w /\ evs = []).
Proof.
  intros Hb key. destruct (decide (p ∈ files w)) as [Hin|Hnin].
  - destruct (putOk ext key) eqn:Hput.
    + rewrite (upload_put_ok cfg ext p w Hb Hput Hin). cbn zeta. fold key.
      match goal with |- context [retention ext ?v] =>
        destruct (retention_frame ext v) as (r & w2 & evs & Hrun & Hf & Ht & Hall) end.
      rewrite Hrun. cbn [trace] in Ht.
      assert (Hkind : forall e l,
                In e (S3Put key :: Log ("Uploaded " +:+ key +:+ " -> Backblaze B2")
                      :: Unlink p :: Log ("Local file deleted: " +:+ p) :: l) ->
                e = S3List \/ (exists k, e = S3Delete k) -> In e l).
      { intros e l He Hk. cbn in He. decompose [or] He; try assumption;
          subst e; destruct Hk as [Hk|[k Hk]]; discriminate Hk. }
      destruct r as [[]|err|err]; [| |exfalso; exact (retention_no_die _ _ _ _ Hrun)].
      * exists (Ok tt), w2, ([S3Put key; Log ("Uploaded " +:+ key +:+ " -> Backblaze B2");
                              Unlink p; Log ("Local file deleted: " +:+ p)] ++ evs).
        split; [reflexivity|]. split; [rewrite Ht; now rewrite <- app_assoc|].
        split.
        { intros e He Hk. split; [reflexivity|]. split; [assumption|].
          exists evs. split; [reflexivity | exact (Hkind e evs He Hk)]. }
        split; [reflexivity|]. split; [discriminate | contradiction].
      * exists (Ok tt),
          (withTrace w2 (trace w2 ++
             [LogError ("Backblaze upload/cleanup failed: " +:+ err)])),
          ([S3Put key; Log ("Uploaded " +:+ key +:+ " -> Backblaze B2");
            Unlink p; Log ("Local file deleted: " +:+ p)]
           ++ evs ++ [LogError ("Backblaze upload/cleanup failed: " +:+ err)]).
        split; [reflexivity|]. cbn [withTrace trace].
        split; [rewrite Ht; now rewrite <- !app_assoc|].
        split.
        { intros e He Hk. split; [reflexivity|]. split; [assumption|].
          eexists. split; [reflexivity | exact (Hkind e _ He Hk)]. }
        split; [reflexivity|]. split; [discriminate | contradiction].
    + rewrite (upload_put_fails cfg ext p w Hb Hput Hin). fold key.
      eexists _, _, _. split; [reflexivity|]. cbn [withTrace files bucket trace].
      split; [reflexivity|]. split.
      { intros e He [->|[k ->]]; cbn in He; decompose [or] He;
          try discriminate; contradiction. }
      split; [reflexivity|]. split; [auto | contradiction].
  - rewrite (upload_missing cfg ext p w Hb Hnin).
    exists (Die ("ENOENT: no such file or directory, open " +:+ p)), w, [].
    split; [reflexivity|]. split; [now rewrite List.app_nil_r|].
    split; [intros e []|]. split; [contradiction|]. split; [contradiction | auto].
Qed.

Lemma pruning_needs_upload_and_unlink_witness :
  bucketSet Sample.cfg = true
  /\ (Sample.artifact ∉ files Sample.empty)
  /\ uploadToBackblaze Sample.cfg Sample.quiet Sample.artifact Sample.empty
     = (Die ("ENOENT: no such file or directory, open " +:+ Sample.artifact),
        Sample.empty).
Proof.
  assert (Hnin : Sample.artifact ∉ files Sample.empty) by apply not_elem_of_empty.
  split; [reflexivity|]. split; [exact Hnin|].
  destruct (pruning_needs_upload_and_unlink Sample.cfg Sample.quiet Sample.artifact
              Sample.empty eq_refl) as (r & w' & evs & -> & _ & _ & _ & _ & Hmiss).
  destruct (Hmiss Hnin) as (-> & -> & _). reflexivity.
Defined.

(** X11.  After an upload in which every step succeeds, the bucket holds at
    most seven objects (seven, or all of them when there were fewer), each
    of them an object it held after the upload; and the object just
    uploaded is among them whenever every other object is strictly older
    than it. *)
Theorem successful_upload_bounds_bucket (cfg : Config) (ext : Ext) (p : string) (w : World) :
  bucketSet cfg = true ->
  putOk ext (Path.basename p) = true -> p ∈ files w ->
  listOk ext = true -> (forall k, deleteOk ext k = true) ->
  let key := Path.basename p in
  let stored := <[key := putTime ext]> (bucket w) in
  exists w',
    uploadToBackblaze cfg ext p w = (Ok tt, w')
    /\ size (bucket w') = Nat.min 7 (size stored)
    /\ (forall k t, bucket w' !! k = Some t -> stored !! k = Some t)
    /\ ((forall k t, bucket w !! k = Some t -> k <> key -> t < putTime ext) ->
        bucket w' !! key = Some (putTime ext)).
Proof.
  intros Hb Hput Hin Hl Hd key stored.
  rewrite (upload_put_ok cfg ext p w Hb Hput Hin). cbn zeta. fold key. fold stored.
  rewrite retention_ok_run by assumption. cbn [files bucket trace].
  set (ts := pruneTargets stored).
  assert (Hsize : (size (deleteAll ts stored) + length ts = size stored)%nat).
  { apply deleteAll_size; [apply pruneTargets_NoDup|].
    intros o Ho. rewrite (pruneTargets_In _ _ Ho). eauto. }
  pose proof (pruneTargets_length stored) as Hlen. fold ts in Hlen.
  eexists. split; [reflexivity|]. cbn [bucket].
  split; [lia|]. split.
  { intros k t. rewrite deleteAll_lookup. now destruct (decide (k ∈ map Key ts)). }
  intros Hnewest. rewrite deleteAll_lookup.
  destruct (decide (key ∈ map Key ts)) as [Hk|Hk]; [|apply lookup_insert_eq].
  exfalso.
  apply list_elem_of_In, in_map_iff in Hk as (o' & Hkey & Ho').
  pose proof (pruneTargets_In _ _ Ho') as Hlook.
  rewrite Hkey in Hlook. unfold stored in Hlook. rewrite lookup_insert_eq in Hlook.
  injection Hlook as Htime.
  assert (Hne : deleteAll ts stored <> ∅).
  { intros Hempty. apply (f_equal size) in Hempty. rewrite map_size_empty in Hempty.
    destruct ts; [destruct Ho' | cbn [length] in *; lia]. }
  apply map_choose in Hne as (k0 & t0 & Hk0).
  rewrite deleteAll_lookup in Hk0.
  destruct (decide (k0 ∈ map Key ts)) as [|Hk0n]; [discriminate|].
  assert (Hk0key : k0 <> key).
  { intros ->. apply Hk0n. apply list_elem_of_In, in_map_iff. eauto. }
  pose proof Hk0 as Hold. unfold stored in Hold.
  rewrite lookup_insert_ne in Hold by congruence.
  specialize (Hnewest k0 t0 Hold Hk0key).
  pose proof (pruneTargets_oldest stored {| Key := k0; LastModified := t0 |} o') as Hle.
  cbn [Key LastModified] in Hle. fold ts in Hle.
  specialize (Hle (proj2 (objectsOf_In stored {| Key := k0; LastModified := t0 |}) Hk0)).
  rewrite <- list_elem_of_In in Hle. specialize (Hle Hk0n Ho'). lia.
Qed.

Lemma successful_upload_bounds_bucket_witness :
  bucketSet Sample.cfg = true
  /\ putOk Sample.quiet (Path.basename Sample.artifact) = true
  /\ Sample.artifact ∈ files Sample.staged
  /\ listOk Sample.quiet = true
  /\ (forall k, deleteOk Sample.quiet k = true)
  /\ size (bucket (uploadToBackblaze Sample.cfg Sample.quiet Sample.artifact
                     Sample.staged).2) = 7%nat.
Proof.
  assert (Hin : Sample.artifact ∈ files Sample.staged)
    by (change (Sample.artifact ∈ ({[Sample.artifact]} : gset string));
        now apply elem_of_singleton).
  split; [reflexivity|]. split; [reflexivity|]. split; [exact Hin|].
  split; [reflexivity|]. split; [intros k; reflexivity|].
  destruct (successful_upload_bounds_bucket Sample.cfg Sample.quiet Sample.artifact
              Sample.staged eq_refl eq_refl Hin eq_refl (fun k => eq_refl))
    as (w' & -> & Hsize & _).
  cbn [snd]. rewrite Hsize. vm_compute. reflexivity.
Defined.

(** ** Child processes of a run *)

(** Resolution only writes to the console. *)
Lemma resolve_logs_quiet (URL : string -> option Url) (env : gmap string string) :
  Forall (fun e => isExec e = false) (resolve URL env).2.
Proof.
  unfold resolve, parseDatabaseUrl.
  destruct (env !! "DATABASE_URL") as [s|];
    [destruct (Str.truthy s); [destruct (URL s)|]|];
    match goal with |- context [validate ?e] => destruct (validate e) end;
    cbn [snd app]; now repeat constructor.
Qed.

(** X12.  The scheduled entry point ([node backup.js backup]) with a valid
    configuration spawns at most one child process, the full dump writing
    to the artifact, and it spawns it exactly when the staging directory
    exists or can be created, can be listed, and each of its artifacts can
    be examined; otherwise the run ends with the error of the file system
    before any process is spawned, files and bucket being as before.  With
    an invalid configuration it spawns none, leaves files and bucket alone
    and exits with a failure. *)
Theorem scheduled_run_spawns_one_dump (URL : string -> option Url)
    (env : gmap string string) (ext : Ext) (w : World) :
  exists t w' evs,
    scheduledRun URL env ext w = (t, w')
    /\ trace w' = trace w ++ evs
    /\ match (resolve URL env).1 with
       | Some cfg =>
           let outFile :=
             Path.join (BACKUP_DIR cfg)
               (DB_NAME cfg +:+ "-full-" +:+ timestampOf (now ext) +:+ ".dump") in
           let dump :=
             ("pg_dump -h " +:+ DB_HOST cfg +:+ " -p " +:+ DB_PORT cfg +:+ " -U "
              +:+ DB_USERNAME cfg
              +:+ "        --no-owner --no-acl --clean --if-exists -Fc "
              +:+ DB_NAME cfg)
             +:+ " -f " +:+ Str.dquote +:+ outFile +:+ Str.dquote in
           t <> ExitFailure
           /\ filter (fun e => isExec e = true) evs
              = (if ((dirExists ext || mkdirOk ext) && readdirOk ext
                     && statsOk cfg ext)%bool
                 then [Exec dump] else [])
           /\ ((dirExists ext || mkdirOk ext) && readdirOk ext
               && statsOk cfg ext = false ->
               t = Crashed (fsErr ext)
               /\ files w' = files w /\ bucket w' = bucket w)
       | None =>
           filter (fun e => isExec e = true) evs = []
           /\ t = ExitFailure /\ files w' = files w /\ bucket w' = bucket w
       end.
Proof.
  unfold scheduledRun, program.
  pose proof (resolve_logs_quiet URL env) as Hlogs.
  destruct (resolve URL env) as [[cfg|] logs]; cbn [fst snd] in *.
  - cbn zeta.
    change (Path.join (BACKUP_DIR cfg)
              (DB_NAME cfg +:+ "-full-" +:+ timestampOf (now ext) +:+ ".dump"))
      with (outFileOf cfg false (now ext)).
    match goal with |- context [Exec ?c] =>
      change c with (dumpToFileCmd cfg (outFileOf cfg false (now ext))) end.
    set (w0 := {| files := files w; bucket := bucket w; trace := trace w ++ logs |}).
    assert (Hmain : forall v, files v = files w -> bucket v = bucket w ->
      forall pre, trace v = trace w ++ pre ->
      filter (fun e => isExec e = true) pre = [] ->
      exists t w' evs,
        match main cfg ext (Some "backup") None v with
        | (Ok _, w') => (Completed, w')
        | (Throw err, w') | (Die err, w') => (Crashed err, w')
        end = (t, w')
        /\ trace w' = trace w ++ evs
        /\ t <> ExitFailure
        /\ filter (fun e => isExec e = true) evs
           = (if (readdirOk ext && statsOk cfg ext)%bool
              then [Exec (dumpToFileCmd cfg (outFileOf cfg false (now ext)))] else [])
        /\ (readdirOk ext && statsOk cfg ext = false ->
            t = Crashed (fsErr ext) /\ files w' = files w /\ bucket w' = bucket w)).
    { intros v Hfv Hbv pre Htv Hpre. rewrite main_run. cbn [orb].
      destruct (readdirOk ext && statsOk cfg ext)%bool.
      - change (dispatch cfg ext (Some "backup") ?f v) with (backup cfg ext false v).
        rewrite backup_full_run. cbn zeta.
        destruct (execOk ext _).
        + match goal with |- context [uploadToBackblaze cfg ext ?p ?x] =>
            destruct (upload_present cfg ext p x) as (w' & evs & -> & Ht & Hall & _) end.
          { cbn [files]. apply elem_of_union_l. now apply elem_of_singleton. }
          cbn [trace] in Ht.
          eexists Completed, w', _. split; [reflexivity|]. split.
          { rewrite Ht, Htv, <- !app_assoc. reflexivity. }
          split; [discriminate|]. split; [|discriminate].
          rewrite !filter_app, Hpre, (filter_exec_none evs Hall). reflexivity.
        + eexists (Crashed _), _, _. split; [reflexivity|]. cbn [withTrace trace]. split.
          { rewrite Htv, <- !app_assoc. reflexivity. }
          split; [discriminate|]. split; [|discriminate].
          rewrite !filter_app, Hpre. reflexivity.
      - eexists (Crashed _), v, pre. split; [reflexivity|]. split; [exact Htv|].
        split; [discriminate|]. split; [exact Hpre|]. auto. }
    unfold bind at 1, ensureBackupDir.
    destruct (dirExists ext); cbn [orb andb].
    + unfold ret at 1.
      destruct (Hmain w0 eq_refl eq_refl logs eq_refl (filter_exec_none logs Hlogs))
        as (t & w' & evs & Hrun & Ht & Hne & Hf & Hfail).
      exists t, w', evs. split; [exact Hrun|]. split; [exact Ht|]. auto.
    + unfold bind at 1. unfold emit at 1. cbn [files bucket trace].
      destruct (mkdirOk ext); cbn [andb].
      * unfold ret at 1.
        match goal with |- context [main cfg ext _ _ ?x] =>
          destruct (Hmain x eq_refl eq_refl (logs ++ [Mkdir (BACKUP_DIR cfg)]))
            as (t & w' & evs & Hrun & Ht & Hne & Hf & Hfail) end.
        { unfold w0. cbn [trace]. now rewrite <- app_assoc. }
        { rewrite filter_app, (filter_exec_none logs Hlogs). reflexivity. }
        exists t, w', evs. split; [exact Hrun|]. split; [exact Ht|]. auto.
      * unfold die. eexists (Crashed _), _, _. split; [reflexivity|].
        unfold w0. cbn [files bucket trace]. split; [now rewrite <- app_assoc|].
        split; [discriminate|]. split; [|auto].
        rewrite filter_app, (filter_exec_none logs Hlogs). reflexivity.
  - eexists ExitFailure, _, logs. split; [reflexivity|]. cbn [files bucket trace].
    split; [reflexivity|]. split; [now apply filter_exec_none | auto].
Qed.

(** X12 at a staging directory whose artifact cannot be examined: the
    configuration is valid, no process is spawned and the run ends with the
    error of the file system. *)
Lemma scheduled_run_spawns_one_dump_witness :
  (resolve Sample.URL Sample.envDiscrete).1 = Some Sample.cfg
  /\ statsOk Sample.cfg More.statFails = false
  /\ (scheduledRun Sample.URL Sample.envDiscrete More.statFails Sample.empty).1
     = Crashed (fsErr More.statFails)
  /\ filter (fun e => isExec e = true)
       (trace (scheduledRun Sample.URL Sample.envDiscrete More.statFails
                 Sample.empty).2) = [].
Proof.
  assert (Hres : (resolve Sample.URL Sample.envDiscrete).1 = Some Sample.cfg)
    by (vm_compute; reflexivity).
  split; [exact Hres|]. split; [vm_compute; reflexivity|].
  destruct (scheduled_run_spawns_one_dump Sample.URL Sample.envDiscrete More.statFails
              Sample.empty) as (t & w' & evs & Hrun & Ht & Hcfg).
  rewrite Hres in Hcfg. cbn zeta in Hcfg. destruct Hcfg as (_ & Hexec & Hfail).
  rewrite Hrun. cbn [fst snd]. split.
  - apply Hfail. vm_compute. reflexivity.
  - rewrite Ht. cbn [Sample.empty trace app]. rewrite Hexec.
    vm_compute. reflexivity.
Defined.

Example scheduled_run_sample :
  filter (fun e => isExec e = true)
    (trace (scheduledRun Sample.URL Sample.envDiscrete Sample.quiet Sample.empty).2)
  = [Exec (dumpToFileCmd Sample.cfg Sample.artifact)].
Proof. vm_compute. reflexivity. Qed.

Example scheduled_run_creates_the_directory :
  scheduledRun Sample.URL Sample.envDiscrete More.noDir Sample.empty
  = (Crashed "EACCES: permission denied",
     withTrace Sample.empty [Mkdir "./backups"])
  /\ trace (scheduledRun Sample.URL Sample.envDiscrete More.freshDir Sample.empty).2
     = [Mkdir "./backups";
        Log "Creating full backup...";
        Exec (dumpToFileCmd Sample.cfg Sample.artifact);
        Log ("Backup saved: " +:+ Sample.artifact);
        S3Put "shop-full-2024-01-02T03-04-05-678Z.dump";
        Log "Uploaded shop-full-2024-01-02T03-04-05-678Z.dump -> Backblaze B2";
        Unlink Sample.artifact;
        Log ("Local file deleted: " +:+ Sample.artifact);
        S3List].
Proof. split; vm_compute; reflexivity. Qed.

(** ** The dispatcher *)

(** X13.  Any selector other than the four commands, or none at all, only
    prints the five lines of usage and ends normally (no process is
    spawned, no file and no object is touched), provided that line 222 gets
    through: a file argument that is not empty is given, or the staging
    directory can be listed and each of its artifacts examined.  Otherwise
    the run ends with the error of the file system and prints nothing. *)
Theorem unknown_command_prints_usage (cfg : Config) (ext : Ext)
    (cmd file : option string) (w : World) :
  (forall c, cmd = Some c ->
     c <> "backup" /\ c <> "backup-data" /\ c <> "restore" /\ c <> "restore-and-dev") ->
  main cfg ext cmd file w =
    if (match file with Some p => Str.truthy p | None => false end
        || readdirOk ext && statsOk cfg ext)%bool
    then
      (Ok tt,
       withTrace w (trace w ++
         [Log "Commands:";
          Log "  node backup.js backup          # Full backup (schema+data)";
          Log "  node backup.js backup-data     # Data-only backup";
          Log "  node backup.js restore [file]  # Restore backup";
          Log "  node backup.js restore-and-dev [file] # Restore then start dev"]))
    else (Throw (fsErr ext), w).
Proof.
  intros Hcmd.
  assert (Husage : usage w = (Ok tt, withTrace w (trace w ++
       [Log "Commands:";
        Log "  node backup.js backup          # Full backup (schema+data)";
        Log "  node backup.js backup-data     # Data-only backup";
        Log "  node backup.js restore [file]  # Restore backup";
        Log "  node backup.js restore-and-dev [file] # Restore then start dev"]))).
  { unfold usage, bind, emit, withTrace. cbn [files bucket trace].
    now rewrite <- !app_assoc. }
  rewrite main_run.
  match goal with |- (if ?b then _ else _) = _ => destruct b end; [|reflexivity].
  unfold dispatch. destruct cmd as [c|]; [|exact Husage].
  destruct (Hcmd c eq_refl) as (H1 & H2 & H3 & H4).
  apply String.eqb_neq in H1, H2, H3, H4. now rewrite H1, H2, H3, H4.
Qed.

Lemma unknown_command_prints_usage_witness :
  (forall c, Some "help" = Some c ->
     c <> "backup" /\ c <> "backup-data" /\ c <> "restore" /\ c <> "restore-and-dev")
  /\ (main Sample.cfg Sample.quiet (Some "help") None Sample.staged).1 = Ok tt
  /\ main Sample.cfg More.statFails (Some "help") None Sample.staged
     = (Throw "EACCES: permission denied", Sample.staged).
Proof.
  assert (H : forall c, Some "help" = Some c ->
     c <> "backup" /\ c <> "backup-data" /\ c <> "restore" /\ c <> "restore-and-dev")
    by (intros c [= <-]; repeat split; discriminate).
  split; [exact H|]. split.
  - now rewrite (unknown_command_prints_usage Sample.cfg Sample.quiet (Some "help") None
                   Sample.staged H).
  - now rewrite (unknown_command_prints_usage Sample.cfg More.statFails (Some "help") None
                   Sample.staged H).
Defined.

(** X14.  Which file a restore works on.  A file argument that is not empty
    is restored as given, whatever the staging directory holds.  Without
    one (or with an empty one) the staging directory is listed: when the
    listing has no entry that matches the naming convention, [restore] and
    [restore-and-dev] only report that no backup was found (nothing is
    decompressed, no restore tool and no dev process is started); and when
    the directory cannot be listed, or one of its artifacts cannot be
    examined, both end with the error of the file system, having done
    nothing. *)
Theorem restore_file_selection (cfg : Config) (ext : Ext) (w : World) :
  (forall p, Str.truthy p = true ->
     main cfg ext (Some "restore") (Some p) w = restore cfg ext p w
     /\ main cfg ext (Some "restore-and-dev") (Some p) w = restoreAndDev cfg ext p w)
  /\ (readdirOk ext = true ->
      (forall f, In f (readdir ext) -> isBackupName f = false) ->
      forall file, file = None \/ file = Some EmptyString ->
        main cfg ext (Some "restore") file w
          = (Ok tt, withTrace w (trace w ++ [LogError "No backup file found!"]))
        /\ main cfg ext (Some "restore-and-dev") file w
          = (Ok tt, withTrace w (trace w ++ [LogError "No backup file found!"])))
  /\ (readdirOk ext = false \/ statsOk cfg ext = false ->
      forall file, file = None \/ file = Some EmptyString ->
        main cfg ext (Some "restore") file w = (Throw (fsErr ext), w)
        /\ main cfg ext (Some "restore-and-dev") file w = (Throw (fsErr ext), w)).
Proof.
  split; [|split].
  - intros p Hp. rewrite !main_file by assumption. split; reflexivity.
  - intros Hrd Hnone file Hfile.
    assert (Hlatest : getLatestBackup (BACKUP_DIR cfg) (readdir ext) (mtime ext) = None).
    { apply latest_none.
      induction (readdir ext) as [|f l IH]; [reflexivity|].
      rewrite filter_cons, decide_False.
      - apply IH. intros g Hg. apply Hnone. now right.
      - rewrite (Hnone f) by now left. discriminate. }
    rewrite !main_run, Hrd, (statsOk_no_match cfg ext Hnone), Hlatest.
    destruct Hfile as [-> | ->]; split; reflexivity.
  - intros Hfail file Hfile. rewrite !main_run.
    assert (Hb : (readdirOk ext && statsOk cfg ext)%bool = false).
    { destruct Hfail as [-> | ->]; [reflexivity | apply andb_false_r]. }
    rewrite Hb. destruct Hfile as [-> | ->]; split; reflexivity.
Qed.

Lemma restore_file_selection_witness :
  readdirOk Sample.quiet = true
  /\ (forall f, In f (readdir Sample.quiet) -> isBackupName f = false)
  /\ main Sample.cfg Sample.quiet (Some "restore-and-dev") None Sample.empty
     = (Ok tt, withTrace Sample.empty [LogError "No backup file found!"]).
Proof.
  assert (H : forall f, In f (readdir Sample.quiet) -> isBackupName f = false)
    by (intros f []).
  split; [reflexivity|]. split; [exact H|].
  exact (proj2 (proj1 (proj2 (restore_file_selection Sample.cfg Sample.quiet Sample.empty))
                  eq_refl H None (or_introl eq_refl))).
Defined.



(** ** More on the resolution of the environment *)

(** X16.  Parsing the connection URL only ever writes the five [DB_]
    variables: every other variable of the environment is left as it was,
    so the bucket and the staging directory of the configuration come from
    the environment whatever the URL holds, the staging directory being
    [./backups] when [BACKUP_DIR] is unset or empty. *)
Theorem url_parsing_frame (URL : string -> option Url) (env : gmap string string) :
  (forall k, k <> "DB_HOST" -> k <> "DB_PORT" -> k <> "DB_USERNAME" ->
             k <> "DB_PASSWORD" -> k <> "DB_NAME" ->
             (parseDatabaseUrl URL env).1 !! k = env !! k)
  /\ (forall cfg, (resolve URL env).1 = Some cfg ->
        B2_BUCKET cfg = env !! "B2_BUCKET"
        /\ bucketSet cfg = truthyVar env "B2_BUCKET"
        /\ BACKUP_DIR cfg = (if truthyVar env "BACKUP_DIR"
                             then default "./backups" (env !! "BACKUP_DIR")
                             else "./backups")).
Proof.
  assert (Hframe : forall k, k <> "DB_HOST" -> k <> "DB_PORT" -> k <> "DB_USERNAME" ->
             k <> "DB_PASSWORD" -> k <> "DB_NAME" ->
             (parseDatabaseUrl URL env).1 !! k = env !! k).
  { intros k H1 H2 H3 H4 H5. unfold parseDatabaseUrl.
    destruct (env !! "DATABASE_URL") as [s|]; [|reflexivity].
    destruct (Str.truthy s); [|reflexivity].
    destruct (URL s); [|reflexivity]. cbn [fst].
    now rewrite !lookup_insert_ne by congruence. }
  split; [exact Hframe|].
  intros cfg Hres. rewrite resolve_validate in Hres.
  apply validate_some in Hres as (_ & _ & _ & _ & _ & Hb & Hd & _).
  unfold bucketOf, backupDirOf in *.
  rewrite Hframe in Hb, Hd by discriminate.
  split; [exact Hb|]. split.
  - unfold bucketSet, truthyVar. now rewrite Hb.
  - rewrite Hd. unfold truthyVar. destruct (env !! "BACKUP_DIR") as [d|]; [|reflexivity].
    now destruct (Str.truthy d).
Qed.

Lemma url_parsing_frame_witness :
  (resolve Sample.URL Sample.envBoth).1 = Some Sample.cfgRemote
  /\ B2_BUCKET Sample.cfgRemote = Sample.envBoth !! "B2_BUCKET".
Proof.
  assert (H : (resolve Sample.URL Sample.envBoth).1 = Some Sample.cfgRemote)
    by (vm_compute; reflexivity).
  split; [exact H|].
  exact (proj1 (proj2 (url_parsing_frame Sample.URL Sample.envBoth) Sample.cfgRemote H)).
Defined.

(** ** The earlier resolution *)

Lemma earlier_orElse_truthy (a : option string) (b s : string) :
  a = Some s -> Str.truthy s = true -> Earlier.orElse a b = s.
Proof. intros -> H. unfold Earlier.orElse. now rewrite H. Qed.

Lemma earlier_orElse_falsy (a : option string) (b : string) :
  Earlier.truthyOpt a = false -> Earlier.orElse a b = b.
Proof.
  unfold Earlier.truthyOpt, Earlier.orElse. destruct a as [s|]; [|reflexivity].
  now intros ->.
Qed.

(** X17.  In the earlier variant of the script a discrete variable that is
    set and not empty always wins over the URL; the URL, when set and well
    formed, only fills the fields the discrete variables leave unset or
    empty, with port 5432 when neither gives one; and without a URL the
    fields are the discrete variables as they are, the port staying
    undefined when [DB_PORT] is unset. *)
Theorem earlier_discrete_first (URL : string -> option Url) (env : gmap string string)
    (v : Earlier.Vars) :
  (Earlier.resolve URL env).1 = Some v ->
  match databaseUrl URL env with
  | Some u =>
      Earlier.DB_HOST v = Some (Earlier.orElse (env !! "DB_HOST") (hostname u))
      /\ Earlier.DB_PORT v
         = Some (Earlier.orElse (env !! "DB_PORT")
                   (if Str.truthy (port u) then port u else "5432"))
      /\ Earlier.DB_USERNAME v = Some (Earlier.orElse (env !! "DB_USERNAME") (username u))
      /\ Earlier.DB_PASSWORD v = Some (Earlier.orElse (env !! "DB_PASSWORD") (password u))
      /\ Earlier.DB_NAME v
         = Some (Earlier.orElse (env !! "DB_NAME")
                   (Earlier.stripLeadingSlash (pathname u)))
      /\ (forall h, env !! "DB_HOST" = Some h -> Str.truthy h = true ->
                    Earlier.DB_HOST v = Some h)
      /\ (forall n, env !! "DB_NAME" = Some n -> Str.truthy n = true ->
                    Earlier.DB_NAME v = Some n)
      /\ (truthyVar env "DB_HOST" = false -> Earlier.DB_HOST v = Some (hostname u))
  | None => v = Earlier.destructure env
  end.
Proof.
  unfold Earlier.resolve, databaseUrl.
  assert (Hval : forall x, (Earlier.validate x).1 = Some v -> v = x).
  { intros x. unfold Earlier.validate.
    destruct (Earlier.truthyOpt _ && Earlier.truthyOpt _)%bool; cbn [fst]; congruence. }
  destruct (env !! "DATABASE_URL") as [s|]; [|apply Hval].
  destruct (Str.truthy s); [|apply Hval].
  destruct (URL s) as [u|]; [|discriminate].
  intros ->%Hval. cbn [Earlier.fillFrom Earlier.destructure Earlier.DB_HOST
    Earlier.DB_PORT Earlier.DB_USERNAME Earlier.DB_PASSWORD Earlier.DB_NAME].
  repeat (split; [reflexivity|]).
  split; [intros h Hh Ht; f_equal; now apply earlier_orElse_truthy|].
  split; [intros n Hn Ht; f_equal; now apply earlier_orElse_truthy|].
  intros Hf. f_equal. apply earlier_orElse_falsy. exact Hf.
Qed.

Lemma earlier_discrete_first_witness :
  (Earlier.resolve Sample.URL Sample.envBoth).1
    = Some {| Earlier.DB_HOST := Some "localhost"; Earlier.DB_PORT := Some "5433";
              Earlier.DB_USERNAME := Some "app"; Earlier.DB_PASSWORD := Some "secret";
              Earlier.DB_NAME := Some "shop" |}
  /\ Earlier.DB_HOST
       {| Earlier.DB_HOST := Some "localhost"; Earlier.DB_PORT := Some "5433";
          Earlier.DB_USERNAME := Some "app"; Earlier.DB_PASSWORD := Some "secret";
          Earlier.DB_NAME := Some "shop" |} = Some "localhost".
Proof.
  assert (H : (Earlier.resolve Sample.URL Sample.envBoth).1
    = Some {| Earlier.DB_HOST := Some "localhost"; Earlier.DB_PORT := Some "5433";
              Earlier.DB_USERNAME := Some "app"; Earlier.DB_PASSWORD := Some "secret";
              Earlier.DB_NAME := Some "shop" |}) by (vm_compute; reflexivity).
  split; [exact H|].
  pose proof (earlier_discrete_first Sample.URL Sample.envBoth _ H) as Hf.
  assert (Hu : databaseUrl Sample.URL Sample.envBoth
               = Some {| hostname := "remote"; port := "6543"; username := "u";
                         password := "p"; pathname := "/other" |})
    by (vm_compute; reflexivity).
  rewrite Hu in Hf. destruct Hf as (_ & _ & _ & _ & _ & Hhost & _).
  apply (Hhost "localhost"); vm_compute; reflexivity.
Defined.

(** X18.  The earlier variant exits with a failure exactly when the URL is
    set, not empty and not well formed, or when, after the URL has filled
    the gaps, the host or the database name is missing or empty.  A user
    name is not required, and a URL that does not parse is fatal even when
    the discrete variables are complete. *)
Theorem earlier_fatal_iff (URL : string -> option Url) (env : gmap string string) :
  ((Earlier.resolve URL env).1 = None <->
     match env !! "DATABASE_URL" with
     | Some s =>
         if Str.truthy s then
           match URL s with
           | Some u =>
               Earlier.orElse (env !! "DB_HOST") (hostname u) = EmptyString
               \/ Earlier.orElse (env !! "DB_NAME")
                    (Earlier.stripLeadingSlash (pathname u)) = EmptyString
           | None => True
           end
         else truthyVar env "DB_HOST" = false \/ truthyVar env "DB_NAME" = false
     | None => truthyVar env "DB_HOST" = false \/ truthyVar env "DB_NAME" = false
     end)
  /\ (forall s, env !! "DATABASE_URL" = Some s -> Str.truthy s = true -> URL s = None ->
        Earlier.resolve URL env = (None, [LogError ("Invalid DATABASE_URL: " +:+ s)])).
Proof.
  assert (Hval : forall x, (Earlier.validate x).1 = None <->
            Earlier.truthyOpt (Earlier.DB_HOST x) = false
            \/ Earlier.truthyOpt (Earlier.DB_NAME x) = false).
  { intros x. unfold Earlier.validate.
    destruct (Earlier.truthyOpt (Earlier.DB_HOST x)),
             (Earlier.truthyOpt (Earlier.DB_NAME x)); cbn; intuition discriminate. }
  split.
  - unfold Earlier.resolve.
    destruct (env !! "DATABASE_URL") as [s|]; [|apply Hval].
    destruct (Str.truthy s); [|apply Hval].
    destruct (URL s) as [u|]; [|cbn; tauto].
    rewrite Hval. cbn [Earlier.fillFrom Earlier.destructure Earlier.DB_HOST
      Earlier.DB_NAME Earlier.truthyOpt]. unfold Str.truthy.
    now rewrite !negb_false_iff, !String.eqb_eq.
  - intros s Hs Ht Hu. unfold Earlier.resolve. now rewrite Hs, Ht, Hu.
Qed.

Lemma earlier_fatal_iff_witness :
  Sample.envBadUrl !! "DATABASE_URL" = Some "not a url"
  /\ Str.truthy "not a url" = true
  /\ Sample.URL "not a url" = None
  /\ Earlier.resolve Sample.URL Sample.envBadUrl
     = (None, [LogError "Invalid DATABASE_URL: not a url"]).
Proof.
  assert (H : Sample.envBadUrl !! "DATABASE_URL" = Some "not a url")
    by (vm_compute; reflexivity).
  split; [exact H|]. split; [reflexivity|]. split; [reflexivity|].
  exact (proj2 (earlier_fatal_iff Sample.URL Sample.envBadUrl) "not a url" H eq_refl eq_refl).
Defined.

(** With two artifacts of the same age, a restore without a file argument
    works on the first one of the listing. *)
Example restore_picks_first_of_ties :
  getLatestBackup "./backups" (readdir More.listing) (mtime More.listing)
  = Some "backups/a.sql"
  /\ hd_error (trace (main Sample.cfg More.listing (Some "restore") None Sample.empty).2)
     = Some (Log "Restoring from backups/a.sql...").
Proof. split; vm_compute; reflexivity. Qed.
